(** * paramak: radial builds, centre-column cylinders and the trim stage

    A shallow embedding of [paramak/assemblies/spherical_tokamak.py] and
    [paramak/assemblies/tokamak.py].  Thicknesses and radii are rationals:
    sums and quotients are taken in the order the code takes them, without
    the rounding of binary floating point, so a statement that a run returns
    assumes what it needs of the computed values (a minor radius that is not
    zero) rather than deriving it from the thicknesses.  Python exceptions
    are an error type, and the assembly under construction together with the
    log of boolean kernel calls is threaded through a small state-and-error
    monad. *)

From Stdlib Require Import String Ascii Bool ZArith QArith Lia Lqa List.
From Stdlib Require Import DecimalString DecimalNat FinFun ListDec.
Import ListNotations.

Local Open Scope string_scope.
Local Open Scope Q_scope.
Local Open Scope list_scope.

(* ------------------------------------------------------------------ *)
(** ** Python values, exceptions and sequence operations *)

Module Py.

Inductive exn : Type :=
| ConfigurationError
| IndexError
| ZeroDivisionError
| ValueError (msg : string).

Inductive result (A : Type) : Type :=
| Ok (a : A)
| Raise (e : exn).
Arguments Ok {A} a.
Arguments Raise {A} e.

Definition rbind {A B} (r : result A) (k : A -> result B) : result B :=
  match r with
  | Ok a => k a
  | Raise e => Raise e
  end.

(** [l[i]] with Python's negative indices. *)
Definition index {A} (l : list A) (i : Z) : result A :=
  let n := Z.of_nat (length l) in
  let j := if (i <? 0)%Z then (i + n)%Z else i in
  if (j <? 0)%Z then Raise IndexError
  else match nth_error l (Z.to_nat j) with
       | Some x => Ok x
       | None => Raise IndexError
       end.

(** One bound of a slice, clamped the way [l[a:b]] clamps it. *)
Definition bound (n k : Z) : Z :=
  if (k <? 0)%Z then Z.max 0 (k + n) else Z.min k n.

(** [l[start:stop]]. *)
Definition slice {A} (l : list A) (start stop : Z) : list A :=
  let n := Z.of_nat (length l) in
  let a := bound n start in
  let b := bound n stop in
  firstn (Z.to_nat (b - a)) (skipn (Z.to_nat a) l).

(** [l[start:]]. *)
Definition slice_from {A} (l : list A) (start : Z) : list A :=
  skipn (Z.to_nat (bound (Z.of_nat (length l)) start)) l.

(** [str(n)] for a natural number, as an f-string prints it. *)
Definition str (n : nat) : string :=
  NilEmpty.string_of_uint (Nat.to_uint n).

(** [sum([item[1] for item in l])]. *)
Definition sum (l : list Q) : Q := fold_left Qplus l 0.

(** [a / b]: a zero divisor raises ZeroDivisionError.  The quotient is the
    exact one; a divisor that is zero only after rounding is not zero here. *)
Definition div (a b : Q) : result Q :=
  if Qeq_bool b 0 then Raise ZeroDivisionError else Ok (a / b).

End Py.
Import Py.

(* ------------------------------------------------------------------ *)
(** ** Build model *)

Inductive LayerType : Type := GAP | SOLID | PLASMA.

Definition LayerType_eqb (a b : LayerType) : bool :=
  match a, b with
  | GAP, GAP | SOLID, SOLID | PLASMA, PLASMA => true
  | _, _ => false
  end.

Definition BuildEntry : Type := (LayerType * Q)%type.
Definition Build : Type := list BuildEntry.

Definition is_plasma (e : BuildEntry) : bool := LayerType_eqb (fst e) PLASMA.
Definition is_solid (e : BuildEntry) : bool := LayerType_eqb (fst e) SOLID.
Definition is_gap (e : BuildEntry) : bool := LayerType_eqb (fst e) GAP.

Definition thicknesses (b : Build) : list Q := map snd b.

(** The invariant of a build in the data model: exactly one PLASMA entry and
    strictly positive thicknesses. *)
Definition plasma_count (b : Build) : nat := length (filter is_plasma b).

Definition exactly_one_plasma (b : Build) : Prop := plasma_count b = 1%nat.

Definition valid_build (b : Build) : Prop :=
  exactly_one_plasma b /\ Forall (fun e => 0 < snd e) b.

(** Entries before the first PLASMA entry, and the ones from it onwards. *)
Fixpoint before_plasma (b : Build) : Build :=
  match b with
  | [] => []
  | e :: r => if is_plasma e then [] else e :: before_plasma r
  end.

Fixpoint from_plasma (b : Build) : Build :=
  match b with
  | [] => []
  | e :: r => if is_plasma e then b else from_plasma r
  end.

Definition after_plasma (b : Build) : Build := tl (from_plasma b).

Module Utils.

(** Modelled from the spec: [get_plasma_index] of [paramak/utils.py] is not
    among the sources.  Section 4.1: the unique index of the PLASMA entry;
    fails with ConfigurationError if the count of PLASMA entries is not
    exactly 1. *)
Definition get_plasma_index (b : Build) : result nat :=
  if Nat.eqb (plasma_count b) 1 then Ok (length (before_plasma b))
  else Raise ConfigurationError.

(** Modelled from the spec: [sum_up_to_plasma] of [paramak/utils.py].
    Section 4.1: sum of thicknesses of all entries (gap and solid alike)
    strictly before the plasma index. *)
Definition sum_up_to_plasma (b : Build) : result Q :=
  rbind (get_plasma_index b) (fun i => Ok (Py.sum (thicknesses (firstn i b)))).

(** Modelled from the spec: [get_plasma_value] of [paramak/utils.py].
    Section 4.1: thickness of the unique PLASMA entry. *)
Definition get_plasma_value (b : Build) : result Q :=
  rbind (get_plasma_index b) (fun i =>
  rbind (Py.index b (Z.of_nat i)) (fun e => Ok (snd e))).

(** Modelled from the spec: [sum_up_to_gap_before_plasma] of
    [paramak/utils.py].  Section 4.1: the same prefix sum, including a GAP
    entry immediately preceding the plasma. *)
Definition sum_up_to_gap_before_plasma (b : Build) : result Q :=
  sum_up_to_plasma b.

(** Modelled from the spec: [sum_before_after_plasma] of
    [paramak/utils.py].  Section 4.4: the thickness below and above the
    midplane, which runs through the middle of the plasma entry. *)
Definition sum_before_after_plasma (b : Build) : Q * Q :=
  let half := match from_plasma b with
              | e :: _ => snd e / 2
              | [] => 0
              end in
  (Py.sum (thicknesses (before_plasma b)) + half,
   Py.sum (thicknesses (after_plasma b)) + half).

End Utils.

(* ------------------------------------------------------------------ *)
(** ** Solids, the kernel and the assembly *)

(** Solids are kept symbolic: the constructors of [paramak/workplanes], the
    caller's handles, and the results of the kernel's boolean operations. *)
Inductive Solid : Type :=
| center_column_shield_cylinder
    (inner_radius thickness : Q) (name : option string)
    (rotation_angle height : Q) (reference_point : option Q)
| blanket_from_plasma
    (minor_radius major_radius triangularity elongation : Q)
    (thickness offset_from_plasma : Q * Q * Q)
    (start_angle stop_angle rotation_angle : Q)
    (name : string) (connect_to_center : bool)
| plasma_simplified
    (major_radius minor_radius elongation triangularity rotation_angle : Q)
| handle (id : nat)
| union (a b : Solid)
| cut (a b : Solid)
| intersect (a b : Solid)
| component (j : nat) (s : Solid).

(** What the kernel is asked for after cutting: whether the object offers
    [solids] at all, and the connected components it enumerates. *)
Record Kernel : Type := {
  has_solids : Solid -> bool;
  solids : Solid -> list Solid
}.

Inductive kernel_call : Type :=
| KUnion (a b : Solid)
| KCut (a b : Solid)
| KIntersect (a b : Solid)
| KSolids (a : Solid).

Definition is_boolean_call (c : kernel_call) : bool :=
  match c with
  | KUnion _ _ | KCut _ _ | KIntersect _ _ => true
  | KSolids _ => false
  end.

Definition Color : Type := list Q.
Definition default_grey : Color := [1 # 2; 1 # 2; 1 # 2].

(** The caller's colour table, [colors.get(name, (0.5, 0.5, 0.5))]. *)
Definition ColorTable : Type := string -> option Color.
Definition get_color (colors : ColorTable) (name : string) : Color :=
  match colors name with
  | Some c => c
  | None => default_grey
  end.

Record Part : Type := {
  part_name : string;
  part_solid : Solid;
  part_color : Color
}.

(** Modelled from the spec: the [Assembly] class of
    [paramak/assemblies/assembly.py] is not among the sources.  Section 3: an
    ordered collection of named, coloured solids, created empty and populated
    strictly in pipeline order, plus the four derived scalars. *)
Record Assembly : Type := {
  parts : list Part;
  elongation : Q;
  triangularity : Q;
  major_radius : Q;
  minor_radius : Q
}.

Definition part_names (a : Assembly) : list string := map part_name (parts a).

(** Values that may sit in [extra_cut_shapes]: the code tests
    [isinstance(entry, cq.Workplane)]. *)
Inductive pyobj : Type :=
| Workplane (s : Solid)
| PyInt (z : Z)
| PyFloat (q : Q)
| PyStr (s : string)
| PyNone.

Definition isinstance_Workplane (o : pyobj) : bool :=
  match o with
  | Workplane _ => true
  | _ => false
  end.

(** [f"{type(entry)}"]. *)
Definition type_repr (o : pyobj) : string :=
  match o with
  | Workplane _ => "<class 'cadquery.cq.Workplane'>"
  | PyInt _ => "<class 'int'>"
  | PyFloat _ => "<class 'float'>"
  | PyStr _ => "<class 'str'>"
  | PyNone => "<class 'NoneType'>"
  end.

(* ------------------------------------------------------------------ *)
(** ** The state-and-error monad of the pipeline *)

Record state : Type := {
  registered : list Part;
  calls : list kernel_call
}.

Definition empty_state : state := {| registered := []; calls := [] |}.

Definition M (A : Type) : Type := state -> result A * state.

Definition ret {A} (a : A) : M A := fun s => (Ok a, s).

Definition bind {A B} (m : M A) (k : A -> M B) : M B :=
  fun s => match m s with
           | (Ok a, s') => k a s'
           | (Raise e, s') => (Raise e, s')
           end.

Definition raise {A} (e : exn) : M A := fun s => (Raise e, s).

Definition lift {A} (r : result A) : M A := fun s => (r, s).

Declare Scope pipeline_scope.
Delimit Scope pipeline_scope with pipeline.
Notation "x <- m ;; k" := (bind m (fun x => k))
  (at level 61, m at next level, right associativity) : pipeline_scope.
Notation "m ;;; k" := (bind m (fun _ => k))
  (at level 61, right associativity) : pipeline_scope.
Local Open Scope pipeline_scope.

Definition log (c : kernel_call) : M unit :=
  fun s => (Ok tt, {| registered := registered s; calls := calls s ++ [c] |}).

(** [a.union(b)], [a.cut(b)], [a.intersect(b)]. *)
Definition do_union (a b : Solid) : M Solid := log (KUnion a b) ;;; ret (union a b).
Definition do_cut (a b : Solid) : M Solid := log (KCut a b) ;;; ret (cut a b).
Definition do_intersect (a b : Solid) : M Solid :=
  log (KIntersect a b) ;;; ret (intersect a b).

(** [list(entry.solids())]. *)
Definition do_solids (K : Kernel) (a : Solid) : M (list Solid) :=
  log (KSolids a) ;;; ret (solids K a).

(** [name in my_assembly.objects]. *)
Definition name_taken (name : string) (s : state) : bool :=
  existsb (String.eqb name) (map part_name (registered s)).

(** [my_assembly.add(solid, name=name, color=...)], the colour being looked
    up under [name] in the caller's table.
    Modelled from the spec: the assembly maps unique part names to solids, and
    adding under a name that is already taken raises ValueError and leaves
    the assembly as it was. *)
Definition add (colors : ColorTable) (solid : Solid) (name : string) : M unit :=
  fun s =>
    if name_taken name s then (Raise (ValueError "Unique name is required"), s)
    else (Ok tt,
          {| registered := registered s ++
               [{| part_name := name; part_solid := solid;
                   part_color := get_color colors name |}];
             calls := calls s |}).

(** A [for] loop without [break]: the body is run on every element in order,
    threading the loop-carried variables. *)
Fixpoint for_each {A S} (body : S -> A -> M S) (l : list A) (acc : S) : M S :=
  match l with
  | [] => ret acc
  | x :: r => acc' <- body acc x ;; for_each body r acc'
  end.

(** [enumerate(l)], counting from [start]. *)
Fixpoint enumerate_from {A} (start : nat) (l : list A) : list (nat * A) :=
  match l with
  | [] => []
  | x :: r => (start, x) :: enumerate_from (S start) r
  end.
Definition enumerate {A} (l : list A) : list (nat * A) := enumerate_from 0 l.

Definition new_assembly : M unit :=
  fun s => (Ok tt, {| registered := []; calls := calls s |}).

Definition registered_parts : M (list Part) :=
  fun s => (Ok (registered s), s).

(** The entries of [extra_cut_shapes] used as cutters, once the validation
    loop has accepted every one of them. *)
Fixpoint as_solids (l : list pyobj) : list Solid :=
  match l with
  | [] => []
  | Workplane s :: r => s :: as_solids r
  | _ :: r => as_solids r
  end.

Definition layer_name (i : nat) : string := ("layer_" ++ Py.str i)%string.
Definition layer_part_name (i j : nat) : string :=
  ("layer_" ++ Py.str i ++ "_part_" ++ Py.str j)%string.
Definition extra_cut_name (i : nat) : string :=
  ("add_extra_cut_shape_" ++ Py.str i)%string.
Definition extra_intersect_name (i : nat) : string :=
  ("extra_intersect_shapes_" ++ Py.str i)%string.

(** The loop over [extra_cut_shapes] both files open the trim stage with:
    a Workplane is registered as [add_extra_cut_shape_<i+1>], anything else
    raises ValueError naming its type. *)
Definition extra_cut_shapes_message (entry : pyobj) : string :=
  ("extra_cut_shapes should only contain cadquery Workplanes, not "
     ++ type_repr entry)%string.

Definition register_extra_cut_shape (colors : ColorTable)
    (_ : unit) (ie : nat * pyobj) : M unit :=
  let (i, entry) := ie in
  match entry with
  | Workplane w => add colors w (extra_cut_name (i + 1))
  | _ => raise (ValueError (extra_cut_shapes_message entry))
  end.

Definition register_extra_cut_shapes (colors : ColorTable)
    (extra_cut_shapes : list pyobj) : M unit :=
  for_each (register_extra_cut_shape colors) (enumerate extra_cut_shapes) tt.

(** [for cutter in combined_cutters: entry = entry.cut(cutter)]. *)
Definition cut_with_all (entry : Solid) (combined_cutters : list Solid) : M Solid :=
  for_each do_cut combined_cutters entry.

(** The block both files share for "sub-shapes after cuts": with [i] and
    [entry] as they stand, either one part per component or one part for the
    layer. *)
Definition register_layer (K : Kernel) (colors : ColorTable)
    (i : nat) (entry : Solid) : M unit :=
  if has_solids K entry then
    solids_list <- do_solids K entry ;;
    if (1 <? length solids_list)%nat then
      for_each (fun (_ : unit) (js : nat * Solid) =>
                  let (j, subentry) := js in
                  add colors subentry (layer_part_name (i + 1) (j + 1)))
               (enumerate solids_list) tt
    else
      add colors (match solids_list with s :: _ => s | [] => entry end)
          (layer_name (i + 1))
  else
    add colors entry (layer_name (i + 1)).

(** The four scalars every assembly function starts with. *)
Definition equatorial_geometry (radial_build : Build) : result (Q * Q * Q * Q) :=
  rbind (Utils.sum_up_to_plasma radial_build) (fun inner_equatorial_point =>
  rbind (Utils.get_plasma_value radial_build) (fun plasma_radial_thickness =>
  let outer_equatorial_point := inner_equatorial_point + plasma_radial_thickness in
  let major_radius := (outer_equatorial_point + inner_equatorial_point) / 2 in
  let minor_radius := major_radius - inner_equatorial_point in
  Ok (inner_equatorial_point, outer_equatorial_point, major_radius, minor_radius))).

(* ------------------------------------------------------------------ *)
(** ** spherical_tokamak.py *)

Module SphericalTokamak.

Definition create_blanket_layers_after_plasma
    (radial_build vertical_build : Build)
    (minor_radius major_radius triangularity elongation rotation_angle : Q)
    (center_column : Solid) : M (list Solid) :=
  plasma_index_radial <- lift (Utils.get_plasma_index radial_build) ;;
  plasma_index_vertical <- lift (Utils.get_plasma_index vertical_build) ;;
  acc <- for_each
    (fun (acc : list Solid * Q * Q * Q) (ii : nat * BuildEntry) =>
       let '(layers, cumulative_thickness_rb,
             cumulative_thickness_uvb, cumulative_thickness_lvb) := acc in
       let (i, item) := ii in
       upper <- lift (Py.index vertical_build
                        (Z.of_nat plasma_index_vertical + 1 + Z.of_nat i)) ;;
       lower <- lift (Py.index vertical_build
                        (Z.of_nat plasma_index_vertical - 1 - Z.of_nat i)) ;;
       let upper_thicknees := snd upper in
       let lower_thicknees := snd lower in
       let radial_thickness := snd item in
       if is_gap item then
         ret (layers,
              cumulative_thickness_rb + radial_thickness,
              cumulative_thickness_uvb + upper_thicknees,
              cumulative_thickness_lvb + lower_thicknees)
       else
         layer <- do_cut
           (blanket_from_plasma minor_radius major_radius triangularity elongation
              (lower_thicknees, radial_thickness, upper_thicknees)
              (cumulative_thickness_lvb, cumulative_thickness_rb,
               cumulative_thickness_uvb)
              (- (90)) 90 rotation_angle
              (layer_name (plasma_index_radial + i + 1)) true)
           center_column ;;
         ret (layers ++ [layer],
              cumulative_thickness_rb + radial_thickness,
              cumulative_thickness_uvb + upper_thicknees,
              cumulative_thickness_lvb + lower_thicknees))
    (enumerate (Py.slice_from radial_build (Z.of_nat plasma_index_radial + 1)))
    ([], 0, 0, 0) ;;
  ret (fst (fst (fst acc))).

(** The loop of [create_center_column_shield_cylinders], with its two
    [break]s; [rest] is what [enumerate(radial_build)] still has to yield. *)
Fixpoint cylinders_loop (radial_build : Build)
    (rotation_angle center_column_shield_height before : Q)
    (rest : list (nat * BuildEntry))
    (cylinders : list Solid) (total_sum : Q) (layer_count : nat)
    : result (list Solid) :=
  match rest with
  | [] => Ok cylinders
  | (index, item) :: rest' =>
      if is_plasma item then Ok cylinders
      else if is_gap item then
        rbind (Py.index radial_build (Z.of_nat index + 1)) (fun next =>
        if is_plasma next then Ok cylinders
        else cylinders_loop radial_build rotation_angle
               center_column_shield_height before rest'
               cylinders (total_sum + snd item) layer_count)
      else
        let layer_count := (layer_count + 1)%nat in
        let cylinder :=
          center_column_shield_cylinder total_sum (snd item)
            (Some (layer_name layer_count)) rotation_angle
            center_column_shield_height (Some (- before)) in
        cylinders_loop radial_build rotation_angle
          center_column_shield_height before rest'
          (cylinders ++ [cylinder]) (total_sum + snd item) layer_count
  end.

Definition create_center_column_shield_cylinders
    (radial_build vertical_build : Build) (rotation_angle : Q)
    : result (list Solid) :=
  let before := fst (Utils.sum_before_after_plasma vertical_build) in
  let center_column_shield_height := Py.sum (thicknesses vertical_build) in
  cylinders_loop radial_build rotation_angle center_column_shield_height before
    (enumerate radial_build) [] 0 0%nat.

(** Everything [spherical_tokamak] computes before [my_assembly] exists. *)
Definition construct (radial_build vertical_build : Build)
    (triangularity rotation_angle : Q)
    : M (Solid * list Solid * list Solid * (Q * Q * Q)) :=
  geometry <- lift (equatorial_geometry radial_build) ;;
  let '(_, _, major_radius, minor_radius) := geometry in
  plasma_vertical_thickness <- lift (Utils.get_plasma_value vertical_build) ;;
  elongation <- lift (Py.div (plasma_vertical_thickness / 2) minor_radius) ;;
  let blanket_rear_wall_end_height := Py.sum (thicknesses vertical_build) in
  let plasma :=
    plasma_simplified major_radius minor_radius elongation triangularity
      rotation_angle in
  inner_radial_build <-
    lift (create_center_column_shield_cylinders radial_build vertical_build
            rotation_angle) ;;
  cutting_thickness <- lift (Utils.sum_up_to_gap_before_plasma radial_build) ;;
  let blanket_cutting_cylinder :=
    center_column_shield_cylinder 0 cutting_thickness None 360
      (2 * blanket_rear_wall_end_height) None in
  blanket_layers <-
    create_blanket_layers_after_plasma radial_build vertical_build
      minor_radius major_radius triangularity elongation rotation_angle
      blanket_cutting_cylinder ;;
  ret (plasma, inner_radial_build, blanket_layers,
       (elongation, major_radius, minor_radius)).

(** The trim stage: from [my_assembly = Assembly()] to the [plasma] part. *)
Definition trim (K : Kernel) (colors : ColorTable)
    (extra_cut_shapes : list pyobj) (extra_intersect_shapes : list Solid)
    (plasma : Solid) (inner_radial_build blanket_layers : list Solid)
    : M unit :=
  new_assembly ;;;
  register_extra_cut_shapes colors extra_cut_shapes ;;;
  intersect_shapes_to_cut <-
    match extra_intersect_shapes with
    | [] => ret []
    | _ :: _ =>
        seed <- lift (Py.index inner_radial_build 0) ;;
        reactor_compound <-
          for_each do_union (tl inner_radial_build ++ blanket_layers) seed ;;
        for_each (fun (to_cut : list Solid) (ie : nat * Solid) =>
                    let (i, entry) := ie in
                    reactor_entry_intersection <-
                      do_intersect entry reactor_compound ;;
                    add colors reactor_entry_intersection
                      (extra_intersect_name (i + 1)) ;;;
                    ret (to_cut ++ [reactor_entry_intersection]))
                 (enumerate extra_intersect_shapes) []
    end ;;
  (match extra_cut_shapes, intersect_shapes_to_cut with
   | [], [] =>
       for_each (fun (_ : unit) (ie : nat * Solid) =>
                   let (i, entry) := ie in
                   add colors entry (layer_name (i + 1)))
                (enumerate (inner_radial_build ++ blanket_layers)) tt
   | _, _ =>
       for_each (fun (_ : unit) (ie : nat * Solid) =>
                   let (i, entry) := ie in
                   entry <- cut_with_all entry
                              (as_solids extra_cut_shapes ++ intersect_shapes_to_cut) ;;
                   register_layer K colors i entry)
                (enumerate (inner_radial_build ++ blanket_layers)) tt
   end) ;;;
  add colors plasma "plasma".

Definition spherical_tokamak (K : Kernel)
    (radial_build vertical_build : Build) (triangularity rotation_angle : Q)
    (extra_cut_shapes : list pyobj) (extra_intersect_shapes : list Solid)
    (colors : ColorTable) : M Assembly :=
  built <- construct radial_build vertical_build triangularity rotation_angle ;;
  let '(plasma, inner_radial_build, blanket_layers,
        (elongation, major_radius, minor_radius)) := built in
  trim K colors extra_cut_shapes extra_intersect_shapes plasma
    inner_radial_build blanket_layers ;;;
  my_assembly <- registered_parts ;;
  ret {| parts := my_assembly; elongation := elongation;
         triangularity := triangularity; major_radius := major_radius;
         minor_radius := minor_radius |}.

(** [upper_vertical_build[::-1][:-1] + [(PLASMA, h)] + upper_vertical_build[1:]]
    for [upper_vertical_build = radial_build[pi:]]. *)
Definition synthesize_vertical_build (radial_build : Build)
    (elongation : Q) : result Build :=
  rbind (equatorial_geometry radial_build) (fun geometry =>
  let '(_, _, _, minor_radius) := geometry in
  rbind (Utils.get_plasma_index radial_build) (fun pi =>
  let upper_vertical_build := Py.slice_from radial_build (Z.of_nat pi) in
  let plasma_height := 2 * minor_radius * elongation in
  Ok (removelast (rev upper_vertical_build)
        ++ [(PLASMA, plasma_height)] ++ tl upper_vertical_build))).

Definition spherical_tokamak_from_plasma (K : Kernel)
    (radial_build : Build) (elongation triangularity rotation_angle : Q)
    (extra_cut_shapes : list pyobj) (extra_intersect_shapes : list Solid)
    (colors : ColorTable) : M Assembly :=
  vertical_build <- lift (synthesize_vertical_build radial_build elongation) ;;
  spherical_tokamak K radial_build vertical_build triangularity rotation_angle
    extra_cut_shapes extra_intersect_shapes colors.

End SphericalTokamak.

(* ------------------------------------------------------------------ *)
(** ** tokamak.py *)

Module Tokamak.

(** The loop of [count_cylinder_layers]. *)
Fixpoint count_loop (rest : Build) (before_plasma after_plasma : Z)
    (found_plasma : bool) : Z :=
  match rest with
  | [] => (before_plasma - after_plasma)%Z
  | item :: rest' =>
      if is_plasma item then count_loop rest' before_plasma after_plasma true
      else if is_solid item then
        if negb found_plasma
        then count_loop rest' (before_plasma + 1)%Z after_plasma found_plasma
        else count_loop rest' before_plasma (after_plasma + 1)%Z found_plasma
      else count_loop rest' before_plasma after_plasma found_plasma
  end.

Definition count_cylinder_layers (radial_build : Build) : Z :=
  count_loop radial_build 0%Z 0%Z false.

(** The loop of [create_center_column_shield_cylinders], with its two
    [break]s. *)
Fixpoint cylinders_loop (rotation_angle center_column_shield_height : Q)
    (number_of_cylinder_layers : Z) (rest : Build)
    (cylinders : list Solid) (total_sum : Q) (layer_count : nat)
    : list Solid :=
  match rest with
  | [] => cylinders
  | item :: rest' =>
      if is_plasma item then cylinders
      else if is_gap item then
        cylinders_loop rotation_angle center_column_shield_height
          number_of_cylinder_layers rest' cylinders (total_sum + snd item)
          layer_count
      else
        let thickness := snd item in
        let layer_count := (layer_count + 1)%nat in
        if (number_of_cylinder_layers <? Z.of_nat layer_count)%Z then cylinders
        else
          let cylinder :=
            center_column_shield_cylinder total_sum (snd item)
              (Some (layer_name layer_count)) rotation_angle
              center_column_shield_height None in
          cylinders_loop rotation_angle center_column_shield_height
            number_of_cylinder_layers rest' (cylinders ++ [cylinder])
            (total_sum + thickness) layer_count
  end.

Definition create_center_column_shield_cylinders (radial_build : Build)
    (rotation_angle center_column_shield_height : Q) : list Solid :=
  cylinders_loop rotation_angle center_column_shield_height
    (count_cylinder_layers radial_build) radial_build [] 0 0%nat.

Definition create_layers_from_plasma
    (radial_build vertical_build : Build)
    (minor_radius major_radius triangularity elongation rotation_angle : Q)
    (center_column : Solid) : M (list Solid) :=
  plasma_index_rb <- lift (Utils.get_plasma_index radial_build) ;;
  plasma_index_vb <- lift (Utils.get_plasma_index vertical_build) ;;
  let indexes_from_plamsa_to_end := (length radial_build - plasma_index_rb)%nat in
  acc <- for_each
    (fun (acc : list Solid * (Q * Q * Q * Q)) (index_delta : nat) =>
       let '(layers, (cumulative_thickness_orb, cumulative_thickness_irb,
                      cumulative_thickness_uvb, cumulative_thickness_lvb)) := acc in
       let d := Z.of_nat index_delta in
       outer <- lift (Py.index radial_build (Z.of_nat plasma_index_rb + d)) ;;
       if is_plasma outer then ret acc
       else
         let outer_layer_thickness := snd outer in
         inner <- lift (Py.index radial_build (Z.of_nat plasma_index_rb - d)) ;;
         let inner_layer_thickness := snd inner in
         upper <- lift (Py.index vertical_build (Z.of_nat plasma_index_vb - d)) ;;
         let upper_layer_thickness := snd upper in
         lower <- lift (Py.index vertical_build (Z.of_nat plasma_index_vb + d)) ;;
         let lower_layer_thickness := snd lower in
         let advanced :=
           (cumulative_thickness_orb + outer_layer_thickness,
            cumulative_thickness_irb + inner_layer_thickness,
            cumulative_thickness_uvb + upper_layer_thickness,
            cumulative_thickness_lvb + lower_layer_thickness) in
         if is_gap outer then ret (layers, advanced)
         else if is_solid outer then
           let outer_layer :=
             blanket_from_plasma minor_radius major_radius triangularity elongation
               (upper_layer_thickness, outer_layer_thickness, lower_layer_thickness)
               (cumulative_thickness_uvb, cumulative_thickness_orb,
                cumulative_thickness_lvb)
               90 (- (90)) rotation_angle (layer_name index_delta) false in
           let inner_layer :=
             blanket_from_plasma minor_radius major_radius triangularity elongation
               (lower_layer_thickness, inner_layer_thickness, upper_layer_thickness)
               (cumulative_thickness_lvb, cumulative_thickness_irb,
                cumulative_thickness_uvb)
               (- (90)) (- (270)) rotation_angle (layer_name index_delta) false in
           layer <- do_union outer_layer inner_layer ;;
           ret (layers ++ [layer], advanced)
         else ret (layers, advanced))
    (seq 0 indexes_from_plamsa_to_end)
    ([], (0, 0, 0, 0)) ;;
  ret (fst acc).

(** Everything [tokamak] computes before [my_assembly] exists; the argument
    [inner_radial_build[0]] is read before [create_layers_from_plasma] is
    entered. *)
Definition construct (radial_build vertical_build : Build)
    (triangularity rotation_angle : Q)
    : M (Solid * list Solid * list Solid * (Q * Q * Q)) :=
  geometry <- lift (equatorial_geometry radial_build) ;;
  let '(_, _, major_radius, minor_radius) := geometry in
  plasma_vertical_thickness <- lift (Utils.get_plasma_value vertical_build) ;;
  elongation <- lift (Py.div (plasma_vertical_thickness / 2) minor_radius) ;;
  let blanket_rear_wall_end_height := Py.sum (thicknesses vertical_build) in
  let plasma :=
    plasma_simplified major_radius minor_radius elongation triangularity
      rotation_angle in
  let inner_radial_build :=
    create_center_column_shield_cylinders radial_build rotation_angle
      blanket_rear_wall_end_height in
  center_column <- lift (Py.index inner_radial_build 0) ;;
  blanket_layers <-
    create_layers_from_plasma radial_build vertical_build minor_radius
      major_radius triangularity elongation rotation_angle center_column ;;
  ret (plasma, inner_radial_build, blanket_layers,
       (elongation, major_radius, minor_radius)).

(** The inner loop over the layers as [tokamak] has it: it only rebinds [i]
    and [entry]; what follows it runs once, on their last values. *)
Definition cut_layers (extra_cut_shapes intersect_shapes_to_cut : list Solid)
    (layers : list Solid) (i : nat) (entry : Solid) : M (nat * Solid) :=
  for_each (fun (_ : nat * Solid) (ie : nat * Solid) =>
              let (i, entry) := ie in
              let combined_cutters := extra_cut_shapes ++ intersect_shapes_to_cut in
              match combined_cutters with
              | [] => ret (i, entry)
              | _ :: _ =>
                  entry <- cut_with_all entry combined_cutters ;;
                  ret (i, entry)
              end)
           (enumerate layers) (i, entry).

(** The trim stage: from [my_assembly = Assembly()] to the end of the
    loop over [extra_intersect_shapes]. *)
Definition trim (K : Kernel) (colors : ColorTable)
    (extra_cut_shapes : list pyobj) (extra_intersect_shapes : list Solid)
    (inner_radial_build blanket_layers : list Solid) : M unit :=
  new_assembly ;;;
  register_extra_cut_shapes colors extra_cut_shapes ;;;
  match extra_intersect_shapes with
  | [] => ret tt
  | _ :: _ =>
      seed <- lift (Py.index inner_radial_build 0) ;;
      reactor_compound <-
        for_each do_union (tl inner_radial_build ++ blanket_layers) seed ;;
      for_each (fun (intersect_shapes_to_cut : list Solid) (ie : nat * Solid) =>
                  let (i, entry) := ie in
                  reactor_entry_intersection <-
                    do_intersect entry reactor_compound ;;
                  let intersect_shapes_to_cut :=
                    intersect_shapes_to_cut ++ [reactor_entry_intersection] in
                  add colors reactor_entry_intersection
                    (extra_intersect_name (i + 1)) ;;;
                  match extra_cut_shapes, intersect_shapes_to_cut with
                  | [], [] => ret intersect_shapes_to_cut
                  | _, _ =>
                      last <- cut_layers (as_solids extra_cut_shapes)
                                intersect_shapes_to_cut
                                (inner_radial_build ++ blanket_layers) i entry ;;
                      register_layer K colors (fst last) (snd last) ;;;
                      ret intersect_shapes_to_cut
                  end)
               (enumerate extra_intersect_shapes) [] ;;;
      ret tt
  end.

Definition tokamak (K : Kernel)
    (radial_build vertical_build : Build) (triangularity rotation_angle : Q)
    (extra_cut_shapes : list pyobj) (extra_intersect_shapes : list Solid)
    (colors : ColorTable) : M Assembly :=
  built <- construct radial_build vertical_build triangularity rotation_angle ;;
  let '(plasma, inner_radial_build, blanket_layers,
        (elongation, major_radius, minor_radius)) := built in
  trim K colors extra_cut_shapes extra_intersect_shapes
    inner_radial_build blanket_layers ;;;
  my_assembly <- registered_parts ;;
  ret {| parts := my_assembly; elongation := elongation;
         triangularity := triangularity; major_radius := major_radius;
         minor_radius := minor_radius |}.

(** [radial_build[pi - rbi: pi][::-1]]: the entries met walking back from
    the plasma index, as many as there are entries after the plasma. *)
Definition upper_vertical_build (radial_build : Build) (pi : nat) : Build :=
  let rbi := (Z.of_nat (length radial_build) - 1 - Z.of_nat pi)%Z in
  rev (Py.slice radial_build (Z.of_nat pi - rbi) (Z.of_nat pi)).

(** [upper_vertical_build[::-1] + [(PLASMA, h)] + upper_vertical_build]. *)
Definition synthesize_vertical_build (radial_build : Build)
    (elongation : Q) : result Build :=
  rbind (equatorial_geometry radial_build) (fun geometry =>
  let '(_, _, _, minor_radius) := geometry in
  rbind (Utils.get_plasma_index radial_build) (fun pi =>
  let upper := upper_vertical_build radial_build pi in
  let plasma_height := 2 * minor_radius * elongation in
  Ok (rev upper ++ [(PLASMA, plasma_height)] ++ upper))).

Definition tokamak_from_plasma (K : Kernel)
    (radial_build : Build) (elongation triangularity rotation_angle : Q)
    (extra_cut_shapes : list pyobj) (extra_intersect_shapes : list Solid)
    (colors : ColorTable) : M Assembly :=
  vertical_build <- lift (synthesize_vertical_build radial_build elongation) ;;
  tokamak K radial_build vertical_build triangularity rotation_angle
    extra_cut_shapes extra_intersect_shapes colors.

End Tokamak.

(* ------------------------------------------------------------------ *)
(** ** Concrete inputs *)

(** The radial build of the spherical examples. *)
Definition example_radial_build : Build :=
  [(GAP, 10); (SOLID, 50); (SOLID, 15); (GAP, 50); (PLASMA, 300);
   (GAP, 60); (SOLID, 15); (SOLID, 60); (SOLID, 10)].

(** The vertical build of [examples/spherical_tokamak_minimal.py]. *)
Definition example_vertical_build : Build :=
  [(SOLID, 15); (SOLID, 80); (SOLID, 10); (GAP, 50); (PLASMA, 700);
   (GAP, 60); (SOLID, 10); (SOLID, 40); (SOLID, 15)].

(** The radial build of [examples/tokamak_from_plasma_with_color.py]. *)
Definition tokamak_radial_build : Build :=
  [(GAP, 10); (SOLID, 30); (SOLID, 50); (SOLID, 10); (SOLID, 120);
   (SOLID, 20); (GAP, 60); (PLASMA, 300); (GAP, 60); (SOLID, 20);
   (SOLID, 120); (SOLID, 10)].

(** The vertical build [tokamak_from_plasma] synthesizes from it for
    elongation 2. *)
Definition tokamak_vertical_build : Build :=
  [(SOLID, 10); (SOLID, 120); (SOLID, 20); (GAP, 60); (PLASMA, 600);
   (GAP, 60); (SOLID, 20); (SOLID, 120); (SOLID, 10)].

(** A kernel for which every solid is in one piece, and one for which every
    solid falls into two. *)
Definition one_piece : Kernel :=
  {| has_solids := fun _ => true; solids := fun s => [s] |}.
Definition two_pieces : Kernel :=
  {| has_solids := fun _ => true;
     solids := fun s => [component 1 s; component 2 s] |}.

Definition no_colors : ColorTable := fun _ => None.

(* ------------------------------------------------------------------ *)
(** ** Definitions used in the statements *)

(** Inner radius, outer radius and name of a centre-column cylinder. *)
Definition shell_of (s : Solid) : option (Q * Q * string) :=
  match s with
  | center_column_shield_cylinder inner_radius thickness (Some name) _ _ _ =>
      Some (inner_radius, inner_radius + thickness, name)
  | _ => None
  end.

Definition solid_count (b : Build) : nat := length (filter is_solid b).

(** What the centre column is said to consist of: for every SOLID entry
    before the plasma, the sum of the thicknesses of all the entries in front
    of it (gaps included) and its own thickness.  [prefix] holds the
    thicknesses already walked past. *)
Fixpoint solid_shells (prefix : list Q) (b : Build) : list (Q * Q) :=
  match b with
  | [] => []
  | e :: r =>
      if is_plasma e then []
      else if is_solid e
           then (Py.sum prefix, snd e) :: solid_shells (prefix ++ [snd e]) r
           else solid_shells (prefix ++ [snd e]) r
  end.

(** The cylinder for the [k]-th shell (counting from 0). *)
Definition cylinder_of (rotation_angle height : Q) (ks : nat * (Q * Q)) : Solid :=
  let '(k, (inner_radius, thickness)) := ks in
  center_column_shield_cylinder inner_radius thickness
    (Some (layer_name (k + 1))) rotation_angle height None.

Definition minor_radius_of (radial_build : Build) : Q :=
  match equatorial_geometry radial_build with
  | Ok (_, _, _, minor) => minor
  | Raise _ => 0
  end.

(** The synthesis as it is described: some sequence [inboard] with as many
    entries as the radial build has after its plasma, mirrored around a
    PLASMA entry of thickness 2 * minor_radius * elongation. *)
Definition mirrors_inboard (radial_build : Build) (elongation : Q) : Prop :=
  exists inboard,
    length inboard = length (after_plasma radial_build)
    /\ Tokamak.synthesize_vertical_build radial_build elongation
       = Ok (rev inboard
               ++ [(PLASMA, 2 * minor_radius_of radial_build * elongation)]
               ++ inboard).

(** One entry inboard of the plasma, two outboard. *)
Definition short_inboard_build : Build :=
  [(SOLID, 50); (PLASMA, 300); (GAP, 60); (SOLID, 20)].

(** The Workplanes in front of the first entry that is not one, and that
    entry. *)
Fixpoint valid_prefix (l : list pyobj) : list Solid :=
  match l with
  | Workplane s :: r => s :: valid_prefix r
  | _ => []
  end.

Fixpoint first_invalid (l : list pyobj) : option pyobj :=
  match l with
  | [] => None
  | Workplane _ :: r => first_invalid r
  | o :: _ => Some o
  end.

Definition part_of (colors : ColorTable) (name : string) (solid : Solid) : Part :=
  {| part_name := name; part_solid := solid; part_color := get_color colors name |}.

(** The parts [add_extra_cut_shape_<start+1>], ... for the given solids. *)
Definition extra_cut_parts (colors : ColorTable) (start : nat)
    (shapes : list Solid) : list Part :=
  map (fun ks : nat * Solid => part_of colors (extra_cut_name (fst ks + 1)) (snd ks))
      (enumerate_from start shapes).

Definition validation_outcome (l : list pyobj) : result unit :=
  match first_invalid l with
  | None => Ok tt
  | Some bad => Raise (ValueError (extra_cut_shapes_message bad))
  end.

(** Failing before any work was done: an exception, an assembly without
    parts and no boolean call asked of the kernel. *)
Definition fails_before_any_work (outcome : result Assembly * state) : Prop :=
  (exists e, fst outcome = Raise e)
  /\ registered (snd outcome) = []
  /\ filter is_boolean_call (calls (snd outcome)) = [].

(** Every registered part has a name satisfying [P]. *)
Definition names_ok (P : string -> Prop) (st : state) : Prop :=
  Forall (fun p => P (part_name p)) (registered st).

(** A step that keeps it so, whatever it returns or raises. *)
Definition stable {A} (P : string -> Prop) (m : M A) : Prop :=
  forall st r st', names_ok P st -> m st = (r, st') -> names_ok P st'.

(** [entry] after [for cutter in cutters: entry = entry.cut(cutter)]. *)
Definition cut_all (entry : Solid) (cutters : list Solid) : Solid :=
  fold_left cut cutters entry.

(** The parts of a layer that has been cut: one per component when the
    kernel enumerates more than one, otherwise the single part layer_<i+1>. *)
Definition decomposed (K : Kernel) (colors : ColorTable) (i : nat)
    (entry : Solid) : list Part :=
  if has_solids K entry then
    let solids_list := solids K entry in
    if (1 <? length solids_list)%nat then
      map (fun js : nat * Solid =>
             part_of colors (layer_part_name (i + 1) (fst js + 1)) (snd js))
          (enumerate solids_list)
    else
      [part_of colors (layer_name (i + 1))
         (match solids_list with s :: _ => s | [] => entry end)]
  else [part_of colors (layer_name (i + 1)) entry].

(** The parts of the [i]-th layer (counting from 0) for a cutter list:
    without cutters the layer itself, with cutters the decomposition of the
    layer cut by each of them in turn. *)
Definition parts_of_layer (K : Kernel) (colors : ColorTable)
    (cutters : list Solid) (ie : nat * Solid) : list Part :=
  match cutters with
  | [] => [part_of colors (layer_name (fst ie + 1)) (snd ie)]
  | _ :: _ => decomposed K colors (fst ie) (cut_all (snd ie) cutters)
  end.

(** The union of the layers in list order, seeded with the first. *)
Definition reactor_compound_of (layers : list Solid) : Solid :=
  match layers with
  | seed :: others => fold_left union others seed
  | [] => handle 0
  end.

Definition intersections (shapes : list Solid) (compound : Solid) : list Solid :=
  map (fun entry => intersect entry compound) shapes.

Definition extra_intersect_parts (colors : ColorTable) (start : nat)
    (shapes : list Solid) (compound : Solid) : list Part :=
  map (fun ie : nat * Solid =>
         part_of colors (extra_intersect_name (fst ie + 1))
           (intersect (snd ie) compound))
      (enumerate_from start shapes).

(** The ValueError of an [add] under a name that is taken. *)
Definition name_clash {A} : result A :=
  Raise (ValueError "Unique name is required").

(** A step that registers the parts [X] one after the other and returns [a].
    It does so when no name is registered twice; otherwise it raises
    ValueError at the first name that is already taken, the parts in front
    of that one being registered. *)
Definition appends {A} (m : M A) (a : A) (X : list Part) : Prop :=
  forall st,
    (NoDup (map part_name (registered st ++ X)) ->
     exists log,
       m st = (Ok a, {| registered := registered st ++ X; calls := log |}))
    /\ (NoDup (map part_name (registered st)) ->
        ~ NoDup (map part_name (registered st ++ X)) ->
        exists X' rest log,
          X = X' ++ rest
          /\ m st = (name_clash,
                     {| registered := registered st ++ X'; calls := log |})).

Definition is_plasma_solid (s : Solid) : bool :=
  match s with
  | plasma_simplified _ _ _ _ _ => true
  | _ => false
  end.

(** The operands of the cuts in a kernel log. *)
Definition cut_operands (log : list kernel_call) : list Solid :=
  flat_map (fun c => match c with KCut a b => [a; b] | _ => [] end) log.

(** The cylinder the spherical builder makes for the [k]-th shell (counting
    from 0): it carries the reference point at the lower edge. *)
Definition spherical_cylinder_of (rotation_angle height before : Q)
    (ks : nat * (Q * Q)) : Solid :=
  let '(k, (inner_radius, thickness)) := ks in
  center_column_shield_cylinder inner_radius thickness
    (Some (layer_name (k + 1))) rotation_angle height (Some (- before)).

(** The loop of [distance_to_plasma] of tokamak.py, with its [break]. *)
Fixpoint distance_loop (rest : Build) (distance : Q) : Q :=
  match rest with
  | [] => distance
  | item :: rest' =>
      if is_plasma item then distance
      else distance_loop rest' (distance + snd item)
  end.

(** [distance_to_plasma(radial_build, index)] of tokamak.py: the loop runs
    over [radial_build[index + 1:]]. *)
Definition distance_to_plasma (radial_build : Build) (index : Z) : Q :=
  distance_loop (Py.slice_from radial_build (index + 1)) 0.

(** The blanket layers of the spherical tokamak read off three aligned lists:
    the radial entries after the plasma, the vertical entries above the plasma
    and the vertical entries below it, nearest first.  [offsets] are the
    thicknesses walked past so far (radial, upper, lower) and [number] is the
    number in the next layer's name. *)
Fixpoint blanket_shells
    (minor_radius major_radius triangularity elongation rotation_angle : Q)
    (center_column : Solid) (number : nat)
    (radial upper lower : Build) (offsets : Q * Q * Q) : list Solid :=
  match radial, upper, lower with
  | item :: radial', u :: upper', l :: lower' =>
      let '(radial_offset, upper_offset, lower_offset) := offsets in
      let rest :=
        blanket_shells minor_radius major_radius triangularity elongation
          rotation_angle center_column (S number) radial' upper' lower'
          (radial_offset + snd item, upper_offset + snd u, lower_offset + snd l) in
      if is_gap item then rest
      else
        cut (blanket_from_plasma minor_radius major_radius triangularity
               elongation (snd l, snd item, snd u)
               (lower_offset, radial_offset, upper_offset)
               (- (90)) 90 rotation_angle (layer_name number) true)
            center_column
        :: rest
  | _, _, _ => []
  end.

(** The kernel calls that produced a list of cut solids. *)
Definition cut_calls (layers : list Solid) : list kernel_call :=
  flat_map (fun s => match s with cut a b => [KCut a b] | _ => [] end) layers.

(** Entries that are not gaps. *)
Definition not_gap_count (b : Build) : nat :=
  length (filter (fun e => negb (is_gap e)) b).

(** A state in which every registered part satisfies [P] and every logged
    kernel call satisfies [C]. *)
Definition state_ok (P : Part -> Prop) (C : kernel_call -> Prop) (st : state) : Prop :=
  Forall P (registered st) /\ Forall C (calls st).

(** A step that keeps it so, whatever it returns or raises. *)
Definition keeps {A} (P : Part -> Prop) (C : kernel_call -> Prop) (m : M A) : Prop :=
  forall st r st', state_ok P C st -> m st = (r, st') -> state_ok P C st'.

(** A solid that is not a plasma, and a kernel call that does not cut a
    plasma nor cut with one. *)
Definition not_plasma (s : Solid) : Prop := is_plasma_solid s = false.

Definition spares_plasma (c : kernel_call) : Prop :=
  match c with
  | KCut a b => not_plasma a /\ not_plasma b
  | _ => True
  end.

(** What a step returns, when it returns, satisfies [R]. *)
Definition yields {A} (m : M A) (R : A -> Prop) : Prop :=
  forall st a st', m st = (Ok a, st') -> R a.

(** The lofted layers of the conventional tokamak read off four aligned
    lists: the radial entries after the plasma, the radial entries in front of
    it going inwards, and the vertical entries on the two sides of the
    plasma, all nearest first ([upper] holds the ones in front of the vertical
    plasma entry, [lower] the ones after it).  [offsets] are the thicknesses
    walked past so far and [number] is the number in the next layer's name. *)
Fixpoint tokamak_shells
    (minor_radius major_radius triangularity elongation rotation_angle : Q)
    (number : nat) (outer inner upper lower : Build)
    (offsets : Q * Q * Q * Q) : list Solid :=
  match outer, inner, upper, lower with
  | o :: outer', i :: inner', u :: upper', l :: lower' =>
      let '(outer_offset, inner_offset, upper_offset, lower_offset) := offsets in
      let advanced :=
        (outer_offset + snd o, inner_offset + snd i,
         upper_offset + snd u, lower_offset + snd l) in
      if is_plasma o then
        tokamak_shells minor_radius major_radius triangularity elongation
          rotation_angle (S number) outer' inner' upper' lower' offsets
      else if is_gap o then
        tokamak_shells minor_radius major_radius triangularity elongation
          rotation_angle (S number) outer' inner' upper' lower' advanced
      else if is_solid o then
        union
          (blanket_from_plasma minor_radius major_radius triangularity elongation
             (snd u, snd o, snd l) (upper_offset, outer_offset, lower_offset)
             90 (- (90)) rotation_angle (layer_name number) false)
          (blanket_from_plasma minor_radius major_radius triangularity elongation
             (snd l, snd i, snd u) (lower_offset, inner_offset, upper_offset)
             (- (90)) (- (270)) rotation_angle (layer_name number) false)
        :: tokamak_shells minor_radius major_radius triangularity elongation
             rotation_angle (S number) outer' inner' upper' lower' advanced
      else
        tokamak_shells minor_radius major_radius triangularity elongation
          rotation_angle (S number) outer' inner' upper' lower' advanced
  | _, _, _, _ => []
  end.

(** The kernel calls that produced a list of unions. *)
Definition union_calls (layers : list Solid) : list kernel_call :=
  flat_map (fun s => match s with union a b => [KUnion a b] | _ => [] end) layers.

(** What the loop over [extra_intersect_shapes] of [tokamak] registers: for
    the [k]-th shape (counting from 0) the part extra_intersect_shapes_<k+1>,
    then the parts of the one layer the code still holds when its loop over
    the layers has ended, which is the last, cut by the extra-cut shapes and
    by the intersections of the first k+1 shapes. *)
Definition tokamak_intersect_parts (K : Kernel) (colors : ColorTable)
    (cuts : list Solid) (compound : Solid) (last_index : nat)
    (last_layer : Solid) (shapes : list Solid) (from : list (nat * Solid))
    : list Part :=
  flat_map
    (fun kx : nat * Solid =>
       part_of colors (extra_intersect_name (fst kx + 1))
         (intersect (snd kx) compound)
       :: decomposed K colors last_index
            (cut_all last_layer
               (cuts ++ intersections (firstn (S (fst kx)) shapes) compound)))
    from.

(** The layers [tokamak] builds: the centre-column cylinders, then the
    lofted layers around the plasma. *)
Definition tokamak_layers (radial_build vertical_build : Build)
    (minor_radius major_radius triangularity elongation rotation_angle : Q)
    : list Solid :=
  map (cylinder_of rotation_angle (Py.sum (thicknesses vertical_build)))
    (enumerate
       (firstn (Z.to_nat (Tokamak.count_cylinder_layers radial_build))
          (solid_shells [] radial_build)))
  ++ tokamak_shells minor_radius major_radius triangularity elongation
       rotation_angle 1
       (after_plasma radial_build) (rev (before_plasma radial_build))
       (rev (before_plasma vertical_build)) (after_plasma vertical_build)
       (0, 0, 0, 0).

(** A decimal digit, and a string of decimal digits. *)
Definition is_digit (c : ascii) : bool :=
  ((48 <=? nat_of_ascii c) && (nat_of_ascii c <=? 57))%nat.

Fixpoint digits_only (s : string) : bool :=
  match s with
  | EmptyString => true
  | String c r => is_digit c && digits_only r
  end.

(** The names layer number [i] can be registered under. *)
Definition layer_family (i : nat) (name : string) : Prop :=
  name = layer_name i \/ exists j, name = layer_part_name i j.

(** Whether a cut layer is registered piece by piece, under the names
    layer_<i>_part_<j>, rather than under the one name layer_<i>. *)
Definition in_pieces (K : Kernel) (entry : Solid) : bool :=
  has_solids K entry && (1 <? length (solids K entry))%nat.

(** The major radius and the elongation [tokamak] and [spherical_tokamak]
    compute; 0 stands for no value. *)
Definition major_radius_of (radial_build : Build) : Q :=
  match equatorial_geometry radial_build with
  | Ok (_, _, major, _) => major
  | Raise _ => 0
  end.

Definition elongation_of (radial_build vertical_build : Build) : Q :=
  match Utils.get_plasma_value vertical_build with
  | Ok plasma_vertical_thickness =>
      plasma_vertical_thickness / 2 / minor_radius_of radial_build
  | Raise _ => 0
  end.

(** What [tokamak] registers when no name clashes: the extra-cut shapes and
    what its loop over [extra_intersect_shapes] adds. *)
Definition tokamak_parts (K : Kernel) (colors : ColorTable)
    (radial_build vertical_build : Build) (triangularity rotation_angle : Q)
    (extra_cut_shapes extra_intersect_shapes : list Solid) : list Part :=
  let layers :=
    tokamak_layers radial_build vertical_build (minor_radius_of radial_build)
      (major_radius_of radial_build) triangularity
      (elongation_of radial_build vertical_build) rotation_angle in
  extra_cut_parts colors 0 extra_cut_shapes
  ++ tokamak_intersect_parts K colors extra_cut_shapes
       (reactor_compound_of layers) (length layers - 1)
       (last layers (handle 0)) extra_intersect_shapes
       (enumerate extra_intersect_shapes).

(* ------------------------------------------------------------------ *)
(** ** Facts about builds *)

Section BuildFacts.

Lemma split_at_plasma (b : Build) : b = before_plasma b ++ from_plasma b.
Proof.
  induction b as [|e r IH]; simpl; [reflexivity|].
  destruct (is_plasma e); simpl; [reflexivity | now rewrite <- IH].
Qed.

Lemma before_plasma_no_plasma (b : Build) :
  Forall (fun e => is_plasma e = false) (before_plasma b).
Proof.
  induction b as [|e r IH]; simpl; [constructor|].
  destruct (is_plasma e) eqn:E; [constructor | now constructor].
Qed.

Lemma filter_no_plasma (l : Build) :
  Forall (fun e => is_plasma e = false) l -> filter is_plasma l = [].
Proof.
  induction 1 as [|e r He _ IH]; simpl; [reflexivity | now rewrite He].
Qed.

Lemma no_plasma_filter (l : Build) :
  filter is_plasma l = [] -> Forall (fun e => is_plasma e = false) l.
Proof.
  induction l as [|e r IH]; simpl; [constructor|].
  destruct (is_plasma e) eqn:E; [discriminate | now constructor; auto].
Qed.

(** A build written around its plasma entry. *)
Lemma before_plasma_app (pre post : Build) (p : BuildEntry) :
  Forall (fun e => is_plasma e = false) pre -> is_plasma p = true ->
  before_plasma (pre ++ p :: post) = pre.
Proof.
  intros Hpre Hp. induction Hpre as [|e r He _ IH]; simpl.
  - now rewrite Hp.
  - now rewrite He, IH.
Qed.

Lemma from_plasma_app (pre post : Build) (p : BuildEntry) :
  Forall (fun e => is_plasma e = false) pre -> is_plasma p = true ->
  from_plasma (pre ++ p :: post) = p :: post.
Proof.
  intros Hpre Hp. induction Hpre as [|e r He _ IH]; simpl.
  - now rewrite Hp.
  - now rewrite He, IH.
Qed.

Lemma plasma_count_app (pre post : Build) (p : BuildEntry) :
  Forall (fun e => is_plasma e = false) pre -> is_plasma p = true ->
  Forall (fun e => is_plasma e = false) post ->
  plasma_count (pre ++ p :: post) = 1%nat.
Proof.
  intros Hpre Hp Hpost. unfold plasma_count.
  rewrite filter_app. simpl. rewrite Hp.
  now rewrite (filter_no_plasma _ Hpre), (filter_no_plasma _ Hpost).
Qed.

Lemma is_plasma_entry (e : BuildEntry) :
  is_plasma e = true -> e = (PLASMA, snd e).
Proof.
  destruct e as [[| |] t]; simpl; unfold is_plasma; simpl;
    intros H; try discriminate; reflexivity.
Qed.

(** With exactly one PLASMA entry the build is [pre ++ (PLASMA, t) :: post]
    and neither side holds another one. *)
Lemma one_plasma_shape (b : Build) :
  exactly_one_plasma b ->
  exists t, from_plasma b = (PLASMA, t) :: after_plasma b
            /\ Forall (fun e => is_plasma e = false) (after_plasma b).
Proof.
  unfold exactly_one_plasma, plasma_count, after_plasma.
  induction b as [|e r IH]; simpl; [discriminate|].
  destruct (is_plasma e) eqn:E; simpl; intros H.
  - exists (snd e). split.
    + now rewrite <- (is_plasma_entry e E).
    + apply no_plasma_filter. injection H as H.
      now apply length_zero_iff_nil.
  - auto.
Qed.

Lemma firstn_before_plasma (b : Build) :
  firstn (length (before_plasma b)) b = before_plasma b.
Proof.
  rewrite (split_at_plasma b) at 2.
  rewrite firstn_app, Nat.sub_diag, firstn_all. simpl. apply app_nil_r.
Qed.

Lemma skipn_before_plasma (b : Build) :
  skipn (length (before_plasma b)) b = from_plasma b.
Proof.
  rewrite (split_at_plasma b) at 2.
  rewrite skipn_app, Nat.sub_diag, skipn_all. reflexivity.
Qed.

Lemma length_build (b : Build) :
  length b = (length (before_plasma b) + length (from_plasma b))%nat.
Proof. rewrite (split_at_plasma b) at 1. apply length_app. Qed.

Lemma index_nonneg {A} (l : list A) (i : nat) :
  Py.index l (Z.of_nat i) =
  match nth_error l i with Some x => Ok x | None => Raise IndexError end.
Proof.
  unfold Py.index.
  destruct (Z.ltb_spec (Z.of_nat i) 0); [lia|].
  destruct (Z.ltb_spec (Z.of_nat i) 0); [lia|].
  now rewrite Nat2Z.id.
Qed.

Lemma get_plasma_index_ok (b : Build) :
  exactly_one_plasma b ->
  Utils.get_plasma_index b = Ok (length (before_plasma b)).
Proof.
  unfold Utils.get_plasma_index, exactly_one_plasma. now intros ->.
Qed.

Lemma get_plasma_index_inv (b : Build) (i : nat) :
  Utils.get_plasma_index b = Ok i ->
  exactly_one_plasma b /\ i = length (before_plasma b).
Proof.
  unfold Utils.get_plasma_index, exactly_one_plasma.
  destruct (Nat.eqb_spec (plasma_count b) 1); [|discriminate].
  intros H; injection H as <-. auto.
Qed.

Lemma sum_up_to_plasma_ok (b : Build) :
  exactly_one_plasma b ->
  Utils.sum_up_to_plasma b = Ok (Py.sum (thicknesses (before_plasma b))).
Proof.
  intros H. unfold Utils.sum_up_to_plasma.
  rewrite (get_plasma_index_ok b H). simpl.
  now rewrite firstn_before_plasma.
Qed.

Lemma get_plasma_value_ok (b : Build) (t : Q) (post : Build) :
  exactly_one_plasma b -> from_plasma b = (PLASMA, t) :: post ->
  Utils.get_plasma_value b = Ok t.
Proof.
  intros H Hf. unfold Utils.get_plasma_value.
  rewrite (get_plasma_index_ok b H). simpl.
  rewrite index_nonneg.
  rewrite (split_at_plasma b) at 1.
  rewrite nth_error_app2, Nat.sub_diag, Hf by lia. reflexivity.
Qed.

(** The four scalars in closed form. *)
Lemma equatorial_geometry_ok (b : Build) (t : Q) (post : Build) :
  exactly_one_plasma b -> from_plasma b = (PLASMA, t) :: post ->
  let inner := Py.sum (thicknesses (before_plasma b)) in
  equatorial_geometry b =
  Ok (inner, inner + t, (inner + t + inner) / 2, (inner + t + inner) / 2 - inner).
Proof.
  intros H Hf inner. unfold equatorial_geometry.
  rewrite (sum_up_to_plasma_ok b H). simpl.
  rewrite (get_plasma_value_ok b t post H Hf). reflexivity.
Qed.

Lemma equatorial_geometry_inv (b : Build) (g : Q * Q * Q * Q) :
  equatorial_geometry b = Ok g -> exactly_one_plasma b.
Proof.
  unfold equatorial_geometry, Utils.sum_up_to_plasma.
  destruct (Utils.get_plasma_index b) as [i|e] eqn:E; [|discriminate].
  intros _. now apply get_plasma_index_inv in E.
Qed.

Lemma minor_radius_half (inner t : Q) :
  (inner + t + inner) / 2 - inner == t / 2.
Proof. field. Qed.

End BuildFacts.

(* ------------------------------------------------------------------ *)
(** ** Equatorial geometry and the spherical centre column on the example *)

(** C1: for the radial build of the examples the equatorial derivation yields
    inner_equatorial = 125, outer_equatorial = 425, major_radius = 275 and
    minor_radius = 150; the inner point is the sum of the thicknesses before
    the plasma entry, the outer point adds the plasma thickness, the major
    radius is their mean and the minor radius is major minus inner.  The
    assembly [spherical_tokamak] returns for this build carries these radii. *)
Theorem equatorial_geometry_example :
  exists inner outer major minor,
    equatorial_geometry example_radial_build = Ok (inner, outer, major, minor)
    /\ (inner == 125 /\ outer == 425 /\ major == 275 /\ minor == 150)
    /\ inner = Py.sum (thicknesses (before_plasma example_radial_build))
    /\ outer = inner + 300
    /\ major == (inner + outer) / 2
    /\ minor = major - inner
    /\ exists asm st,
         SphericalTokamak.spherical_tokamak one_piece example_radial_build
           example_vertical_build (11 # 20) 180 [] [] no_colors empty_state
         = (Ok asm, st)
         /\ major_radius asm == 275 /\ minor_radius asm == 150.
Proof.
  eexists _, _, _, _. split; [reflexivity|].
  split; [repeat split; vm_compute; reflexivity|].
  repeat (split; [reflexivity|]).
  eexists _, _. split; [vm_compute; reflexivity|].
  split; vm_compute; reflexivity.
Qed.

(** C7: for the radial build of the examples the spherical centre-column
    builder returns exactly two cylinders, the first from radius 10 to 60
    named layer_1 and the second from radius 60 to 75 named layer_2, whatever
    the vertical build and the rotation angle. *)
Theorem spherical_cylinders_example (vertical_build : Build) (rotation_angle : Q) :
  exists c1 c2,
    SphericalTokamak.create_center_column_shield_cylinders
      example_radial_build vertical_build rotation_angle = Ok [c1; c2]
    /\ shell_of c1 = Some (10, 60, "layer_1")
    /\ shell_of c2 = Some (60, 75, "layer_2").
Proof.
  eexists _, _. split; [reflexivity|]. split; reflexivity.
Qed.

(* ------------------------------------------------------------------ *)
(** ** The conventional-tokamak centre column *)

Section CenterColumn.

Variables rotation_angle height : Q.

Lemma sum_snoc (prefix : list Q) (x : Q) :
  Py.sum (prefix ++ [x]) = Py.sum prefix + x.
Proof. unfold Py.sum. now rewrite fold_left_app. Qed.

Lemma plasma_not_solid (e : BuildEntry) :
  is_plasma e = true -> is_solid e = false.
Proof. destruct e as [[| |] t]; simpl; intros H; try discriminate; reflexivity. Qed.

Lemma count_loop_spec (rest : Build) :
  forall (before after : Z) (found : bool),
    Tokamak.count_loop rest before after found =
    if found
    then (before - (after + Z.of_nat (solid_count rest)))%Z
    else (before + Z.of_nat (solid_count (before_plasma rest))
          - (after + Z.of_nat (solid_count (after_plasma rest))))%Z.
Proof.
  unfold solid_count, after_plasma.
  induction rest as [|e r IH]; intros before after found.
  - simpl. destruct found; lia.
  - simpl Tokamak.count_loop.
    destruct (is_plasma e) eqn:Ep.
    + rewrite IH. simpl. rewrite Ep. simpl.
      rewrite (plasma_not_solid e Ep). destruct found; lia.
    + simpl before_plasma. simpl from_plasma. rewrite Ep.
      destruct (is_solid e) eqn:Es.
      * destruct found; simpl negb; cbv iota; rewrite IH; simpl filter;
          rewrite Es; simpl length; lia.
      * rewrite IH. simpl filter. rewrite Es. reflexivity.
Qed.

Lemma count_cylinder_layers_spec (radial_build : Build) :
  Tokamak.count_cylinder_layers radial_build =
  (Z.of_nat (solid_count (before_plasma radial_build))
   - Z.of_nat (solid_count (after_plasma radial_build)))%Z.
Proof. unfold Tokamak.count_cylinder_layers. rewrite count_loop_spec. lia. Qed.

Lemma cylinders_loop_spec (N : Z) (rest : Build) :
  forall (prefix : list Q) (cylinders : list Solid) (layer_count : nat),
    Tokamak.cylinders_loop rotation_angle height N rest cylinders
      (Py.sum prefix) layer_count
    = cylinders ++
      map (cylinder_of rotation_angle height)
        (enumerate_from layer_count
           (firstn (Z.to_nat (N - Z.of_nat layer_count))
              (solid_shells prefix rest))).
Proof.
  induction rest as [|e r IH]; intros prefix cylinders layer_count.
  - simpl. rewrite firstn_nil. simpl. now rewrite app_nil_r.
  - destruct e as [[| |] t]; simpl.
    + rewrite <- sum_snoc. apply IH.
    + rewrite Nat.add_1_r.
      destruct (Z.ltb_spec N (Z.of_nat (S layer_count))) as [Hlt|Hge].
      * replace (Z.to_nat (N - Z.of_nat layer_count)) with 0%nat by lia.
        simpl. now rewrite app_nil_r.
      * replace (Z.to_nat (N - Z.of_nat layer_count))
          with (S (Z.to_nat (N - Z.of_nat (S layer_count)))) by lia.
        rewrite <- sum_snoc, IH. simpl.
        rewrite Nat.add_1_r, <- app_assoc. reflexivity.
    + rewrite firstn_nil. simpl. now rewrite app_nil_r.
Qed.

Lemma length_solid_shells (b : Build) :
  forall prefix, length (solid_shells prefix b) = solid_count (before_plasma b).
Proof.
  unfold solid_count.
  induction b as [|e r IH]; intros prefix; [reflexivity|].
  destruct e as [[| |] t]; simpl; auto.
Qed.

Lemma length_enumerate_from {A} (l : list A) :
  forall k, length (enumerate_from k l) = length l.
Proof. induction l; intros k; simpl; auto. Qed.

End CenterColumn.

Lemma cylinders_are_first_shells (radial_build : Build) (rotation_angle height : Q) :
  Tokamak.create_center_column_shield_cylinders radial_build rotation_angle height
  = map (cylinder_of rotation_angle height)
      (enumerate
         (firstn (Z.to_nat (Tokamak.count_cylinder_layers radial_build))
            (solid_shells [] radial_build))).
Proof.
  unfold Tokamak.create_center_column_shield_cylinders.
  change 0 with (Py.sum []).
  rewrite cylinders_loop_spec. simpl. now rewrite Z.sub_0_r.
Qed.

(** C6: the conventional-tokamak centre-column builder returns cylinders for
    the first N SOLID entries before the plasma and for nothing else, where
    N = (SOLID entries before the plasma) - (SOLID entries after the plasma);
    the inner radius of each is the sum of the thicknesses of all the entries
    in front of it, so GAP entries move the radius and yield no cylinder.
    The statement needs no assumption on the build; before and after are
    taken at its first PLASMA entry. *)
Theorem tokamak_cylinders_first_N (radial_build : Build) (rotation_angle height : Q) :
  let N := (Z.of_nat (solid_count (before_plasma radial_build))
            - Z.of_nat (solid_count (after_plasma radial_build)))%Z in
  let cylinders :=
    Tokamak.create_center_column_shield_cylinders radial_build rotation_angle height in
  Tokamak.count_cylinder_layers radial_build = N
  /\ cylinders =
     map (cylinder_of rotation_angle height)
       (enumerate (firstn (Z.to_nat N) (solid_shells [] radial_build)))
  /\ length (solid_shells [] radial_build) = solid_count (before_plasma radial_build)
  /\ length cylinders = Z.to_nat N.
Proof.
  intros N cylinders.
  assert (HN : Tokamak.count_cylinder_layers radial_build = N)
    by apply count_cylinder_layers_spec.
  assert (Hc : cylinders =
               map (cylinder_of rotation_angle height)
                 (enumerate (firstn (Z.to_nat N) (solid_shells [] radial_build)))).
  { unfold cylinders. now rewrite cylinders_are_first_shells, HN. }
  repeat split; auto.
  - apply length_solid_shells.
  - rewrite Hc, length_map. unfold enumerate.
    rewrite length_enumerate_from, length_firstn, length_solid_shells.
    unfold N. lia.
Qed.

(* ------------------------------------------------------------------ *)
(** ** When the outboard side has at least as many SOLID entries *)

Section NoCylinders.

Lemma div_nonzero (a b : Q) : ~ b == 0 -> Py.div a b = Ok (a / b).
Proof.
  intros Hb. unfold Py.div.
  destruct (Qeq_bool b 0) eqn:E; [|reflexivity].
  apply Qeq_bool_iff in E. contradiction.
Qed.




End NoCylinders.



Lemma example_radial_build_valid : valid_build example_radial_build.
Proof. split; [reflexivity | repeat constructor]. Qed.

Lemma example_vertical_build_valid : valid_build example_vertical_build.
Proof. split; [reflexivity | repeat constructor]. Qed.


(* ------------------------------------------------------------------ *)
(** ** Synthesized vertical builds *)

Section VerticalBuild.

Lemma value_around_plasma (pre post : Build) (h : Q) :
  Forall (fun e => is_plasma e = false) pre ->
  Forall (fun e => is_plasma e = false) post ->
  Utils.get_plasma_value (pre ++ (PLASMA, h) :: post) = Ok h.
Proof.
  intros Hpre Hpost.
  apply get_plasma_value_ok with (post := post).
  - now apply plasma_count_app.
  - now apply from_plasma_app.
Qed.

Lemma Forall_skipn {A} (P : A -> Prop) (l : list A) :
  forall n, Forall P l -> Forall P (skipn n l).
Proof.
  induction l as [|x r IH]; intros [|n] H; simpl; auto.
  inversion H; subst. auto.
Qed.

Lemma bound_in_range (n k : Z) : (0 <= k <= n)%Z -> Py.bound n k = k.
Proof. unfold Py.bound. intros H. destruct (Z.ltb_spec k 0); lia. Qed.

Lemma bound_nonneg (n k : Z) : (0 <= n)%Z -> (0 <= Py.bound n k)%Z.
Proof. unfold Py.bound. intros H. destruct (Z.ltb_spec k 0); lia. Qed.

(** A slice that stops at [stop] is a suffix of the first [stop] elements. *)
Lemma slice_of_prefix {A} (l : list A) (start : Z) (stop : nat) :
  (stop <= length l)%nat ->
  exists a, Py.slice l start (Z.of_nat stop) = skipn a (firstn stop l).
Proof.
  intros Hstop. unfold Py.slice.
  rewrite (bound_in_range _ (Z.of_nat stop)) by lia.
  set (a := Py.bound (Z.of_nat (length l)) start).
  assert (Ha : (0 <= a)%Z) by (apply bound_nonneg; lia).
  destruct (Z.le_gt_cases a (Z.of_nat stop)) as [Hle|Hgt].
  - exists (Z.to_nat a).
    rewrite firstn_skipn_comm. f_equal. f_equal. lia.
  - exists stop.
    replace (Z.to_nat (Z.of_nat stop - a)) with 0%nat by lia.
    simpl. symmetry. apply skipn_all2. rewrite length_firstn. lia.
Qed.

Lemma slice_in_range {A} (l : list A) (start stop : nat) :
  (start <= stop <= length l)%nat ->
  Py.slice l (Z.of_nat start) (Z.of_nat stop) = skipn start (firstn stop l).
Proof.
  intros H. unfold Py.slice.
  rewrite !bound_in_range by lia.
  rewrite firstn_skipn_comm, Nat2Z.id. f_equal. f_equal. lia.
Qed.

Lemma slice_from_nonneg {A} (l : list A) (start : nat) :
  (start <= length l)%nat -> Py.slice_from l (Z.of_nat start) = skipn start l.
Proof.
  intros H. unfold Py.slice_from.
  rewrite bound_in_range by lia. now rewrite Nat2Z.id.
Qed.

Lemma upper_vertical_build_no_plasma (radial_build : Build) :
  Forall (fun e => is_plasma e = false)
    (Tokamak.upper_vertical_build radial_build
       (length (before_plasma radial_build))).
Proof.
  unfold Tokamak.upper_vertical_build.
  apply Forall_rev.
  destruct (slice_of_prefix radial_build
              (Z.of_nat (length (before_plasma radial_build))
               - (Z.of_nat (length radial_build) - 1
                  - Z.of_nat (length (before_plasma radial_build))))
              (length (before_plasma radial_build))) as [a ->].
  - rewrite (length_build radial_build). lia.
  - apply Forall_skipn. rewrite firstn_before_plasma.
    apply before_plasma_no_plasma.
Qed.

Variable radial_build : Build.
Variable t : Q.
Hypothesis one_plasma : exactly_one_plasma radial_build.
Hypothesis plasma_entry :
  from_plasma radial_build = (PLASMA, t) :: after_plasma radial_build.
Hypothesis outboard_no_plasma :
  Forall (fun e => is_plasma e = false) (after_plasma radial_build).

Lemma minor_radius_of_ok :
  let inner := Py.sum (thicknesses (before_plasma radial_build)) in
  minor_radius_of radial_build = (inner + t + inner) / 2 - inner.
Proof.
  unfold minor_radius_of.
  now rewrite (equatorial_geometry_ok _ _ _ one_plasma plasma_entry).
Qed.

Lemma spherical_synthesis (elongation : Q) :
  SphericalTokamak.synthesize_vertical_build radial_build elongation
  = Ok (rev (after_plasma radial_build)
          ++ [(PLASMA, 2 * minor_radius_of radial_build * elongation)]
          ++ after_plasma radial_build).
Proof.
  unfold SphericalTokamak.synthesize_vertical_build.
  rewrite minor_radius_of_ok.
  rewrite (equatorial_geometry_ok _ _ _ one_plasma plasma_entry).
  simpl. rewrite (get_plasma_index_ok _ one_plasma). simpl.
  rewrite slice_from_nonneg by (rewrite (length_build radial_build); lia).
  rewrite skipn_before_plasma, plasma_entry.
  simpl rev. rewrite removelast_last. reflexivity.
Qed.

Lemma tokamak_synthesis (elongation : Q) :
  let upper := Tokamak.upper_vertical_build radial_build
                 (length (before_plasma radial_build)) in
  Tokamak.synthesize_vertical_build radial_build elongation
  = Ok (rev upper
          ++ [(PLASMA, 2 * minor_radius_of radial_build * elongation)]
          ++ upper).
Proof.
  intros upper. unfold Tokamak.synthesize_vertical_build.
  rewrite minor_radius_of_ok.
  rewrite (equatorial_geometry_ok _ _ _ one_plasma plasma_entry).
  simpl. rewrite (get_plasma_index_ok _ one_plasma). reflexivity.
Qed.

Lemma spherical_synthesis_value (elongation : Q) :
  exists vertical_build,
    SphericalTokamak.synthesize_vertical_build radial_build elongation
    = Ok vertical_build
    /\ Utils.get_plasma_value vertical_build
       = Ok (2 * minor_radius_of radial_build * elongation).
Proof.
  eexists. split; [apply spherical_synthesis|].
  apply value_around_plasma; [apply Forall_rev|]; exact outboard_no_plasma.
Qed.

Lemma tokamak_synthesis_value (elongation : Q) :
  exists vertical_build,
    Tokamak.synthesize_vertical_build radial_build elongation
    = Ok vertical_build
    /\ Utils.get_plasma_value vertical_build
       = Ok (2 * minor_radius_of radial_build * elongation).
Proof.
  eexists. split; [apply tokamak_synthesis|].
  apply value_around_plasma;
    [apply Forall_rev|]; apply upper_vertical_build_no_plasma.
Qed.

End VerticalBuild.

(* ------------------------------------------------------------------ *)
(** ** Runs that return an assembly *)

(** Case analysis on the steps of a run that is known to have returned. *)
Ltac returned H :=
  repeat match type of H with
         | context [match ?m with _ => _ end] =>
             first [ is_var m; destruct m
                   | let E := fresh "E" in destruct m eqn:E ];
             try discriminate H
         | (let (_, _) := ?m in _) = _ => destruct m
         end.

Section Returned.

Variable K : Kernel.
Variables radial_build vertical_build : Build.
Variables triangularity' rotation_angle : Q.
Variable extra_cut_shapes : list pyobj.
Variable extra_intersect_shapes : list Solid.
Variable colors : ColorTable.

Lemma spherical_construct_returns st plasma inner blanket e mj mn st1 :
  SphericalTokamak.construct radial_build vertical_build triangularity'
    rotation_angle st = (Ok (plasma, inner, blanket, (e, mj, mn)), st1) ->
  exists inner_eq outer_eq pvt,
    equatorial_geometry radial_build = Ok (inner_eq, outer_eq, mj, mn)
    /\ Utils.get_plasma_value vertical_build = Ok pvt
    /\ Py.div (pvt / 2) mn = Ok e
    /\ plasma = plasma_simplified mj mn e triangularity' rotation_angle.
Proof.
  unfold SphericalTokamak.construct, bind, lift, ret. intros H.
  returned H. injection H as <- <- <- <- <- <- <-.
  eexists _, _, _. repeat split; eauto.
Qed.

Lemma tokamak_construct_returns st plasma inner blanket e mj mn st1 :
  Tokamak.construct radial_build vertical_build triangularity'
    rotation_angle st = (Ok (plasma, inner, blanket, (e, mj, mn)), st1) ->
  exists inner_eq outer_eq pvt,
    equatorial_geometry radial_build = Ok (inner_eq, outer_eq, mj, mn)
    /\ Utils.get_plasma_value vertical_build = Ok pvt
    /\ Py.div (pvt / 2) mn = Ok e
    /\ plasma = plasma_simplified mj mn e triangularity' rotation_angle
    /\ inner = Tokamak.create_center_column_shield_cylinders radial_build
                 rotation_angle (Py.sum (thicknesses vertical_build)).
Proof.
  unfold Tokamak.construct, bind, lift, ret. intros H.
  returned H. injection H as <- <- <- <- <- <- <-.
  eexists _, _, _. repeat split; eauto.
Qed.

(** A returned assembly holds what the trim stage registered and the
    scalars of the construction. *)
Lemma spherical_tokamak_returns st asm st' :
  SphericalTokamak.spherical_tokamak K radial_build vertical_build
    triangularity' rotation_angle extra_cut_shapes extra_intersect_shapes
    colors st = (Ok asm, st') ->
  exists plasma inner blanket st1,
    SphericalTokamak.construct radial_build vertical_build triangularity'
      rotation_angle st
    = (Ok (plasma, inner, blanket,
           (elongation asm, major_radius asm, minor_radius asm)), st1)
    /\ SphericalTokamak.trim K colors extra_cut_shapes extra_intersect_shapes
         plasma inner blanket st1 = (Ok tt, st')
    /\ parts asm = registered st'
    /\ triangularity asm = triangularity'.
Proof.
  unfold SphericalTokamak.spherical_tokamak, bind, registered_parts, ret.
  intros H.
  destruct (SphericalTokamak.construct _ _ _ _ st)
    as [[[[[plasma inner] blanket] [[e mj] mn]]|err] st1] eqn:Ec; [|discriminate].
  destruct (SphericalTokamak.trim _ _ _ _ _ _ _ st1) as [[[]|err] st2] eqn:Et;
    [|discriminate].
  injection H as <- <-. simpl. eexists _, _, _, _. repeat split; eauto.
Qed.

Lemma tokamak_returns st asm st' :
  Tokamak.tokamak K radial_build vertical_build
    triangularity' rotation_angle extra_cut_shapes extra_intersect_shapes
    colors st = (Ok asm, st') ->
  exists plasma inner blanket st1,
    Tokamak.construct radial_build vertical_build triangularity'
      rotation_angle st
    = (Ok (plasma, inner, blanket,
           (elongation asm, major_radius asm, minor_radius asm)), st1)
    /\ Tokamak.trim K colors extra_cut_shapes extra_intersect_shapes
         inner blanket st1 = (Ok tt, st')
    /\ parts asm = registered st'
    /\ triangularity asm = triangularity'.
Proof.
  unfold Tokamak.tokamak, bind, registered_parts, ret.
  intros H.
  destruct (Tokamak.construct _ _ _ _ st)
    as [[[[[plasma inner] blanket] [[e mj] mn]]|err] st1] eqn:Ec; [|discriminate].
  destruct (Tokamak.trim _ _ _ _ _ _ st1) as [[[]|err] st2] eqn:Et;
    [|discriminate].
  injection H as <- <-. simpl. eexists _, _, _, _. repeat split; eauto.
Qed.

End Returned.

(* ------------------------------------------------------------------ *)
(** ** Elongation round trip of the from-plasma constructors *)

Section Elongation.

Lemma rederived_elongation (m e : Q) : 0 < m -> (2 * m * e / 2) / m == e.
Proof. intros Hm. field. lra. Qed.

Lemma div_inv (a b q : Q) : Py.div a b = Ok q -> q = a / b.
Proof.
  unfold Py.div. destruct (Qeq_bool b 0); [discriminate|].
  now intros H; injection H as <-.
Qed.

(** What a construction that succeeded on a synthesized build computed. *)
Lemma elongation_of_construction (radial_build vertical_build : Build)
    (inner_eq outer_eq mj mn pvt e elong : Q) :
  0 < minor_radius_of radial_build ->
  equatorial_geometry radial_build = Ok (inner_eq, outer_eq, mj, mn) ->
  Utils.get_plasma_value vertical_build
  = Ok (2 * minor_radius_of radial_build * e) ->
  Utils.get_plasma_value vertical_build = Ok pvt ->
  Py.div (pvt / 2) mn = Ok elong ->
  elong == e.
Proof.
  intros Hm Hg Hv Hv' Hd.
  rewrite Hv in Hv'. injection Hv' as <-.
  apply div_inv in Hd. subst elong.
  unfold minor_radius_of in *. rewrite Hg in *.
  now apply rederived_elongation.
Qed.

End Elongation.

(** C8: for a radial build with exactly one PLASMA entry and a strictly
    positive minor radius, both from-plasma constructors synthesize a vertical
    build whose plasma thickness is 2 * minor_radius * e; re-deriving the
    elongation as (plasma vertical thickness / 2) / minor_radius gives e back,
    and every assembly they return has elongation e (as rationals).  The
    statement holds for every e, positive or not. *)
Theorem from_plasma_elongation
    (K : Kernel) (radial_build : Build) (e triangularity' rotation_angle : Q)
    (extra_cut_shapes : list pyobj) (extra_intersect_shapes : list Solid)
    (colors : ColorTable) (st : state) :
  exactly_one_plasma radial_build ->
  0 < minor_radius_of radial_build ->
  let h := 2 * minor_radius_of radial_build * e in
  (exists vertical_build,
      SphericalTokamak.synthesize_vertical_build radial_build e = Ok vertical_build
      /\ Utils.get_plasma_value vertical_build = Ok h)
  /\ (exists vertical_build,
         Tokamak.synthesize_vertical_build radial_build e = Ok vertical_build
         /\ Utils.get_plasma_value vertical_build = Ok h)
  /\ (h / 2) / minor_radius_of radial_build == e
  /\ (forall asm st',
         SphericalTokamak.spherical_tokamak_from_plasma K radial_build e
           triangularity' rotation_angle extra_cut_shapes extra_intersect_shapes
           colors st = (Ok asm, st') ->
         elongation asm == e)
  /\ (forall asm st',
         Tokamak.tokamak_from_plasma K radial_build e
           triangularity' rotation_angle extra_cut_shapes extra_intersect_shapes
           colors st = (Ok asm, st') ->
         elongation asm == e).
Proof.
  intros Hone Hm h.
  destruct (one_plasma_shape _ Hone) as [t [Hf Hout]].
  pose proof (spherical_synthesis_value radial_build t Hone Hf Hout e) as Hs.
  pose proof (tokamak_synthesis_value radial_build t Hone Hf e) as Ht.
  split; [exact Hs|]. split; [exact Ht|].
  split; [now apply rederived_elongation|].
  split; intros asm st' Hrun.
  - destruct Hs as [vb [Hsyn Hval]].
    unfold SphericalTokamak.spherical_tokamak_from_plasma, bind, lift in Hrun.
    rewrite Hsyn in Hrun.
    apply spherical_tokamak_returns in Hrun
      as (plasma & inner & blanket & st1 & Hc & _).
    apply spherical_construct_returns in Hc
      as (inner_eq & outer_eq & pvt & Hg & Hv & Hd & _).
    eapply elongation_of_construction; eauto.
  - destruct Ht as [vb [Hsyn Hval]].
    unfold Tokamak.tokamak_from_plasma, bind, lift in Hrun.
    rewrite Hsyn in Hrun.
    apply tokamak_returns in Hrun
      as (plasma & inner & blanket & st1 & Hc & _).
    apply tokamak_construct_returns in Hc
      as (inner_eq & outer_eq & pvt & Hg & Hv & Hd & _).
    eapply elongation_of_construction; eauto.
Qed.

Lemma tokamak_radial_build_one_plasma : exactly_one_plasma tokamak_radial_build.
Proof. reflexivity. Qed.

(** Both constructors do return on the radial build of the tokamak
    examples, with elongation 2 as asked. *)
Example from_plasma_runs_return :
  (exists asm st',
      SphericalTokamak.spherical_tokamak_from_plasma one_piece
        tokamak_radial_build 2 (11 # 20) 180 [] [] no_colors empty_state
      = (Ok asm, st')
      /\ elongation asm == 2)
  /\ (exists asm st',
         Tokamak.tokamak_from_plasma one_piece
           tokamak_radial_build 2 (11 # 20) 180 [] [] no_colors empty_state
         = (Ok asm, st')
         /\ elongation asm == 2).
Proof.
  split; eexists _, _; (split; [vm_compute; reflexivity|]); vm_compute; reflexivity.
Qed.

Lemma from_plasma_elongation_witness :
  exactly_one_plasma tokamak_radial_build
  /\ 0 < minor_radius_of tokamak_radial_build
  /\ (forall asm st',
         SphericalTokamak.spherical_tokamak_from_plasma one_piece
           tokamak_radial_build 2 (11 # 20) 180 [] [] no_colors empty_state
         = (Ok asm, st') ->
         elongation asm == 2)
  /\ (forall asm st',
         Tokamak.tokamak_from_plasma one_piece
           tokamak_radial_build 2 (11 # 20) 180 [] [] no_colors empty_state
         = (Ok asm, st') ->
         elongation asm == 2).
Proof.
  split; [reflexivity|]. split; [reflexivity|].
  apply (from_plasma_elongation one_piece tokamak_radial_build 2 (11 # 20)
           180 [] [] no_colors empty_state);
    reflexivity.
Defined.

(* ------------------------------------------------------------------ *)
(** ** The vertical build of [tokamak_from_plasma] *)

Section InboardMirror.

Variable radial_build : Build.
Hypothesis one_plasma : exactly_one_plasma radial_build.

Let pi := length (before_plasma radial_build).
Let n := length (after_plasma radial_build).

Lemma length_around_plasma : length radial_build = (pi + 1 + n)%nat.
Proof.
  destruct (one_plasma_shape _ one_plasma) as [t [Hf _]].
  rewrite (length_build radial_build), Hf. unfold pi, n. simpl. lia.
Qed.

(** Enough entries inboard: the slice is the last [n] of them. *)
Lemma upper_vertical_build_enough :
  (n <= pi)%nat ->
  Tokamak.upper_vertical_build radial_build pi
  = rev (skipn (pi - n) (before_plasma radial_build)).
Proof.
  intros Hle. unfold Tokamak.upper_vertical_build.
  rewrite length_around_plasma.
  replace (Z.of_nat pi - (Z.of_nat (pi + 1 + n) - 1 - Z.of_nat pi))%Z
    with (Z.of_nat (pi - n)) by lia.
  rewrite slice_in_range by (rewrite length_around_plasma; lia).
  unfold pi. now rewrite firstn_before_plasma.
Qed.

(** Fewer entries inboard than outboard: the start of the slice wraps
    around past its stop and nothing is taken. *)
Lemma upper_vertical_build_short :
  (pi < n)%nat -> Tokamak.upper_vertical_build radial_build pi = [].
Proof.
  intros Hlt. unfold Tokamak.upper_vertical_build, Py.slice.
  rewrite length_around_plasma.
  rewrite (bound_in_range _ (Z.of_nat pi)) by lia.
  unfold Py.bound.
  destruct (Z.ltb_spec (Z.of_nat pi - (Z.of_nat (pi + 1 + n) - 1 - Z.of_nat pi)) 0);
    [|lia].
  replace (Z.to_nat _) with 0%nat by lia. reflexivity.
Qed.

Lemma walking_back (k : nat) :
  (n <= pi)%nat -> (k < n)%nat ->
  nth_error (rev (skipn (pi - n) (before_plasma radial_build))) k
  = nth_error radial_build (pi - 1 - k).
Proof.
  intros Hle Hk.
  rewrite nth_error_rev, length_skipn.
  fold pi.
  destruct (Nat.ltb_spec k (pi - (pi - n))); [|lia].
  rewrite nth_error_skipn.
  rewrite (split_at_plasma radial_build) at 2.
  rewrite nth_error_app1 by (fold pi; lia).
  f_equal. lia.
Qed.

End InboardMirror.

(** C5, as stated, fails on a build with fewer entries before the plasma than
    after it: the vertical build is the PLASMA entry alone. *)
Lemma mirrors_inboard_counterexample :
  Tokamak.synthesize_vertical_build short_inboard_build 2
  = Ok [(PLASMA, 2 * minor_radius_of short_inboard_build * 2)]
  /\ ~ mirrors_inboard short_inboard_build 2.
Proof.
  split; [reflexivity|].
  intros [inboard [Hlen H]].
  change (Tokamak.synthesize_vertical_build short_inboard_build 2)
    with (Ok [(PLASMA, 2 * minor_radius_of short_inboard_build * 2)]) in H.
  injection H as H.
  apply (f_equal (@length BuildEntry)) in H.
  rewrite !length_app, length_rev in H. simpl in H, Hlen. lia.
Qed.

(** C5, amended: for a radial build with exactly one PLASMA entry and at
    least as many entries before the plasma as after it, [tokamak_from_plasma]
    synthesizes reverse(inboard) + [PLASMA] + inboard, where inboard lists the
    entries met walking back from the plasma index, as many as there are
    entries after the plasma, and the PLASMA thickness is
    2 * minor_radius * elongation. *)
Theorem tokamak_vertical_build_mirrors_inboard
    (radial_build : Build) (elongation : Q) :
  exactly_one_plasma radial_build ->
  (length (after_plasma radial_build) <= length (before_plasma radial_build))%nat ->
  let pi := length (before_plasma radial_build) in
  let n := length (after_plasma radial_build) in
  let inboard := rev (skipn (pi - n) (before_plasma radial_build)) in
  length inboard = n
  /\ (forall k, (k < n)%nat ->
                nth_error inboard k = nth_error radial_build (pi - 1 - k))
  /\ Utils.get_plasma_index radial_build = Ok pi
  /\ Tokamak.synthesize_vertical_build radial_build elongation
     = Ok (rev inboard
             ++ [(PLASMA, 2 * minor_radius_of radial_build * elongation)]
             ++ inboard).
Proof.
  intros Hone Hle pi n inboard.
  destruct (one_plasma_shape _ Hone) as [t [Hf _]].
  split; [unfold inboard; rewrite length_rev, length_skipn; lia|].
  split; [intros k Hk; now apply walking_back|].
  split; [now apply get_plasma_index_ok|].
  rewrite (tokamak_synthesis radial_build t Hone Hf).
  now rewrite (upper_vertical_build_enough radial_build Hone Hle).
Qed.

Lemma tokamak_vertical_build_mirrors_inboard_witness :
  let inboard := [(GAP, 60); (SOLID, 20); (SOLID, 120); (SOLID, 10)] in
  Tokamak.synthesize_vertical_build tokamak_radial_build 2
  = Ok (rev inboard
          ++ [(PLASMA, 2 * minor_radius_of tokamak_radial_build * 2)]
          ++ inboard).
Proof.
  apply (tokamak_vertical_build_mirrors_inboard tokamak_radial_build 2).
  - reflexivity.
  - vm_compute. lia.
Defined.

(** With fewer entries before the plasma than after it the vertical build is
    the PLASMA entry alone. *)
Lemma tokamak_vertical_build_short_inboard (radial_build : Build) (elongation : Q) :
  exactly_one_plasma radial_build ->
  (length (before_plasma radial_build) < length (after_plasma radial_build))%nat ->
  Tokamak.synthesize_vertical_build radial_build elongation
  = Ok [(PLASMA, 2 * minor_radius_of radial_build * elongation)].
Proof.
  intros Hone Hlt.
  destruct (one_plasma_shape _ Hone) as [t [Hf _]].
  rewrite (tokamak_synthesis radial_build t Hone Hf).
  now rewrite (upper_vertical_build_short radial_build Hone Hlt).
Qed.

(* ------------------------------------------------------------------ *)
(** ** Part names *)

Section PartNames.

Lemma str_injective (i j : nat) : Py.str i = Py.str j -> i = j.
Proof.
  unfold Py.str. intros H.
  apply Unsigned.to_uint_inj.
  apply (f_equal NilEmpty.uint_of_string) in H.
  rewrite !NilEmpty.usu in H. now injection H.
Qed.

Lemma layer_name_injective (i j : nat) : layer_name i = layer_name j -> i = j.
Proof.
  unfold layer_name. simpl. intros H. injection H as H.
  now apply str_injective.
Qed.

Lemma extra_cut_name_injective (i j : nat) :
  extra_cut_name i = extra_cut_name j -> i = j.
Proof.
  unfold extra_cut_name. simpl. intros H. injection H as H.
  now apply str_injective.
Qed.

Lemma extra_intersect_name_injective (i j : nat) :
  extra_intersect_name i = extra_intersect_name j -> i = j.
Proof.
  unfold extra_intersect_name. simpl. intros H. injection H as H.
  now apply str_injective.
Qed.

Lemma str_digits (i : nat) : digits_only (Py.str i) = true.
Proof.
  unfold Py.str. induction (Nat.to_uint i) as [|d IH|d IH|d IH|d IH|d IH|d IH|d IH|d IH|d IH|d IH];
    simpl; auto.
Qed.

(** An underscore ends the digits. *)
Lemma digits_then_underscore (a : string) :
  forall b x y : string,
    digits_only a = true -> digits_only b = true ->
    (a ++ String "_" x = b ++ String "_" y)%string -> a = b /\ x = y.
Proof.
  induction a as [|c a' IH]; intros [|d b'] x y Ha Hb H; simpl in *.
  - injection H as ->. auto.
  - injection H as <- _. discriminate Hb.
  - injection H as -> _. discriminate Ha.
  - injection H as -> H.
    apply andb_prop in Ha as [_ Ha]. apply andb_prop in Hb as [_ Hb].
    destruct (IH _ _ _ Ha Hb H) as [-> ->]. auto.
Qed.

Lemma underscore_not_digits (b y : string) :
  digits_only (b ++ String "_" y) = false.
Proof.
  induction b as [|c b' IH]; simpl; [reflexivity|].
  rewrite IH. apply andb_false_r.
Qed.

Lemma layer_part_name_injective (i j i' j' : nat) :
  layer_part_name i j = layer_part_name i' j' -> i = i' /\ j = j'.
Proof.
  unfold layer_part_name. simpl. intros H. injection H as H.
  apply digits_then_underscore in H as [Hi Hj]; try apply str_digits.
  injection Hj as Hj.
  split; now apply str_injective.
Qed.

Lemma layer_name_not_part (i i' j : nat) :
  layer_name i <> layer_part_name i' j.
Proof.
  unfold layer_name, layer_part_name. simpl. intros H. injection H as H.
  pose proof (str_digits i) as Hd. rewrite H in Hd.
  change ("_part_" ++ Py.str j)%string
    with (String "_" ("part_" ++ Py.str j)%string) in Hd.
  now rewrite underscore_not_digits in Hd.
Qed.

Lemma layer_family_index (i i' : nat) (name : string) :
  layer_family i name -> layer_family i' name -> i = i'.
Proof.
  intros [->|[j ->]] [H|[j' H]].
  - now apply layer_name_injective.
  - now apply layer_name_not_part in H.
  - symmetry in H. now apply layer_name_not_part in H.
  - now apply layer_part_name_injective in H.
Qed.

End PartNames.

(* ------------------------------------------------------------------ *)
(** ** The validation loop over [extra_cut_shapes] *)

Section Validation.

Variable colors : ColorTable.

Lemma state_eta (st : state) :
  {| registered := registered st ++ []; calls := calls st |} = st.
Proof. destruct st. simpl. now rewrite app_nil_r. Qed.

Lemma name_taken_spec (name : string) (s : state) :
  name_taken name s = true <-> In name (map part_name (registered s)).
Proof.
  unfold name_taken. rewrite existsb_exists. split.
  - intros [x [Hx E]]. apply String.eqb_eq in E. now subst.
  - intros H. exists name. split; [exact H | apply String.eqb_refl].
Qed.

(** A name that is not taken is registered, one that is taken is refused. *)
Lemma add_fresh (solid : Solid) (name : string) (s : state) :
  ~ In name (map part_name (registered s)) ->
  add colors solid name s
  = (Ok tt,
     {| registered := registered s ++ [part_of colors name solid];
        calls := calls s |}).
Proof.
  intros H. unfold add.
  destruct (name_taken name s) eqn:E; [|reflexivity].
  apply name_taken_spec in E. contradiction.
Qed.

Lemma add_taken (solid : Solid) (name : string) (s : state) :
  In name (map part_name (registered s)) ->
  add colors solid name s = (Raise (ValueError "Unique name is required"), s).
Proof.
  intros H. unfold add. apply name_taken_spec in H. now rewrite H.
Qed.

Lemma add_returned (solid : Solid) (name : string) (s s' : state) (r : unit) :
  add colors solid name s = (Ok r, s') ->
  s' = {| registered := registered s ++ [part_of colors name solid];
          calls := calls s |}.
Proof.
  unfold add. destruct (name_taken name s); [discriminate|].
  now intros H; injection H as _ <-.
Qed.

Lemma register_loop_spec (l : list pyobj) :
  forall (k : nat) (st : state),
    (forall i, (k < i)%nat ->
               ~ In (extra_cut_name i) (map part_name (registered st))) ->
    for_each (register_extra_cut_shape colors) (enumerate_from k l) tt st
    = (validation_outcome l,
       {| registered := registered st ++ extra_cut_parts colors k (valid_prefix l);
          calls := calls st |}).
Proof.
  unfold validation_outcome, extra_cut_parts.
  induction l as [|o r IH]; intros k st Hfresh.
  - simpl. unfold ret. now rewrite state_eta.
  - destruct o; simpl; unfold bind, raise;
      try (now rewrite state_eta).
    rewrite add_fresh by (apply Hfresh; lia).
    rewrite IH.
    + simpl. now rewrite <- app_assoc.
    + intros i Hi. simpl. rewrite map_app, in_app_iff.
      intros [Hin|[Hin|[]]]; [apply (Hfresh i); [lia | exact Hin]|].
      apply extra_cut_name_injective in Hin. lia.
Qed.

(** The loop on a new assembly. *)
Lemma register_extra_cut_shapes_spec (l : list pyobj) (st : state) :
  registered st = [] ->
  register_extra_cut_shapes colors l st
  = (validation_outcome l,
     {| registered := registered st ++ extra_cut_parts colors 0 (valid_prefix l);
        calls := calls st |}).
Proof. intros Hnew. apply register_loop_spec. intros i _. now rewrite Hnew. Qed.

Lemma all_valid (l : list pyobj) :
  first_invalid l = None ->
  valid_prefix l = as_solids l
  /\ Forall (fun o => isinstance_Workplane o = true) l.
Proof.
  induction l as [|o r IH]; simpl; [auto|].
  destruct o; try discriminate.
  intros H. destruct (IH H) as [-> HF]. auto.
Qed.

Lemma extra_cut_part_names (k : nat) (shapes : list Solid) (p : Part) :
  In p (extra_cut_parts colors k shapes) ->
  exists i, part_name p = extra_cut_name i.
Proof.
  unfold extra_cut_parts. intros H.
  apply in_map_iff in H as [[i s] [<- _]]. simpl. eauto.
Qed.

End Validation.

(* ------------------------------------------------------------------ *)
(** ** [tokamak] without extra-intersect shapes *)

(** C9: when [tokamak] is called with no extra-intersect shapes and returns,
    the assembly holds the parts add_extra_cut_shape_<k> of the extra-cut
    shapes (all of them Workplanes) and nothing else: no part named plasma,
    none named layer_<i> or layer_<i>_part_<j>; it carries the four scalars
    of the construction. *)
Theorem tokamak_without_intersect_shapes
    (K : Kernel) (radial_build vertical_build : Build)
    (triangularity' rotation_angle : Q)
    (extra_cut_shapes : list pyobj) (colors : ColorTable)
    (st st' : state) (asm : Assembly) :
  Tokamak.tokamak K radial_build vertical_build triangularity' rotation_angle
    extra_cut_shapes [] colors st = (Ok asm, st') ->
  parts asm = extra_cut_parts colors 0 (as_solids extra_cut_shapes)
  /\ Forall (fun o => isinstance_Workplane o = true) extra_cut_shapes
  /\ ~ In "plasma" (part_names asm)
  /\ (forall i, ~ In (layer_name i) (part_names asm))
  /\ (forall i j, ~ In (layer_part_name i j) (part_names asm))
  /\ (exists inner outer pvt,
         equatorial_geometry radial_build
         = Ok (inner, outer, major_radius asm, minor_radius asm)
         /\ Utils.get_plasma_value vertical_build = Ok pvt
         /\ Py.div (pvt / 2) (minor_radius asm) = Ok (elongation asm)
         /\ triangularity asm = triangularity').
Proof.
  intros Hrun.
  apply tokamak_returns in Hrun
    as (plasma & inner & blanket & st1 & Hc & Ht & Hparts & Htri).
  apply tokamak_construct_returns in Hc
    as (inner_eq & outer_eq & pvt & Hg & Hv & Hd & _).
  unfold Tokamak.trim, bind, new_assembly, ret in Ht.
  rewrite register_extra_cut_shapes_spec in Ht by reflexivity. simpl in Ht.
  unfold validation_outcome in Ht.
  destruct (first_invalid extra_cut_shapes) eqn:Hbad; [discriminate|].
  destruct (all_valid _ Hbad) as [Hvalid Hall].
  injection Ht as <-. simpl in Hparts. rewrite Hvalid in Hparts.
  assert (Hnames : forall name, In name (part_names asm) ->
                                exists i, name = extra_cut_name i).
  { intros name Hin. unfold part_names in Hin. rewrite Hparts in Hin.
    apply in_map_iff in Hin as [p [<- Hp]].
    now apply extra_cut_part_names in Hp. }
  split; [exact Hparts|]. split; [exact Hall|].
  split; [|split; [|split]].
  - intros Hin. apply Hnames in Hin as [i Hi]. discriminate Hi.
  - intros i Hin. apply Hnames in Hin as [k Hk]. discriminate Hk.
  - intros i j Hin. apply Hnames in Hin as [k Hk]. discriminate Hk.
  - eexists _, _, _. eauto.
Qed.

Lemma tokamak_without_intersect_shapes_witness :
  exists asm st',
    Tokamak.tokamak one_piece tokamak_radial_build tokamak_vertical_build
      (11 # 20) 180 [Workplane (handle 7)] [] no_colors empty_state
    = (Ok asm, st')
    /\ part_names asm = ["add_extra_cut_shape_1"]
    /\ ~ In "plasma" (part_names asm).
Proof.
  eexists _, _. split; [vm_compute; reflexivity|].
  split; [reflexivity|].
  eapply (tokamak_without_intersect_shapes one_piece tokamak_radial_build
            tokamak_vertical_build (11 # 20) 180 [Workplane (handle 7)]
            no_colors empty_state).
  vm_compute. reflexivity.
Defined.

(* ------------------------------------------------------------------ *)
(** ** An entry of [extra_cut_shapes] that is not a Workplane *)

(** C3, as stated, fails: with a Workplane followed by a plain number in
    [extra_cut_shapes], [spherical_tokamak] raises only after it has
    registered add_extra_cut_shape_1 and after the three blanket layers have
    been cut by the centre column; the message names the type and no index. *)
Lemma fails_before_any_work_counterexample :
  let outcome :=
    SphericalTokamak.spherical_tokamak one_piece example_radial_build
      example_vertical_build (11 # 20) 180 [Workplane (handle 7); PyInt 5] []
      no_colors empty_state in
  fst outcome
  = Raise (ValueError
             "extra_cut_shapes should only contain cadquery Workplanes, not <class 'int'>")
  /\ map part_name (registered (snd outcome)) = ["add_extra_cut_shape_1"]
  /\ length (filter is_boolean_call (calls (snd outcome))) = 3%nat
  /\ ~ fails_before_any_work outcome.
Proof.
  intros outcome.
  split; [vm_compute; reflexivity|].
  split; [vm_compute; reflexivity|].
  split; [vm_compute; reflexivity|].
  intros (_ & Hparts & _).
  vm_compute in Hparts. discriminate Hparts.
Qed.

(** C3, amended: when [extra_cut_shapes] holds an entry that is not a
    Workplane and the construction of the geometry has succeeded, both
    assembly functions raise ValueError with a message naming the type of the
    first such entry; at that moment the assembly holds exactly the parts
    add_extra_cut_shape_<k> of the Workplanes in front of it, and the kernel
    log is the one the construction left: the trim stage has asked for no
    boolean operation. *)
Theorem invalid_extra_cut_shape_raises
    (K : Kernel) (colors : ColorTable)
    (extra_cut_shapes : list pyobj) (extra_intersect_shapes : list Solid)
    (bad : pyobj) (triangularity' rotation_angle : Q)
    (radial_build vertical_build : Build) (st : state) :
  first_invalid extra_cut_shapes = Some bad ->
  let failure := Raise (ValueError (extra_cut_shapes_message bad)) in
  let at_failure (st1 : state) :=
    {| registered := extra_cut_parts colors 0 (valid_prefix extra_cut_shapes);
       calls := calls st1 |} in
  (forall built st1,
      SphericalTokamak.construct radial_build vertical_build triangularity'
        rotation_angle st = (Ok built, st1) ->
      SphericalTokamak.spherical_tokamak K radial_build vertical_build
        triangularity' rotation_angle extra_cut_shapes extra_intersect_shapes
        colors st = (failure, at_failure st1))
  /\ (forall built st1,
         Tokamak.construct radial_build vertical_build triangularity'
           rotation_angle st = (Ok built, st1) ->
         Tokamak.tokamak K radial_build vertical_build
           triangularity' rotation_angle extra_cut_shapes extra_intersect_shapes
           colors st = (failure, at_failure st1)).
Proof.
  intros Hbad failure at_failure.
  split; intros [[[plasma inner] blanket] [[e mj] mn]] st1 Hc.
  - unfold SphericalTokamak.spherical_tokamak, bind. rewrite Hc.
    unfold SphericalTokamak.trim, bind, new_assembly.
    rewrite register_extra_cut_shapes_spec by reflexivity.
    unfold validation_outcome. rewrite Hbad. reflexivity.
  - unfold Tokamak.tokamak, bind. rewrite Hc.
    unfold Tokamak.trim, bind, new_assembly.
    rewrite register_extra_cut_shapes_spec by reflexivity.
    unfold validation_outcome. rewrite Hbad. reflexivity.
Qed.

Lemma invalid_extra_cut_shape_raises_witness :
  let failure :=
    Raise (ValueError
             "extra_cut_shapes should only contain cadquery Workplanes, not <class 'int'>") in
  (exists log,
      SphericalTokamak.spherical_tokamak one_piece tokamak_radial_build
        tokamak_vertical_build (11 # 20) 180 [Workplane (handle 7); PyInt 5] []
        no_colors empty_state
      = (failure,
         {| registered := [part_of no_colors "add_extra_cut_shape_1" (handle 7)];
            calls := log |}))
  /\ (exists log,
         Tokamak.tokamak one_piece tokamak_radial_build
           tokamak_vertical_build (11 # 20) 180 [Workplane (handle 7); PyInt 5] []
           no_colors empty_state
         = (failure,
            {| registered := [part_of no_colors "add_extra_cut_shape_1" (handle 7)];
               calls := log |})).
Proof.
  intros failure.
  destruct (invalid_extra_cut_shape_raises one_piece no_colors
              [Workplane (handle 7); PyInt 5] [] (PyInt 5) (11 # 20) 180
              tokamak_radial_build tokamak_vertical_build empty_state eq_refl)
    as [Hs Ht].
  split.
  - eexists. eapply Hs. vm_compute. reflexivity.
  - eexists. eapply Ht. vm_compute. reflexivity.
Defined.

(* ------------------------------------------------------------------ *)
(** ** Names the pipeline can register *)

Section Stable.

Variable P : string -> Prop.

Lemma stable_ret {A} (a : A) : stable P (ret a).
Proof. intros st r st' H E. injection E as _ <-. exact H. Qed.

Lemma stable_raise {A} (e : exn) : stable P (@raise A e).
Proof. intros st r st' H E. injection E as _ <-. exact H. Qed.

Lemma stable_lift {A} (x : result A) : stable P (lift x).
Proof. intros st r st' H E. injection E as _ <-. exact H. Qed.

Lemma stable_bind {A B} (m : M A) (k : A -> M B) :
  stable P m -> (forall a, stable P (k a)) -> stable P (bind m k).
Proof.
  intros Hm Hk st r st' H E. unfold bind in E.
  destruct (m st) as [[a|e] s1] eqn:Em.
  - eapply Hk; [eapply Hm; eauto | eauto].
  - injection E as _ <-. eapply Hm; eauto.
Qed.

Lemma stable_log (c : kernel_call) : stable P (log c).
Proof. intros st r st' H E. injection E as _ <-. exact H. Qed.

Lemma stable_do_union (a b : Solid) : stable P (do_union a b).
Proof. apply stable_bind; [apply stable_log | intros; apply stable_ret]. Qed.

Lemma stable_do_cut (a b : Solid) : stable P (do_cut a b).
Proof. apply stable_bind; [apply stable_log | intros; apply stable_ret]. Qed.

Lemma stable_do_intersect (a b : Solid) : stable P (do_intersect a b).
Proof. apply stable_bind; [apply stable_log | intros; apply stable_ret]. Qed.

Lemma stable_do_solids (K : Kernel) (a : Solid) : stable P (do_solids K a).
Proof. apply stable_bind; [apply stable_log | intros; apply stable_ret]. Qed.

Lemma stable_add (colors : ColorTable) (solid : Solid) (name : string) :
  P name -> stable P (add colors solid name).
Proof.
  intros Hn st r st' H E. unfold add in E.
  destruct (name_taken name st); injection E as _ <-; [exact H|].
  unfold names_ok. simpl. apply Forall_app. split; [exact H|].
  constructor; [exact Hn | constructor].
Qed.

Lemma stable_for_each {A S} (body : S -> A -> M S) (l : list A) :
  (forall acc x, stable P (body acc x)) ->
  forall acc, stable P (for_each body l acc).
Proof.
  intros Hb. induction l as [|x r IH]; intros acc; simpl.
  - apply stable_ret.
  - apply stable_bind; auto.
Qed.

Hypothesis extra_cut_ok : forall i, P (extra_cut_name i).
Hypothesis extra_intersect_ok : forall i, P (extra_intersect_name i).
Hypothesis layer_ok : forall i, P (layer_name i).
Hypothesis layer_part_ok : forall i j, P (layer_part_name i j).

Lemma stable_register_extra_cut_shapes colors l :
  stable P (register_extra_cut_shapes colors l).
Proof.
  apply stable_for_each. intros [] [i [w| | | |]]; simpl;
    solve [apply stable_add; auto | apply stable_raise].
Qed.

Lemma stable_cut_with_all entry cutters : stable P (cut_with_all entry cutters).
Proof. apply stable_for_each. intros. apply stable_do_cut. Qed.

Lemma stable_register_layer K colors i entry :
  stable P (register_layer K colors i entry).
Proof.
  unfold register_layer. destruct (has_solids K entry).
  - apply stable_bind; [apply stable_do_solids|]. intros solids_list.
    destruct (1 <? length solids_list)%nat.
    + apply stable_for_each. intros [] [j s]. apply stable_add; auto.
    + apply stable_add; auto.
  - apply stable_add; auto.
Qed.

Lemma stable_tokamak_cut_layers cuts to_cut layers i entry :
  stable P (Tokamak.cut_layers cuts to_cut layers i entry).
Proof.
  apply stable_for_each. intros acc [i' e'].
  destruct (cuts ++ to_cut).
  - apply stable_ret.
  - apply stable_bind; [apply stable_cut_with_all | intros; apply stable_ret].
Qed.

(** After [my_assembly = Assembly()] every name [tokamak] registers is one
    of the four families. *)
Lemma tokamak_trim_names K colors cuts ints inner blanket st r st' :
  Tokamak.trim K colors cuts ints inner blanket st = (r, st') ->
  names_ok P st'.
Proof.
  unfold Tokamak.trim. unfold bind at 1. unfold new_assembly at 1.
  apply (@stable_bind unit unit); [apply stable_register_extra_cut_shapes| |constructor].
  intros _. destruct ints as [|x ints']; [apply stable_ret|].
  apply stable_bind; [apply stable_lift|]. intros seed.
  apply stable_bind; [apply stable_for_each; intros; apply stable_do_union|].
  intros compound.
  apply stable_bind; [|intros; apply stable_ret].
  apply stable_for_each. intros to_cut [i entry].
  apply stable_bind; [apply stable_do_intersect|]. intros inter.
  apply stable_bind; [apply stable_add; auto|]. intros _.
  destruct cuts; [destruct (to_cut ++ [inter])|];
    try apply stable_ret;
    (apply stable_bind; [apply stable_tokamak_cut_layers|]; intros last;
     apply stable_bind; [apply stable_register_layer | intros; apply stable_ret]).
Qed.

End Stable.

(** [tokamak] never registers a part named plasma, on any input. *)
Lemma tokamak_never_registers_plasma
    (K : Kernel) (radial_build vertical_build : Build)
    (triangularity' rotation_angle : Q)
    (extra_cut_shapes : list pyobj) (extra_intersect_shapes : list Solid)
    (colors : ColorTable) (st st' : state) (asm : Assembly) :
  Tokamak.tokamak K radial_build vertical_build triangularity' rotation_angle
    extra_cut_shapes extra_intersect_shapes colors st = (Ok asm, st') ->
  ~ In "plasma" (part_names asm).
Proof.
  intros Hrun Hin.
  apply tokamak_returns in Hrun
    as (plasma & inner & blanket & st1 & _ & Ht & Hparts & _).
  apply (tokamak_trim_names (fun name => name <> "plasma")) in Ht;
    try (intros; discriminate).
  unfold part_names in Hin. rewrite Hparts in Hin.
  apply in_map_iff in Hin as [p [Hname Hp]].
  unfold names_ok in Ht. rewrite Forall_forall in Ht.
  exact (Ht p Hp Hname).
Qed.

(* ------------------------------------------------------------------ *)
(** ** The names of the registered parts are distinct *)

Section DistinctNames.

Lemma indexed_names {A} (f : nat -> string) (l : list A) :
  forall (k : nat) (n : string),
    In n (map (fun ks : nat * A => f (fst ks + 1)%nat) (enumerate_from k l)) ->
    exists i, (k <= i)%nat /\ n = f (i + 1)%nat.
Proof.
  induction l as [|x r IH]; intros k n H; simpl in H; [contradiction|].
  destruct H as [<-|H]; [exists k; auto|].
  destruct (IH _ _ H) as (i & Hi & ->). exists i. split; [lia | reflexivity].
Qed.

Lemma indexed_names_distinct {A} (f : nat -> string) (l : list A) :
  (forall i j, f i = f j -> i = j) ->
  forall k : nat,
    NoDup (map (fun ks : nat * A => f (fst ks + 1)%nat) (enumerate_from k l)).
Proof.
  intros Hinj. induction l as [|x r IH]; intros k; simpl; constructor.
  - intros H. apply indexed_names in H as (i & Hi & E).
    apply Hinj in E. lia.
  - apply IH.
Qed.

Variable K : Kernel.
Variable colors : ColorTable.

Lemma extra_cut_names (k : nat) (shapes : list Solid) :
  map part_name (extra_cut_parts colors k shapes)
  = map (fun ks : nat * Solid => extra_cut_name (fst ks + 1))
      (enumerate_from k shapes).
Proof. unfold extra_cut_parts. now rewrite map_map. Qed.

Lemma extra_intersect_names (k : nat) (shapes : list Solid) (compound : Solid) :
  map part_name (extra_intersect_parts colors k shapes compound)
  = map (fun ks : nat * Solid => extra_intersect_name (fst ks + 1))
      (enumerate_from k shapes).
Proof. unfold extra_intersect_parts. now rewrite map_map. Qed.

Lemma decomposed_names (i : nat) (entry : Solid) (n : string) :
  In n (map part_name (decomposed K colors i entry)) ->
  layer_family (i + 1) n.
Proof.
  unfold decomposed.
  destruct (has_solids K entry); [|intros [<-|[]]; now left].
  destruct (1 <? length (solids K entry))%nat; [|intros [<-|[]]; now left].
  rewrite map_map. intros H.
  apply in_map_iff in H as [[j s] [<- _]]. right. now exists (j + 1)%nat.
Qed.

Lemma decomposed_distinct (i : nat) (entry : Solid) :
  NoDup (map part_name (decomposed K colors i entry)).
Proof.
  unfold decomposed.
  destruct (has_solids K entry); [|repeat constructor; intros []].
  destruct (1 <? length (solids K entry))%nat;
    [|repeat constructor; intros []].
  rewrite map_map.
  apply (indexed_names_distinct (layer_part_name (i + 1))).
  intros a b H. now apply layer_part_name_injective in H.
Qed.

Lemma parts_of_layer_names (cutters : list Solid) (ie : nat * Solid) (n : string) :
  In n (map part_name (parts_of_layer K colors cutters ie)) ->
  layer_family (fst ie + 1) n.
Proof.
  unfold parts_of_layer. destruct cutters; [|apply decomposed_names].
  intros [<-|[]]. now left.
Qed.

Lemma parts_of_layer_distinct (cutters : list Solid) (ie : nat * Solid) :
  NoDup (map part_name (parts_of_layer K colors cutters ie)).
Proof.
  unfold parts_of_layer. destruct cutters; [|apply decomposed_distinct].
  repeat constructor. intros [].
Qed.

Lemma layers_names (cutters layers : list Solid) :
  forall (k : nat) (n : string),
    In n (map part_name
            (flat_map (parts_of_layer K colors cutters) (enumerate_from k layers))) ->
    exists i, (k <= i)%nat /\ layer_family (i + 1) n.
Proof.
  induction layers as [|x r IH]; intros k n H; simpl in H; [contradiction|].
  rewrite map_app, in_app_iff in H. destruct H as [H|H].
  - apply parts_of_layer_names in H. exists k. auto.
  - destruct (IH _ _ H) as (i & Hi & Hf). exists i. split; [lia | exact Hf].
Qed.

Lemma layers_distinct (cutters layers : list Solid) :
  forall k : nat,
    NoDup (map part_name
             (flat_map (parts_of_layer K colors cutters) (enumerate_from k layers))).
Proof.
  induction layers as [|x r IH]; intros k; simpl; [constructor|].
  rewrite map_app. apply NoDup_app;
    [apply parts_of_layer_distinct | apply IH |].
  intros n Hn Hr. apply parts_of_layer_names in Hn.
  apply layers_names in Hr as (i & Hi & Hf).
  pose proof (layer_family_index _ _ _ Hn Hf). simpl in *. lia.
Qed.

Lemma extra_cut_distinct (k : nat) (shapes : list Solid) :
  NoDup (map part_name (extra_cut_parts colors k shapes)).
Proof.
  rewrite extra_cut_names.
  apply indexed_names_distinct, extra_cut_name_injective.
Qed.

(** Names of different kinds differ in their first letter. *)
Lemma extra_cut_not_intersect (i j : nat) :
  extra_cut_name i <> extra_intersect_name j.
Proof. discriminate. Qed.

Lemma extra_cut_not_layer (i j : nat) (n : string) :
  layer_family j n -> n <> extra_cut_name i.
Proof. intros [->|[j' ->]]; discriminate. Qed.

Lemma extra_intersect_not_layer (i j : nat) (n : string) :
  layer_family j n -> n <> extra_intersect_name i.
Proof. intros [->|[j' ->]]; discriminate. Qed.

Lemma plasma_not_layer (j : nat) (n : string) :
  layer_family j n -> n <> "plasma".
Proof. intros [->|[j' ->]]; discriminate. Qed.

(** Whatever [spherical_tokamak] registers has pairwise distinct names. *)
Lemma spherical_names_distinct (cuts ints : list Solid) (compound : Solid)
    (cutters layers : list Solid) (plasma : Solid) :
  NoDup (map part_name
           (extra_cut_parts colors 0 cuts
            ++ extra_intersect_parts colors 0 ints compound
            ++ flat_map (parts_of_layer K colors cutters) (enumerate layers)
            ++ [part_of colors "plasma" plasma])).
Proof.
  rewrite !map_app, extra_cut_names, extra_intersect_names.
  apply NoDup_app;
    [apply indexed_names_distinct, extra_cut_name_injective | |].
  - apply NoDup_app;
      [apply indexed_names_distinct, extra_intersect_name_injective | |].
    + apply NoDup_app; [apply layers_distinct | repeat constructor; intros [] |].
      intros n Hn [<-|[]]. apply layers_names in Hn as (i & _ & Hf).
      exact (plasma_not_layer _ _ Hf eq_refl).
    + intros n Hn Hr. apply indexed_names in Hn as (i & _ & ->).
      apply in_app_iff in Hr as [Hr|[Hr|[]]].
      * apply layers_names in Hr as (j & _ & Hf).
        exact (extra_intersect_not_layer _ _ _ Hf eq_refl).
      * discriminate Hr.
  - intros n Hn Hr. apply indexed_names in Hn as (i & _ & ->).
    apply in_app_iff in Hr as [Hr|Hr].
    + apply indexed_names in Hr as (j & _ & E).
      now apply extra_cut_not_intersect in E.
    + apply in_app_iff in Hr as [Hr|[Hr|[]]].
      * apply layers_names in Hr as (j & _ & Hf).
        exact (extra_cut_not_layer _ _ _ Hf eq_refl).
      * discriminate Hr.
Qed.

End DistinctNames.

(* ------------------------------------------------------------------ *)
(** ** What the trim stage of [spherical_tokamak] registers *)

Section Appends.

Lemma names_distinct_dec (X : list Part) :
  {NoDup (map part_name X)} + {~ NoDup (map part_name X)}.
Proof. apply NoDup_dec. exact string_dec. Qed.

Lemma appends_ret {A} (a : A) : appends (ret a) a [].
Proof.
  intros st. split.
  - intros _. exists (calls st). unfold ret. now rewrite state_eta.
  - intros Hst Hdup. rewrite app_nil_r in Hdup. contradiction.
Qed.

Lemma appends_bind {A B} (m : M A) (k : A -> M B) a b X Y :
  appends m a X -> appends (k a) b Y -> appends (bind m k) b (X ++ Y).
Proof.
  intros Hm Hk st. rewrite app_assoc. split.
  - intros Hnd.
    assert (Hnd1 : NoDup (map part_name (registered st ++ X)))
      by (rewrite map_app in Hnd; now apply NoDup_app_remove_r in Hnd).
    destruct (proj1 (Hm st) Hnd1) as [log1 E1].
    unfold bind. rewrite E1.
    destruct (proj1 (Hk {| registered := registered st ++ X; calls := log1 |})
                Hnd) as [log2 E2].
    rewrite E2. simpl. now exists log2.
  - intros Hst Hdup.
    destruct (names_distinct_dec (registered st ++ X)) as [Hnd1|Hdup1].
    + destruct (proj1 (Hm st) Hnd1) as [log1 E1].
      destruct (proj2 (Hk {| registered := registered st ++ X; calls := log1 |})
                  Hnd1 Hdup) as (Y' & rest & log2 & -> & E2).
      exists (X ++ Y'), rest, log2.
      split; [now rewrite app_assoc|].
      unfold bind. rewrite E1, E2. simpl. now rewrite app_assoc.
    + destruct (proj2 (Hm st) Hst Hdup1) as (X' & rest & log1 & -> & E1).
      exists X', (rest ++ Y), log1.
      split; [now rewrite app_assoc|].
      unfold bind. now rewrite E1.
Qed.

Lemma appends_log (c : kernel_call) : appends (log c) tt [].
Proof.
  intros st. split.
  - intros _. exists (calls st ++ [c]). unfold log. now rewrite app_nil_r.
  - intros Hst Hdup. rewrite app_nil_r in Hdup. contradiction.
Qed.

Lemma appends_do_union a b : appends (do_union a b) (union a b) [].
Proof.
  exact (appends_bind _ (fun _ => ret (union a b)) tt _ [] []
           (appends_log _) (appends_ret _)).
Qed.

Lemma appends_do_cut a b : appends (do_cut a b) (cut a b) [].
Proof.
  exact (appends_bind _ (fun _ => ret (cut a b)) tt _ [] []
           (appends_log _) (appends_ret _)).
Qed.

Lemma appends_do_intersect a b : appends (do_intersect a b) (intersect a b) [].
Proof.
  exact (appends_bind _ (fun _ => ret (intersect a b)) tt _ [] []
           (appends_log _) (appends_ret _)).
Qed.

Lemma appends_do_solids K a : appends (do_solids K a) (solids K a) [].
Proof.
  exact (appends_bind _ (fun _ => ret (solids K a)) tt _ [] []
           (appends_log _) (appends_ret _)).
Qed.

Lemma appends_add colors solid name :
  appends (add colors solid name) tt [part_of colors name solid].
Proof.
  intros st. split.
  - intros Hnd. exists (calls st). apply add_fresh.
    rewrite map_app in Hnd. apply NoDup_remove_2 in Hnd.
    now rewrite app_nil_r in Hnd.
  - intros Hst Hdup. exists [], [part_of colors name solid], (calls st).
    split; [reflexivity|].
    rewrite state_eta. apply add_taken.
    destruct (in_dec string_dec name (map part_name (registered st)))
      as [Hin|Hnew]; [exact Hin|].
    exfalso. apply Hdup. rewrite map_app. apply NoDup_app; [exact Hst| |].
    + repeat constructor. intros [].
    + intros n Hn [<-|[]]. contradiction.
Qed.

Lemma appends_for_each {A S} (body : S -> A -> M S)
    (f : S -> A -> S) (g : A -> list Part) :
  (forall acc x, appends (body acc x) (f acc x) (g x)) ->
  forall l acc, appends (for_each body l acc) (fold_left f l acc) (flat_map g l).
Proof.
  intros Hb. induction l as [|x r IH]; intros acc; simpl.
  - apply appends_ret.
  - eapply appends_bind; [apply Hb | apply IH].
Qed.

Lemma flat_map_nil {A B} (l : list A) : flat_map (fun _ : A => @nil B) l = [].
Proof. induction l; simpl; auto. Qed.

Lemma flat_map_singleton {A B} (h : A -> B) (l : list A) :
  flat_map (fun x => [h x]) l = map h l.
Proof. induction l; simpl; congruence. Qed.

Lemma appends_cut_with_all entry cutters :
  appends (cut_with_all entry cutters) (cut_all entry cutters) [].
Proof.
  unfold cut_with_all, cut_all.
  rewrite <- (flat_map_nil cutters).
  apply appends_for_each. intros; apply appends_do_cut.
Qed.

Lemma appends_for_each_unit {A} (body : unit -> A -> M unit)
    (g : A -> list Part) :
  (forall x, appends (body tt x) tt (g x)) ->
  forall l, appends (for_each body l tt) tt (flat_map g l).
Proof.
  intros Hb. induction l as [|x r IH]; simpl.
  - apply appends_ret.
  - exact (appends_bind _ _ tt tt _ _ (Hb x) IH).
Qed.

Lemma appends_register_layer K colors i entry :
  appends (register_layer K colors i entry) tt (decomposed K colors i entry).
Proof.
  unfold register_layer, decomposed.
  destruct (has_solids K entry); [|apply appends_add].
  apply (appends_bind _ _ (solids K entry) tt []); [apply appends_do_solids|].
  destruct (1 <? length (solids K entry))%nat; [|apply appends_add].
  rewrite <- flat_map_singleton.
  apply appends_for_each_unit. intros [j s]. apply appends_add.
Qed.

Lemma appends_union_loop layers seed :
  appends (for_each do_union layers seed) (fold_left union layers seed) [].
Proof.
  rewrite <- (flat_map_nil layers).
  apply appends_for_each. intros; apply appends_do_union.
Qed.

Lemma intersect_accumulator compound (l : list (nat * Solid)) :
  forall acc,
    fold_left (fun (to_cut : list Solid) (ie : nat * Solid) =>
                 to_cut ++ [intersect (snd ie) compound]) l acc
    = acc ++ intersections (map snd l) compound.
Proof.
  induction l as [|x r IH]; intros acc; simpl.
  - now rewrite app_nil_r.
  - rewrite IH, <- app_assoc. reflexivity.
Qed.

Lemma map_snd_enumerate_from {A} (l : list A) :
  forall k, map snd (enumerate_from k l) = l.
Proof. induction l; intros k; simpl; congruence. Qed.

Lemma as_solids_nil (cuts : list pyobj) :
  first_invalid cuts = None -> as_solids cuts = [] -> cuts = [].
Proof. destruct cuts as [|[w| | | |] r]; simpl; try discriminate; auto. Qed.

Variable K : Kernel.
Variable colors : ColorTable.

(** The loop over the layers, in either branch. *)
Lemma appends_layers (cuts : list pyobj) (to_cut layers : list Solid) :
  first_invalid cuts = None ->
  appends
    (match cuts, to_cut with
     | [], [] =>
         for_each (fun (_ : unit) (ie : nat * Solid) =>
                     let (i, entry) := ie in
                     add colors entry (layer_name (i + 1)))
                  (enumerate layers) tt
     | _, _ =>
         for_each (fun (_ : unit) (ie : nat * Solid) =>
                     let (i, entry) := ie in
                     entry <- cut_with_all entry (as_solids cuts ++ to_cut) ;;
                     register_layer K colors i entry)
                  (enumerate layers) tt
     end)
    tt
    (flat_map (parts_of_layer K colors (as_solids cuts ++ to_cut))
       (enumerate layers)).
Proof.
  intros Hvalid.
  remember (as_solids cuts ++ to_cut) as cutters eqn:Ecutters.
  destruct cutters as [|c cs].
  - symmetry in Ecutters. apply app_eq_nil in Ecutters as [Hc ->].
    rewrite (as_solids_nil cuts Hvalid Hc).
    apply appends_for_each_unit. intros [i entry]. apply appends_add.
  - assert (Hloop :
      appends
        (for_each (fun (_ : unit) (ie : nat * Solid) =>
                     let (i, entry) := ie in
                     entry <- cut_with_all entry (c :: cs) ;;
                     register_layer K colors i entry)
                  (enumerate layers) tt)
        tt
        (flat_map (parts_of_layer K colors (c :: cs)) (enumerate layers))).
    { apply appends_for_each_unit. intros [i entry].
      exact (appends_bind _ _ _ _ _ _ (appends_cut_with_all entry (c :: cs))
               (appends_register_layer K colors i _)). }
    destruct cuts as [|o cuts']; [destruct to_cut; [discriminate|]|];
      exact Hloop.
Qed.

(** The loop over [extra_intersect_shapes]. *)
Lemma appends_intersect_loop (compound : Solid) (ints : list Solid) :
  forall (k : nat) (acc : list Solid),
    appends
      (for_each (fun (to_cut : list Solid) (ie : nat * Solid) =>
                   let (i, entry) := ie in
                   reactor_entry_intersection <- do_intersect entry compound ;;
                   add colors reactor_entry_intersection
                     (extra_intersect_name (i + 1)) ;;;
                   ret (to_cut ++ [reactor_entry_intersection]))
                (enumerate_from k ints) acc)
      (acc ++ intersections ints compound)
      (extra_intersect_parts colors k ints compound).
Proof.
  induction ints as [|x r IH]; intros k acc.
  - simpl. rewrite app_nil_r. apply appends_ret.
  - simpl for_each.
    replace (acc ++ intersections (x :: r) compound)
      with ((acc ++ [intersect x compound]) ++ intersections r compound)
      by (rewrite <- app_assoc; reflexivity).
    change (extra_intersect_parts colors k (x :: r) compound)
      with ([part_of colors (extra_intersect_name (k + 1)) (intersect x compound)]
              ++ extra_intersect_parts colors (S k) r compound).
    apply (appends_bind _ _ (acc ++ [intersect x compound])); [|apply IH].
    apply (appends_bind _ _ (intersect x compound) _ []
             [part_of colors (extra_intersect_name (k + 1)) (intersect x compound)]);
      [apply appends_do_intersect|].
    apply (appends_bind _ _ tt _
             [part_of colors (extra_intersect_name (k + 1)) (intersect x compound)]
             []);
      [apply appends_add | apply appends_ret].
Qed.

(** The whole trim stage of [spherical_tokamak], when every
    [extra_cut_shapes] entry is a Workplane and there is a first cylinder
    to seed the union with if extra-intersect shapes are given. *)
Lemma spherical_trim_spec (cuts : list pyobj) (ints : list Solid)
    (plasma : Solid) (inner blanket : list Solid) (st : state) :
  first_invalid cuts = None ->
  (ints <> [] -> inner <> []) ->
  let compound := reactor_compound_of (inner ++ blanket) in
  let cutters := as_solids cuts ++ intersections ints compound in
  exists log,
    SphericalTokamak.trim K colors cuts ints plasma inner blanket st
    = (Ok tt,
       {| registered :=
            extra_cut_parts colors 0 (as_solids cuts)
            ++ extra_intersect_parts colors 0 ints compound
            ++ flat_map (parts_of_layer K colors cutters)
                 (enumerate (inner ++ blanket))
            ++ [part_of colors "plasma" plasma];
          calls := log |}).
Proof.
  intros Hvalid Hseed compound cutters.
  assert (Hint : appends
            (match ints with
             | [] => ret []
             | _ :: _ =>
                 seed <- lift (Py.index inner 0) ;;
                 reactor_compound <-
                   for_each do_union (tl inner ++ blanket) seed ;;
                 for_each (fun (to_cut : list Solid) (ie : nat * Solid) =>
                             let (i, entry) := ie in
                             reactor_entry_intersection <-
                               do_intersect entry reactor_compound ;;
                             add colors reactor_entry_intersection
                               (extra_intersect_name (i + 1)) ;;;
                             ret (to_cut ++ [reactor_entry_intersection]))
                          (enumerate ints) []
             end)
            (intersections ints compound)
            (extra_intersect_parts colors 0 ints compound)).
  { destruct ints as [|x ints']; [apply appends_ret|].
    destruct inner as [|seed others]; [exfalso; apply Hseed; congruence|].
    change (lift (Py.index (seed :: others) 0)) with (@ret Solid seed).
    exact (appends_bind _ _ seed _ [] _ (appends_ret seed)
             (appends_bind _ _ compound _ [] _
                (appends_union_loop (others ++ blanket) seed)
                (appends_intersect_loop compound (x :: ints') 0 []))). }
  unfold SphericalTokamak.trim. unfold bind at 1. unfold new_assembly at 1.
  unfold bind at 1. rewrite register_extra_cut_shapes_spec by reflexivity.
  unfold validation_outcome. rewrite Hvalid.
  destruct (all_valid _ Hvalid) as [-> _]. simpl registered.
  match goal with
  | |- exists log, ?m ?s = _ =>
      assert (Hall : appends m tt
                       (extra_intersect_parts colors 0 ints compound
                        ++ flat_map (parts_of_layer K colors cutters)
                             (enumerate (inner ++ blanket))
                        ++ [part_of colors "plasma" plasma]));
      [|destruct (proj1 (Hall s)) as [log E];
        [exact (spherical_names_distinct K colors _ _ _ _ _ _)
        |exists log; rewrite E; reflexivity]]
  end.
  eapply appends_bind; [exact Hint|].
  eapply appends_bind;
    [apply appends_layers; exact Hvalid | apply appends_add].
Qed.

End Appends.

(* ------------------------------------------------------------------ *)
(** ** The plasma part and the layer parts *)

Section PlasmaLast.

Lemma bind_ok {A B} (m : M A) (k : A -> M B) st b st' :
  bind m k st = (Ok b, st') ->
  exists a s1, m st = (Ok a, s1) /\ k a s1 = (Ok b, st').
Proof.
  unfold bind. destruct (m st) as [[a|e] s1]; [eauto | discriminate].
Qed.

(** [spherical_tokamak] ends the trim stage by registering the plasma. *)
Lemma spherical_trim_plasma_last K colors cuts ints plasma inner blanket st st' :
  SphericalTokamak.trim K colors cuts ints plasma inner blanket st = (Ok tt, st') ->
  exists front, registered st' = front ++ [part_of colors "plasma" plasma].
Proof.
  unfold SphericalTokamak.trim. intros H.
  apply bind_ok in H as (_ & s1 & _ & H).
  apply bind_ok in H as (_ & s2 & _ & H).
  apply bind_ok in H as (to_cut & s3 & _ & H).
  apply bind_ok in H as (_ & s4 & _ & H).
  apply add_returned in H as ->. simpl. eauto.
Qed.

Lemma spherical_tokamak_plasma_last K radial_build vertical_build
    triangularity' rotation_angle cuts ints colors st asm st' :
  SphericalTokamak.spherical_tokamak K radial_build vertical_build
    triangularity' rotation_angle cuts ints colors st = (Ok asm, st') ->
  exists front,
    parts asm
    = front ++ [part_of colors "plasma"
                  (plasma_simplified (major_radius asm) (minor_radius asm)
                     (elongation asm) triangularity' rotation_angle)].
Proof.
  intros Hrun.
  apply spherical_tokamak_returns in Hrun
    as (plasma & inner & blanket & st1 & Hc & Ht & -> & _).
  apply spherical_construct_returns in Hc as (_ & _ & _ & _ & _ & _ & <-).
  eapply spherical_trim_plasma_last; eauto.
Qed.

(** The layer parts in the terms of the description. *)
Lemma parts_of_layer_no_cutters K colors i entry :
  parts_of_layer K colors [] (i, entry)
  = [part_of colors (layer_name (i + 1)) entry].
Proof. reflexivity. Qed.

Lemma parts_of_layer_one_component K colors c cs i entry s :
  has_solids K (cut_all entry (c :: cs)) = true ->
  solids K (cut_all entry (c :: cs)) = [s] ->
  parts_of_layer K colors (c :: cs) (i, entry)
  = [part_of colors (layer_name (i + 1)) s].
Proof.
  intros Hh Hs. unfold parts_of_layer, decomposed. simpl fst. simpl snd.
  now rewrite Hh, Hs.
Qed.

Lemma parts_of_layer_components K colors c cs i entry :
  has_solids K (cut_all entry (c :: cs)) = true ->
  (1 < length (solids K (cut_all entry (c :: cs))))%nat ->
  parts_of_layer K colors (c :: cs) (i, entry)
  = map (fun js : nat * Solid =>
           part_of colors (layer_part_name (i + 1) (fst js + 1)) (snd js))
        (enumerate (solids K (cut_all entry (c :: cs)))).
Proof.
  intros Hh Hl. unfold parts_of_layer, decomposed. simpl fst. simpl snd.
  rewrite Hh. apply Nat.ltb_lt in Hl. now rewrite Hl.
Qed.

End PlasmaLast.

(** On the radial build of the examples, with an extra-cut and an
    extra-intersect shape, [spherical_tokamak_from_plasma] registers every
    layer and then the plasma, which no cut has as an operand. *)
Example spherical_example_parts :
  exists asm st',
    SphericalTokamak.spherical_tokamak_from_plasma two_pieces
      example_radial_build 2 (11 # 20) 180 [Workplane (handle 7)] [handle 0]
      no_colors empty_state = (Ok asm, st')
    /\ part_names asm
       = ["add_extra_cut_shape_1"; "extra_intersect_shapes_1";
          "layer_1_part_1"; "layer_1_part_2"; "layer_2_part_1"; "layer_2_part_2";
          "layer_3_part_1"; "layer_3_part_2"; "layer_4_part_1"; "layer_4_part_2";
          "layer_5_part_1"; "layer_5_part_2"; "plasma"]
    /\ existsb is_plasma_solid (cut_operands (calls st')) = false.
Proof.
  eexists _, _. split; [vm_compute; reflexivity|].
  split; vm_compute; reflexivity.
Qed.

(** C2: the claim fails on [tokamak]: on the radial build of
    examples/tokamak_from_plasma_with_color.py the returned assembly has no
    part at all, and with the extra-intersect shape of
    examples/tokamak_from_plasma_with_divertor.py it has the intersection and
    one layer part; neither holds a part named plasma.  On the same inputs
    [spherical_tokamak_from_plasma] ends with the part plasma. *)
Theorem tokamak_example_has_no_plasma_part :
  (exists asm st',
      Tokamak.tokamak_from_plasma one_piece tokamak_radial_build 2 (11 # 20) 180
        [] [] no_colors empty_state = (Ok asm, st')
      /\ part_names asm = []
      /\ ~ In "plasma" (part_names asm))
  /\ (exists asm st',
         Tokamak.tokamak_from_plasma one_piece tokamak_radial_build 2 (11 # 20) 180
           [] [handle 0] no_colors empty_state = (Ok asm, st')
         /\ part_names asm = ["extra_intersect_shapes_1"; "layer_5"]
         /\ ~ In "plasma" (part_names asm))
  /\ (exists asm st',
         SphericalTokamak.spherical_tokamak_from_plasma one_piece
           tokamak_radial_build 2 (11 # 20) 180 [] [] no_colors empty_state
         = (Ok asm, st')
         /\ last (part_names asm) "" = "plasma").
Proof.
  split; [|split].
  - eexists _, _. split; [vm_compute; reflexivity|].
    split; [reflexivity | intros []].
  - eexists _, _. split; [vm_compute; reflexivity|].
    split; [reflexivity|].
    intros [H|[H|[]]]; discriminate H.
  - eexists _, _. split; [vm_compute; reflexivity|]. reflexivity.
Qed.

(** C4: the claim fails on [tokamak]: its construction on the radial build of
    the tokamak examples yields five layers, yet without cutters the trim
    stage registers no layer part where layer_1 ... layer_5 are described,
    and with one extra-intersect shape and a kernel that splits every solid
    in two it registers the parts of layer 5 only where those of all five
    layers are described. *)
Theorem tokamak_example_registers_last_layer_only :
  exists plasma inner blanket scalars st1,
    Tokamak.construct tokamak_radial_build tokamak_vertical_build (11 # 20) 180
      empty_state = (Ok (plasma, inner, blanket, scalars), st1)
    /\ length (inner ++ blanket) = 5%nat
    /\ (exists st',
           Tokamak.trim one_piece no_colors [] [] inner blanket st1 = (Ok tt, st')
           /\ registered st' = []
           /\ map part_name
                (flat_map (parts_of_layer one_piece no_colors [])
                   (enumerate (inner ++ blanket)))
              = ["layer_1"; "layer_2"; "layer_3"; "layer_4"; "layer_5"])
    /\ (exists st',
           Tokamak.trim two_pieces no_colors [] [handle 0] inner blanket st1
           = (Ok tt, st')
           /\ map part_name (registered st')
              = ["extra_intersect_shapes_1"; "layer_5_part_1"; "layer_5_part_2"]
           /\ map part_name
                (flat_map
                   (parts_of_layer two_pieces no_colors
                      (intersections [handle 0]
                         (reactor_compound_of (inner ++ blanket))))
                   (enumerate (inner ++ blanket)))
              = ["layer_1_part_1"; "layer_1_part_2"; "layer_2_part_1";
                 "layer_2_part_2"; "layer_3_part_1"; "layer_3_part_2";
                 "layer_4_part_1"; "layer_4_part_2"; "layer_5_part_1";
                 "layer_5_part_2"]).
Proof.
  eexists _, _, _, _, _. split; [vm_compute; reflexivity|].
  split; [reflexivity|]. split.
  - eexists. split; [vm_compute; reflexivity|]. split; reflexivity.
  - eexists. split; [vm_compute; reflexivity|]. split; reflexivity.
Qed.

(* ------------------------------------------------------------------ *)
(** ** The spherical centre column on every build *)

Section SphericalColumn.

Variable radial_build : Build.
Variables rotation_angle height before : Q.

Lemma nth_error_middle {A} (prefix : list A) (e : A) (r : list A) :
  nth_error (prefix ++ e :: r) (length prefix + 1) = nth_error r 0.
Proof.
  rewrite nth_error_app2 by lia.
  replace (length prefix + 1 - length prefix)%nat with 1%nat by lia.
  reflexivity.
Qed.

Lemma index_next {A} (prefix : list A) (e : A) (r : list A) :
  Py.index (prefix ++ e :: r) (Z.of_nat (length prefix) + 1)
  = match r with x :: _ => Ok x | [] => Raise IndexError end.
Proof.
  replace (Z.of_nat (length prefix) + 1)%Z
    with (Z.of_nat (length prefix + 1)) by lia.
  rewrite index_nonneg, nth_error_middle. now destruct r.
Qed.

Lemma thicknesses_snoc (prefix : Build) (tag : LayerType) (t : Q) :
  thicknesses (prefix ++ [(tag, t)]) = thicknesses prefix ++ [t].
Proof. unfold thicknesses. now rewrite map_app. Qed.

(** One turn of the loop, by the tag of the entry at hand. *)
Lemma spherical_loop_gap index t rest cylinders total_sum layer_count :
  SphericalTokamak.cylinders_loop radial_build rotation_angle height before
    ((index, (GAP, t)) :: rest) cylinders total_sum layer_count
  = rbind (Py.index radial_build (Z.of_nat index + 1)) (fun next =>
      if is_plasma next then Ok cylinders
      else SphericalTokamak.cylinders_loop radial_build rotation_angle height
             before rest cylinders (total_sum + t) layer_count).
Proof. reflexivity. Qed.

Lemma spherical_loop_solid index t rest cylinders total_sum layer_count :
  SphericalTokamak.cylinders_loop radial_build rotation_angle height before
    ((index, (SOLID, t)) :: rest) cylinders total_sum layer_count
  = SphericalTokamak.cylinders_loop radial_build rotation_angle height before
      rest
      (cylinders ++
       [spherical_cylinder_of rotation_angle height before
          (layer_count, (total_sum, t))])
      (total_sum + t) (layer_count + 1).
Proof. reflexivity. Qed.

Lemma solid_shells_gap prefix t r :
  solid_shells prefix ((GAP, t) :: r) = solid_shells (prefix ++ [t]) r.
Proof. reflexivity. Qed.

Lemma solid_shells_solid prefix t r :
  solid_shells prefix ((SOLID, t) :: r)
  = (Py.sum prefix, t) :: solid_shells (prefix ++ [t]) r.
Proof. reflexivity. Qed.

Lemma solid_shells_at_plasma prefix x r :
  is_plasma x = true -> solid_shells prefix (x :: r) = [].
Proof. intros H. simpl. now rewrite H. Qed.

(** The loop, started anywhere in a build that still has a PLASMA entry
    ahead. *)
Lemma spherical_cylinders_loop_spec (suffix : Build) :
  forall (prefix : Build) (cylinders : list Solid) (layer_count : nat),
    radial_build = prefix ++ suffix ->
    existsb is_plasma suffix = true ->
    SphericalTokamak.cylinders_loop radial_build rotation_angle height before
      (enumerate_from (length prefix) suffix) cylinders
      (Py.sum (thicknesses prefix)) layer_count
    = Ok (cylinders ++
          map (spherical_cylinder_of rotation_angle height before)
            (enumerate_from layer_count
               (solid_shells (thicknesses prefix) suffix))).
Proof.
  induction suffix as [|e r IH]; intros prefix cylinders layer_count Hrb Hp.
  - discriminate Hp.
  - assert (Hnext : radial_build = (prefix ++ [e]) ++ r)
      by (rewrite <- app_assoc; exact Hrb).
    assert (Hlen : length (prefix ++ [e]) = S (length prefix))
      by (rewrite length_app; simpl; lia).
    change (enumerate_from (length prefix) (e :: r))
      with ((length prefix, e) :: enumerate_from (S (length prefix)) r).
    rewrite <- Hlen.
    destruct e as [[| |] t].
    + rewrite spherical_loop_gap, Hlen, solid_shells_gap.
      rewrite Hrb at 1. rewrite index_next.
      destruct r as [|x r']; [discriminate Hp|].
      unfold rbind. destruct (is_plasma x) eqn:Ex.
      * rewrite (solid_shells_at_plasma _ x r' Ex). simpl. now rewrite app_nil_r.
      * rewrite <- sum_snoc, <- (thicknesses_snoc prefix GAP t), <- Hlen.
        apply IH; assumption.
    + rewrite spherical_loop_solid, solid_shells_solid.
      rewrite <- sum_snoc, <- (thicknesses_snoc prefix SOLID t).
      rewrite IH by assumption.
      simpl. rewrite Nat.add_1_r, <- app_assoc. reflexivity.
    + simpl. now rewrite app_nil_r.
Qed.

(** Without any PLASMA entry, a build that ends in a GAP makes the loop read
    one entry past the end. *)
Lemma spherical_cylinders_loop_trailing_gap (middle : Build) (t : Q) :
  forall (prefix : Build) (cylinders : list Solid) (total_sum : Q)
         (layer_count : nat),
    radial_build = prefix ++ middle ++ [(GAP, t)] ->
    Forall (fun e => is_plasma e = false) middle ->
    SphericalTokamak.cylinders_loop radial_build rotation_angle height before
      (enumerate_from (length prefix) (middle ++ [(GAP, t)])) cylinders
      total_sum layer_count
    = Raise IndexError.
Proof.
  induction middle as [|e r IH];
    intros prefix cylinders total_sum layer_count Hrb Hno.
  - change (enumerate_from (length prefix) ([] ++ [(GAP, t)]))
      with [(length prefix, (GAP, t))].
    rewrite spherical_loop_gap. rewrite Hrb at 1. simpl app.
    rewrite index_next. reflexivity.
  - apply Forall_cons_iff in Hno as [He Hr].
    assert (Hnext : radial_build = (prefix ++ [e]) ++ r ++ [(GAP, t)])
      by (rewrite <- app_assoc; exact Hrb).
    assert (Hlen : length (prefix ++ [e]) = S (length prefix))
      by (rewrite length_app; simpl; lia).
    change (enumerate_from (length prefix) ((e :: r) ++ [(GAP, t)]))
      with ((length prefix, e)
              :: enumerate_from (S (length prefix)) (r ++ [(GAP, t)])).
    rewrite <- Hlen.
    destruct e as [[| |] te]; try discriminate He.
    + rewrite spherical_loop_gap, Hlen.
      rewrite Hrb at 1. simpl app. rewrite index_next.
      destruct (r ++ [(GAP, t)]) as [|x r'] eqn:Er;
        [destruct r; discriminate Er|].
      assert (Hx : is_plasma x = false).
      { destruct r as [|y r'']; simpl in Er; injection Er as <- _.
        - reflexivity.
        - now apply Forall_cons_iff in Hr as [Hy _]. }
      unfold rbind. rewrite Hx, <- Hlen. apply IH; assumption.
    + rewrite spherical_loop_solid. apply IH; assumption.
Qed.

End SphericalColumn.

Lemma spherical_create_cylinders_ok
    (radial_build vertical_build : Build) (rotation_angle : Q) :
  existsb is_plasma radial_build = true ->
  SphericalTokamak.create_center_column_shield_cylinders radial_build
    vertical_build rotation_angle
  = Ok (map (spherical_cylinder_of rotation_angle
               (Py.sum (thicknesses vertical_build))
               (fst (Utils.sum_before_after_plasma vertical_build)))
          (enumerate (solid_shells [] radial_build))).
Proof.
  intros Hp.
  unfold SphericalTokamak.create_center_column_shield_cylinders, enumerate.
  exact (spherical_cylinders_loop_spec radial_build rotation_angle _ _
           radial_build [] [] 0%nat eq_refl Hp).
Qed.

(** X1: for every radial build that holds a PLASMA entry, the spherical
    centre-column builder returns one cylinder per SOLID entry in front of the
    plasma, with no count limit: the k-th is named layer_<k>, starts at the sum
    of all the thicknesses in front of it (gaps included) and has the entry's
    thickness; all have the summed thickness of the vertical build as height
    and the reference point ("lower", -before), where before is the first
    value [sum_before_after_plasma(vertical_build)] returns. *)
Theorem spherical_cylinders_every_solid
    (radial_build vertical_build : Build) (rotation_angle : Q) :
  existsb is_plasma radial_build = true ->
  let height := Py.sum (thicknesses vertical_build) in
  let before := fst (Utils.sum_before_after_plasma vertical_build) in
  SphericalTokamak.create_center_column_shield_cylinders radial_build
    vertical_build rotation_angle
  = Ok (map (spherical_cylinder_of rotation_angle height before)
          (enumerate (solid_shells [] radial_build)))
  /\ length (solid_shells [] radial_build)
     = solid_count (before_plasma radial_build).
Proof.
  intros Hp height before. split; [|apply length_solid_shells].
  now apply spherical_create_cylinders_ok.
Qed.

Lemma spherical_cylinders_every_solid_witness :
  SphericalTokamak.create_center_column_shield_cylinders tokamak_radial_build
    tokamak_vertical_build 180
  = Ok (map (spherical_cylinder_of 180
               (Py.sum (thicknesses tokamak_vertical_build))
               (fst (Utils.sum_before_after_plasma tokamak_vertical_build)))
          (enumerate (solid_shells [] tokamak_radial_build)))
  /\ length (solid_shells [] tokamak_radial_build) = 5%nat.
Proof.
  apply (spherical_cylinders_every_solid tokamak_radial_build
           tokamak_vertical_build 180).
  reflexivity.
Defined.

(** X2: on a radial build without any PLASMA entry whose last entry is a GAP,
    the spherical centre-column builder raises IndexError: the test for a gap
    right in front of the plasma reads [radial_build[index + 1]] past the
    end. *)
Theorem spherical_cylinders_trailing_gap
    (front vertical_build : Build) (t rotation_angle : Q) :
  Forall (fun e => is_plasma e = false) front ->
  SphericalTokamak.create_center_column_shield_cylinders (front ++ [(GAP, t)])
    vertical_build rotation_angle
  = Raise IndexError.
Proof.
  intros Hno.
  unfold SphericalTokamak.create_center_column_shield_cylinders, enumerate.
  exact (spherical_cylinders_loop_trailing_gap (front ++ [(GAP, t)])
           rotation_angle _ _ front t [] [] 0 0%nat eq_refl Hno).
Qed.

Lemma spherical_cylinders_trailing_gap_witness :
  SphericalTokamak.create_center_column_shield_cylinders
    ([(GAP, 10); (SOLID, 50)] ++ [(GAP, 50)]) example_vertical_build 180
  = Raise IndexError.
Proof.
  apply spherical_cylinders_trailing_gap. repeat constructor.
Defined.

(* ------------------------------------------------------------------ *)
(** ** Distances to the plasma *)

Section Distances.

Lemma distance_loop_spec (rest : Build) :
  forall distance,
    distance_loop rest distance
    = fold_left Qplus (thicknesses (before_plasma rest)) distance.
Proof.
  induction rest as [|e r IH]; intros distance; simpl; [reflexivity|].
  destruct (is_plasma e); simpl; auto.
Qed.

Lemma before_plasma_skipn (b : Build) :
  forall k, (k <= length (before_plasma b))%nat ->
            before_plasma (skipn k b) = skipn k (before_plasma b).
Proof.
  induction b as [|e r IH]; intros k Hk.
  - now rewrite !skipn_nil.
  - destruct k as [|k]; [reflexivity|].
    simpl in Hk |- *. destruct (is_plasma e); simpl in Hk |- *; [lia|].
    apply IH. lia.
Qed.

End Distances.

(** X3: for an index in front of the plasma, [distance_to_plasma] is the sum,
    taken from 0 in list order, of the thicknesses strictly between that
    entry and the plasma; for the last entry in front of the plasma it is 0
    and for index -1 it is the sum of all the thicknesses in front of the
    plasma. *)
Theorem distance_to_plasma_sums_between (radial_build : Build) (index : nat) :
  (index < length (before_plasma radial_build))%nat ->
  distance_to_plasma radial_build (Z.of_nat index)
  = Py.sum (thicknesses (skipn (index + 1) (before_plasma radial_build)))
  /\ distance_to_plasma radial_build
       (Z.of_nat (length (before_plasma radial_build)) - 1) = 0
  /\ distance_to_plasma radial_build (-1)
     = Py.sum (thicknesses (before_plasma radial_build)).
Proof.
  intros Hi.
  assert (Hlen : (length (before_plasma radial_build) <= length radial_build)%nat)
    by (rewrite (length_build radial_build); lia).
  assert (Hd : forall k, (k <= length (before_plasma radial_build))%nat ->
             distance_loop (Py.slice_from radial_build (Z.of_nat k)) 0
             = Py.sum (thicknesses (skipn k (before_plasma radial_build)))).
  { intros k Hk. rewrite slice_from_nonneg by lia.
    rewrite distance_loop_spec, before_plasma_skipn by exact Hk. reflexivity. }
  assert (H1 : distance_to_plasma radial_build (Z.of_nat index)
               = Py.sum (thicknesses
                           (skipn (index + 1) (before_plasma radial_build)))).
  { unfold distance_to_plasma.
    replace (Z.of_nat index + 1)%Z with (Z.of_nat (index + 1)) by lia.
    apply Hd. lia. }
  split; [exact H1|]. split.
  - unfold distance_to_plasma.
    replace (Z.of_nat (length (before_plasma radial_build)) - 1 + 1)%Z
      with (Z.of_nat (length (before_plasma radial_build))) by lia.
    rewrite Hd by lia. now rewrite skipn_all.
  - unfold distance_to_plasma. exact (Hd 0%nat (Nat.le_0_l _)).
Qed.

Lemma distance_to_plasma_sums_between_witness :
  distance_to_plasma example_radial_build (Z.of_nat 1)
  = Py.sum (thicknesses (skipn 2 (before_plasma example_radial_build)))
  /\ distance_to_plasma example_radial_build
       (Z.of_nat (length (before_plasma example_radial_build)) - 1) = 0
  /\ distance_to_plasma example_radial_build (-1)
     = Py.sum (thicknesses (before_plasma example_radial_build)).
Proof.
  apply (distance_to_plasma_sums_between example_radial_build 1).
  vm_compute. lia.
Defined.

(** X5: for a radial build with exactly one PLASMA entry both synthesized
    vertical builds read the same from top to bottom as from bottom to top and
    have exactly one PLASMA entry; the spherical one repeats the outboard
    entries of the radial build above the plasma, so it has twice their
    number plus one entries. *)
Theorem synthesized_vertical_builds_symmetric (radial_build : Build) (e : Q) :
  exactly_one_plasma radial_build ->
  (exists vertical_build,
      SphericalTokamak.synthesize_vertical_build radial_build e = Ok vertical_build
      /\ rev vertical_build = vertical_build
      /\ exactly_one_plasma vertical_build
      /\ after_plasma vertical_build = after_plasma radial_build
      /\ length vertical_build
         = (2 * length (after_plasma radial_build) + 1)%nat)
  /\ (exists vertical_build,
         Tokamak.synthesize_vertical_build radial_build e = Ok vertical_build
         /\ rev vertical_build = vertical_build
         /\ exactly_one_plasma vertical_build).
Proof.
  intros Hone.
  destruct (one_plasma_shape _ Hone) as [t [Hf Hout]].
  split.
  - eexists. split; [exact (spherical_synthesis _ _ Hone Hf e)|].
    assert (Hrev : Forall (fun x => is_plasma x = false)
                     (rev (after_plasma radial_build)))
      by now apply Forall_rev.
    split; [|split; [|split]].
    + rewrite !rev_app_distr, rev_involutive. simpl.
      now rewrite <- app_assoc.
    + now apply plasma_count_app.
    + unfold after_plasma at 1. simpl app.
      now rewrite from_plasma_app.
    + rewrite !length_app, length_rev. cbn [length].
      unfold Build, BuildEntry. lia.
  - eexists. split; [exact (tokamak_synthesis _ _ Hone Hf e)|].
    pose proof (upper_vertical_build_no_plasma radial_build) as Hup.
    split.
    + rewrite !rev_app_distr, rev_involutive. simpl.
      now rewrite <- app_assoc.
    + apply plasma_count_app; [apply Forall_rev| |]; auto.
Qed.

Lemma synthesized_vertical_builds_symmetric_witness :
  (exists vertical_build,
      SphericalTokamak.synthesize_vertical_build example_radial_build 2
      = Ok vertical_build
      /\ rev vertical_build = vertical_build
      /\ exactly_one_plasma vertical_build
      /\ after_plasma vertical_build = after_plasma example_radial_build
      /\ length vertical_build = 9%nat)
  /\ (exists vertical_build,
         Tokamak.synthesize_vertical_build example_radial_build 2
         = Ok vertical_build
         /\ rev vertical_build = vertical_build
         /\ exactly_one_plasma vertical_build).
Proof.
  apply (synthesized_vertical_builds_symmetric example_radial_build 2).
  reflexivity.
Defined.

(* ------------------------------------------------------------------ *)
(** ** The blanket layers of the spherical tokamak *)

Section SphericalBlanket.

Lemma skipn_cons_nth {A} (l : list A) :
  forall i x r, skipn i l = x :: r ->
                nth_error l i = Some x /\ skipn (S i) l = r.
Proof.
  induction l as [|a l' IH]; intros [|i] x r H; simpl in H; try discriminate.
  - injection H as <- <-. auto.
  - apply IH in H. exact H.
Qed.

Lemma skipn_nil_nth {A} (l : list A) :
  forall i, skipn i l = [] -> nth_error l i = None.
Proof.
  induction l as [|a l' IH]; intros [|i] H; simpl in H |- *;
    try discriminate; auto.
Qed.

Lemma skipn_succ_tl {A} (l : list A) :
  forall n, skipn (S n) l = tl (skipn n l).
Proof.
  induction l as [|a l' IH]; intros [|n]; try reflexivity.
  exact (IH n).
Qed.

Lemma after_plasma_skipn (b : Build) :
  after_plasma b = skipn (length (before_plasma b) + 1) b.
Proof.
  unfold after_plasma.
  now rewrite <- skipn_before_plasma, Nat.add_1_r, skipn_succ_tl.
Qed.

Lemma index_raises {A} (l : list A) (i : Z) (e : exn) :
  Py.index l i = Raise e -> e = IndexError.
Proof.
  unfold Py.index.
  destruct (_ <? 0)%Z; [now intros H; injection H as <-|].
  destruct (nth_error _ _); [discriminate | now intros H; injection H as <-].
Qed.

Lemma length_blanket_shells mn mj tri el rot cc (radial : Build) :
  forall number upper lower offsets,
    (length radial <= length upper)%nat ->
    (length radial <= length lower)%nat ->
    length (blanket_shells mn mj tri el rot cc number radial upper lower offsets)
    = not_gap_count radial.
Proof.
  unfold not_gap_count.
  induction radial as [|item r IH];
    intros number upper lower [[ro uo] lo] Hu Hl; [reflexivity|].
  destruct upper as [|u upper']; [simpl in Hu; lia|].
  destruct lower as [|l lower']; [simpl in Hl; lia|].
  simpl in Hu, Hl |- *. apply le_S_n in Hu. apply le_S_n in Hl.
  destruct (is_gap item); simpl; rewrite (IH _ _ _ _ Hu Hl); reflexivity.
Qed.


Variable vertical_build : Build.
Hypothesis one_plasma : exactly_one_plasma vertical_build.

Let piv := length (before_plasma vertical_build).

(** [vertical_build[piv + 1 + i]] is the [i]-th entry above the plasma. *)
Lemma index_above (i : nat) :
  Py.index vertical_build (Z.of_nat piv + 1 + Z.of_nat i)
  = match nth_error (after_plasma vertical_build) i with
    | Some x => Ok x
    | None => Raise IndexError
    end.
Proof.
  destruct (one_plasma_shape _ one_plasma) as [t [Hf _]].
  replace (Z.of_nat piv + 1 + Z.of_nat i)%Z with (Z.of_nat (piv + 1 + i)) by lia.
  rewrite index_nonneg.
  rewrite (split_at_plasma vertical_build) at 1.
  rewrite nth_error_app2 by (fold piv; lia).
  fold piv. replace (piv + 1 + i - piv)%nat with (S i) by lia.
  rewrite Hf. reflexivity.
Qed.

(** [vertical_build[piv - 1 - i]] is the [i]-th entry below the plasma, as
    long as there is one. *)
Lemma index_below (i : nat) (x : BuildEntry) :
  nth_error (rev (before_plasma vertical_build)) i = Some x ->
  Py.index vertical_build (Z.of_nat piv - 1 - Z.of_nat i) = Ok x.
Proof.
  intros Hx.
  assert (Hi : (i < piv)%nat).
  { unfold piv. rewrite <- length_rev. apply nth_error_Some. congruence. }
  replace (Z.of_nat piv - 1 - Z.of_nat i)%Z with (Z.of_nat (piv - 1 - i)) by lia.
  rewrite index_nonneg.
  rewrite (split_at_plasma vertical_build) at 1.
  rewrite nth_error_app1 by (fold piv; lia).
  rewrite nth_error_rev in Hx. fold piv in Hx.
  destruct (Nat.ltb_spec i piv); [|lia].
  replace (piv - 1 - i)%nat with (piv - S i)%nat by lia.
  now rewrite Hx.
Qed.

End SphericalBlanket.

Lemma spherical_blanket_run
    (radial_build vertical_build : Build)
    (minor_radius' major_radius' triangularity' elongation' rotation_angle : Q)
    (center_column : Solid) (st : state) :
  exactly_one_plasma radial_build ->
  exactly_one_plasma vertical_build ->
  (length (after_plasma radial_build) <= length (after_plasma vertical_build))%nat ->
  (length (after_plasma radial_build) <= length (before_plasma vertical_build))%nat ->
  let layers :=
    blanket_shells minor_radius' major_radius' triangularity' elongation'
      rotation_angle center_column (length (before_plasma radial_build) + 1)
      (after_plasma radial_build) (after_plasma vertical_build)
      (rev (before_plasma vertical_build)) (0, 0, 0) in
  SphericalTokamak.create_blanket_layers_after_plasma radial_build
    vertical_build minor_radius' major_radius' triangularity' elongation'
    rotation_angle center_column st
  = (Ok layers,
     {| registered := registered st; calls := calls st ++ cut_calls layers |}).
Proof.
  intros Hr Hv Hup Hlow layers.
  destruct (one_plasma_shape _ Hr) as [t [Hf _]].
  unfold SphericalTokamak.create_blanket_layers_after_plasma.
  unfold bind at 1. unfold lift at 1. rewrite (get_plasma_index_ok _ Hr).
  unfold bind at 1. unfold lift at 1. rewrite (get_plasma_index_ok _ Hv).
  replace (Z.of_nat (length (before_plasma radial_build)) + 1)%Z
    with (Z.of_nat (length (before_plasma radial_build) + 1)) by lia.
  rewrite slice_from_nonneg
    by (rewrite (length_build radial_build), Hf; simpl; lia).
  rewrite <- after_plasma_skipn.
  unfold layers, enumerate.
  generalize (length (before_plasma radial_build)) as pi. intros pi.
  match goal with
  | |- context [for_each ?f _ _] => set (body := f)
  end.
  assert (Hloop :
    forall radial i upper lower acc_layers ro uo lo s,
      skipn i (after_plasma vertical_build) = upper ->
      skipn i (rev (before_plasma vertical_build)) = lower ->
      (length radial <= length upper)%nat ->
      (length radial <= length lower)%nat ->
      exists ro' uo' lo',
        for_each body (enumerate_from i radial) (acc_layers, ro, uo, lo) s
        = (Ok (acc_layers ++
               blanket_shells minor_radius' major_radius' triangularity'
                 elongation' rotation_angle center_column (pi + i + 1)
                 radial upper lower (ro, uo, lo),
               ro', uo', lo'),
           {| registered := registered s;
              calls := calls s ++
                cut_calls
                  (blanket_shells minor_radius' major_radius' triangularity'
                     elongation' rotation_angle center_column (pi + i + 1)
                     radial upper lower (ro, uo, lo)) |})).
  { induction radial as [|item radial' IH];
      intros i upper lower acc_layers ro uo lo s Hu Hl Hlu Hll.
    - exists ro, uo, lo. simpl. unfold ret.
      rewrite !app_nil_r. now destruct s.
    - destruct upper as [|u upper']; [simpl in Hlu; lia|].
      destruct lower as [|l lower']; [simpl in Hll; lia|].
      apply skipn_cons_nth in Hu as [Hu Hu'].
      apply skipn_cons_nth in Hl as [Hl Hl'].
      simpl in Hlu, Hll.
      change (enumerate_from i (item :: radial'))
        with ((i, item) :: enumerate_from (S i) radial').
      cbn [for_each]. unfold bind at 1.
      unfold body at 1. cbv beta iota.
      unfold bind at 1. unfold lift at 1.
      rewrite (index_above vertical_build Hv i), Hu.
      unfold bind at 1. unfold lift at 1.
      rewrite (index_below vertical_build i l Hl).
      cbn [blanket_shells].
      destruct (is_gap item).
      + unfold ret at 1.
        destruct (IH (S i) upper' lower' acc_layers
                    (ro + snd item) (uo + snd u) (lo + snd l) s
                    Hu' Hl' ltac:(lia) ltac:(lia))
          as (ro' & uo' & lo' & E).
        replace (pi + S i + 1)%nat with (S (pi + i + 1)) in E by lia.
        exists ro', uo', lo'. exact E.
      + unfold bind at 1. unfold do_cut at 1. unfold bind at 1.
        unfold log at 1. unfold ret at 1. unfold ret at 1.
        match goal with
        | |- context [for_each body _ ?acc ?s1] =>
            destruct (IH (S i) upper' lower'
                        (fst (fst (fst acc)))
                        (ro + snd item) (uo + snd u) (lo + snd l) s1
                        Hu' Hl' ltac:(lia) ltac:(lia))
              as (ro' & uo' & lo' & E)
        end.
        replace (pi + S i + 1)%nat with (S (pi + i + 1)) in E by lia.
        exists ro', uo', lo'. cbn [fst] in E. rewrite E.
        cbn [registered calls cut_calls flat_map].
        rewrite <- !app_assoc. reflexivity. }
  destruct (Hloop (after_plasma radial_build) 0%nat
              (after_plasma vertical_build) (rev (before_plasma vertical_build))
              [] 0 0 0 st eq_refl eq_refl Hup
              ltac:(rewrite length_rev; exact Hlow))
    as (ro' & uo' & lo' & E).
  unfold bind. replace (pi + 0 + 1)%nat with (pi + 1)%nat in E by lia.
  rewrite E. reflexivity.
Qed.



(** X7: when the vertical build has fewer entries above its plasma than the
    radial build has after its plasma, [create_blanket_layers_after_plasma]
    raises IndexError, having registered nothing: it reads the vertical build
    past its end (too few entries below the plasma are not noticed this way,
    a negative index wraps around). *)
Theorem spherical_blanket_short_vertical_build
    (radial_build vertical_build : Build)
    (minor_radius' major_radius' triangularity' elongation' rotation_angle : Q)
    (center_column : Solid) (st : state) :
  exactly_one_plasma radial_build ->
  exactly_one_plasma vertical_build ->
  (length (after_plasma vertical_build) < length (after_plasma radial_build))%nat ->
  exists st',
    SphericalTokamak.create_blanket_layers_after_plasma radial_build
      vertical_build minor_radius' major_radius' triangularity' elongation'
      rotation_angle center_column st
    = (Raise IndexError, st')
    /\ registered st' = registered st.
Proof.
  intros Hr Hv Hshort.
  destruct (one_plasma_shape _ Hr) as [t [Hf _]].
  unfold SphericalTokamak.create_blanket_layers_after_plasma.
  unfold bind at 1. unfold lift at 1. rewrite (get_plasma_index_ok _ Hr).
  unfold bind at 1. unfold lift at 1. rewrite (get_plasma_index_ok _ Hv).
  replace (Z.of_nat (length (before_plasma radial_build)) + 1)%Z
    with (Z.of_nat (length (before_plasma radial_build) + 1)) by lia.
  rewrite slice_from_nonneg
    by (rewrite (length_build radial_build), Hf; simpl; lia).
  rewrite <- after_plasma_skipn. unfold enumerate.
  match goal with
  | |- context [for_each ?f _ _] => set (body := f)
  end.
  assert (Hloop :
    forall radial i upper acc s,
      skipn i (after_plasma vertical_build) = upper ->
      (length upper < length radial)%nat ->
      exists s',
        for_each body (enumerate_from i radial) acc s = (Raise IndexError, s')
        /\ registered s' = registered s).
  { induction radial as [|item radial' IH]; intros i upper acc s Hu Hlen;
      [simpl in Hlen; lia|].
    destruct acc as [[[acc_layers ro] uo] lo].
    change (enumerate_from i (item :: radial'))
      with ((i, item) :: enumerate_from (S i) radial').
    cbn [for_each]. unfold bind at 1.
    unfold body at 1. cbv beta iota.
    unfold bind at 1. unfold lift at 1.
    rewrite (index_above vertical_build Hv i).
    destruct upper as [|u upper'].
    - rewrite (skipn_nil_nth _ _ Hu). exists s. split; reflexivity.
    - apply skipn_cons_nth in Hu as [Hu Hu']. rewrite Hu.
      simpl in Hlen. apply Nat.succ_lt_mono in Hlen.
      unfold bind at 1. unfold lift at 1.
      destruct (Py.index vertical_build _) as [l|e] eqn:El.
      + destruct (is_gap item).
        * unfold ret at 1. exact (IH (S i) upper' _ s Hu' Hlen).
        * unfold bind at 1. unfold do_cut at 1. unfold bind at 1.
          unfold log at 1. unfold ret at 1. unfold ret at 1.
          match goal with
          | |- context [for_each body _ ?acc ?s1] =>
              destruct (IH (S i) upper' acc s1 Hu' Hlen) as (s' & E & Hreg)
          end.
          exists s'. split; [exact E | exact Hreg].
      + apply index_raises in El. subst e. exists s. split; reflexivity. }
  destruct (Hloop (after_plasma radial_build) 0%nat
              (after_plasma vertical_build) ([], 0, 0, 0) st eq_refl Hshort)
    as (s' & E & Hreg).
  exists s'. unfold bind. rewrite E. split; [reflexivity | exact Hreg].
Qed.

Lemma spherical_blanket_short_vertical_build_witness :
  exists st',
    SphericalTokamak.create_blanket_layers_after_plasma example_radial_build
      [(SOLID, 40); (GAP, 50); (PLASMA, 700); (GAP, 60); (SOLID, 10)]
      150 275 (11 # 20) (7 # 3) 180 (handle 0) empty_state
    = (Raise IndexError, st')
    /\ registered st' = registered empty_state.
Proof.
  apply spherical_blanket_short_vertical_build.
  - reflexivity.
  - reflexivity.
  - vm_compute. lia.
Defined.

(* ------------------------------------------------------------------ *)
(** ** [spherical_tokamak] on well-formed input *)

Section SphericalTotal.

Lemma one_plasma_exists (b : Build) :
  exactly_one_plasma b -> existsb is_plasma b = true.
Proof.
  intros H. destruct (one_plasma_shape _ H) as [t [Hf _]].
  rewrite (split_at_plasma b), existsb_app, Hf. simpl.
  apply orb_true_r.
Qed.

Variables radial_build vertical_build : Build.
Variables triangularity' rotation_angle : Q.

Hypothesis radial_one_plasma : exactly_one_plasma radial_build.
Hypothesis minor_radius_not_zero : ~ minor_radius_of radial_build == 0.
Hypothesis vertical_one_plasma : exactly_one_plasma vertical_build.
Hypothesis enough_above :
  (length (after_plasma radial_build) <= length (after_plasma vertical_build))%nat.
Hypothesis enough_below :
  (length (after_plasma radial_build) <= length (before_plasma vertical_build))%nat.

(** The construction succeeds and its log holds the cuts of the blanket
    layers by the cutting cylinder. *)
Lemma spherical_construct_ok (st : state) :
  exists plasma_thickness vertical_thickness,
    Utils.get_plasma_value radial_build = Ok plasma_thickness
    /\ Utils.get_plasma_value vertical_build = Ok vertical_thickness
    /\ let inner := Py.sum (thicknesses (before_plasma radial_build)) in
       let major := (inner + plasma_thickness + inner) / 2 in
       let minor := major - inner in
       let elong := vertical_thickness / 2 / minor in
       let height := Py.sum (thicknesses vertical_build) in
       let cylinders :=
         map (spherical_cylinder_of rotation_angle height
                (fst (Utils.sum_before_after_plasma vertical_build)))
           (enumerate (solid_shells [] radial_build)) in
       let blanket :=
         blanket_shells minor major triangularity' elong rotation_angle
           (center_column_shield_cylinder 0 inner None 360 (2 * height) None)
           (length (before_plasma radial_build) + 1)
           (after_plasma radial_build) (after_plasma vertical_build)
           (rev (before_plasma vertical_build)) (0, 0, 0) in
       SphericalTokamak.construct radial_build vertical_build triangularity'
         rotation_angle st
       = (Ok (plasma_simplified major minor elong triangularity' rotation_angle,
              cylinders, blanket, (elong, major, minor)),
          {| registered := registered st;
             calls := calls st ++ cut_calls blanket |}).
Proof.
  pose proof radial_one_plasma as Hone.
  destruct (one_plasma_shape _ Hone) as [t [Hf _]].
  destruct (one_plasma_shape _ vertical_one_plasma) as [tv [Hfv _]].
  exists t, tv.
  split; [exact (get_plasma_value_ok _ _ _ Hone Hf)|].
  split; [exact (get_plasma_value_ok _ _ _ vertical_one_plasma Hfv)|].
  intros inner major minor elong height cylinders blanket.
  unfold SphericalTokamak.construct.
  unfold bind at 1. unfold lift at 1.
  rewrite (equatorial_geometry_ok _ _ _ Hone Hf).
  unfold bind at 1. unfold lift at 1.
  rewrite (get_plasma_value_ok _ _ _ vertical_one_plasma Hfv).
  unfold bind at 1. unfold lift at 1.
  pose proof minor_radius_not_zero as Hnz.
  pose proof (minor_radius_of_ok radial_build t Hone Hf) as Eminor.
  cbv zeta in Eminor. rewrite Eminor in Hnz.
  rewrite div_nonzero by exact Hnz.
  unfold bind at 1. unfold lift at 1.
  rewrite (spherical_create_cylinders_ok radial_build vertical_build
             rotation_angle (one_plasma_exists _ Hone)).
  unfold bind at 1. unfold lift at 1.
  unfold Utils.sum_up_to_gap_before_plasma.
  rewrite (sum_up_to_plasma_ok _ Hone).
  unfold bind at 1.
  match goal with
  | |- context [SphericalTokamak.create_blanket_layers_after_plasma
                  _ _ ?mn ?mj ?tri ?el ?rot ?cc ?s] =>
      pose proof (spherical_blanket_run radial_build vertical_build
                    mn mj tri el rot cc s Hone vertical_one_plasma
                    enough_above enough_below) as E
  end.
  cbv zeta in E. rewrite E. reflexivity.
Qed.

End SphericalTotal.

(** X8: on a radial build with exactly one PLASMA entry and a minor radius
    that is not zero as the code computes it, a vertical build with exactly
    one PLASMA entry and at least as many entries above and below it as the
    radial build has after its plasma, extra-cut shapes that are all Workplanes and, if
    extra-intersect shapes are given, at least one SOLID entry in front of the
    plasma, [spherical_tokamak] returns an assembly.  Its parts are, in this
    order, the extra-cut shapes, the intersections of the extra-intersect
    shapes with the union of all layers, for each layer (cylinders, then
    blanket layers) its parts after being cut by every cutter in list order,
    and last the plasma. *)
Theorem spherical_tokamak_returns_parts
    (K : Kernel) (radial_build vertical_build : Build)
    (triangularity' rotation_angle : Q)
    (extra_cut_shapes : list pyobj) (extra_intersect_shapes : list Solid)
    (colors : ColorTable) (st : state) :
  exactly_one_plasma radial_build ->
  ~ minor_radius_of radial_build == 0 ->
  exactly_one_plasma vertical_build ->
  (length (after_plasma radial_build) <= length (after_plasma vertical_build))%nat ->
  (length (after_plasma radial_build) <= length (before_plasma vertical_build))%nat ->
  first_invalid extra_cut_shapes = None ->
  (extra_intersect_shapes <> [] ->
   solid_count (before_plasma radial_build) <> 0%nat) ->
  exists asm st',
    SphericalTokamak.spherical_tokamak K radial_build vertical_build
      triangularity' rotation_angle extra_cut_shapes extra_intersect_shapes
      colors st = (Ok asm, st')
    /\ triangularity asm = triangularity'
    /\ let height := Py.sum (thicknesses vertical_build) in
       let cylinders :=
         map (spherical_cylinder_of rotation_angle height
                (fst (Utils.sum_before_after_plasma vertical_build)))
           (enumerate (solid_shells [] radial_build)) in
       let blanket :=
         blanket_shells (minor_radius asm) (major_radius asm) triangularity'
           (elongation asm) rotation_angle
           (center_column_shield_cylinder 0
              (Py.sum (thicknesses (before_plasma radial_build)))
              None 360 (2 * height) None)
           (length (before_plasma radial_build) + 1)
           (after_plasma radial_build) (after_plasma vertical_build)
           (rev (before_plasma vertical_build)) (0, 0, 0) in
       let layers := cylinders ++ blanket in
       let compound := reactor_compound_of layers in
       let cutters :=
         as_solids extra_cut_shapes
         ++ intersections extra_intersect_shapes compound in
       parts asm
       = extra_cut_parts colors 0 (as_solids extra_cut_shapes)
         ++ extra_intersect_parts colors 0 extra_intersect_shapes compound
         ++ flat_map (parts_of_layer K colors cutters) (enumerate layers)
         ++ [part_of colors "plasma"
               (plasma_simplified (major_radius asm) (minor_radius asm)
                  (elongation asm) triangularity' rotation_angle)].
Proof.
  intros Hr Hnz Hv Hup Hlow Hcuts Hseed.
  destruct (spherical_construct_ok radial_build vertical_build triangularity'
              rotation_angle Hr Hnz Hv Hup Hlow st)
    as (t & tv & _ & _ & Hc).
  cbv zeta in Hc.
  unfold SphericalTokamak.spherical_tokamak. unfold bind at 1. rewrite Hc.
  cbv beta iota.
  match goal with
  | |- context [bind (SphericalTokamak.trim K colors _ _ ?plasma ?inner ?blanket)
                  _ ?s1] =>
      destruct (spherical_trim_spec K colors extra_cut_shapes
                  extra_intersect_shapes plasma inner blanket s1 Hcuts)
        as [log E]
  end.
  { intros Hints Hnil. apply (Hseed Hints).
    rewrite <- (length_solid_shells radial_build []).
    apply (f_equal (@length Solid)) in Hnil.
    rewrite length_map in Hnil. unfold enumerate in Hnil.
    rewrite length_enumerate_from in Hnil. exact Hnil. }
  cbv zeta in E.
  unfold bind at 1. rewrite E.
  unfold bind, registered_parts, ret.
  eexists _, _. split; [reflexivity|]. split; reflexivity.
Qed.

Lemma spherical_tokamak_returns_parts_witness :
  exists asm st',
    SphericalTokamak.spherical_tokamak one_piece example_radial_build
      example_vertical_build (11 # 20) 180 [Workplane (handle 7)] [handle 0]
      no_colors empty_state = (Ok asm, st')
    /\ part_names asm
       = ["add_extra_cut_shape_1"; "extra_intersect_shapes_1"; "layer_1";
          "layer_2"; "layer_3"; "layer_4"; "layer_5"; "plasma"].
Proof.
  destruct (spherical_tokamak_returns_parts one_piece example_radial_build
              example_vertical_build (11 # 20) 180 [Workplane (handle 7)]
              [handle 0] no_colors empty_state)
    as (asm & st' & E & _ & Hparts).
  - reflexivity.
  - vm_compute. discriminate.
  - reflexivity.
  - vm_compute. lia.
  - vm_compute. lia.
  - reflexivity.
  - intros _. vm_compute. lia.
  - exists asm, st'. split; [exact E|].
    unfold part_names. rewrite Hparts.
    vm_compute in E. injection E as <- _. vm_compute. reflexivity.
Defined.

(* ------------------------------------------------------------------ *)
(** ** Part names without extra shapes *)

Section PlainNames.

Lemma layer_names_distinct (k n : nat) : NoDup (map layer_name (seq k n)).
Proof.
  apply Injective_map_NoDup; [|apply seq_NoDup].
  intros i j. apply layer_name_injective.
Qed.

Lemma plain_layer_names K colors (layers : list Solid) :
  forall k,
    map part_name (flat_map (parts_of_layer K colors []) (enumerate_from k layers))
    = map layer_name (seq (k + 1) (length layers)).
Proof.
  induction layers as [|x r IH]; intros k; simpl; [reflexivity|].
  f_equal. exact (IH (S k)).
Qed.

End PlainNames.

(** X9: on builds as in X8 and without extra shapes, [spherical_tokamak]
    returns n + 1 parts named layer_1, ..., layer_n, plasma in this order,
    where n is the number of SOLID entries in front of the plasma plus the
    number of entries after it that are not gaps; no two parts share a name. *)
Theorem spherical_tokamak_plain_part_names
    (K : Kernel) (radial_build vertical_build : Build)
    (triangularity' rotation_angle : Q) (colors : ColorTable) (st : state) :
  exactly_one_plasma radial_build ->
  ~ minor_radius_of radial_build == 0 ->
  exactly_one_plasma vertical_build ->
  (length (after_plasma radial_build) <= length (after_plasma vertical_build))%nat ->
  (length (after_plasma radial_build) <= length (before_plasma vertical_build))%nat ->
  exists asm st',
    SphericalTokamak.spherical_tokamak K radial_build vertical_build
      triangularity' rotation_angle [] [] colors st = (Ok asm, st')
    /\ part_names asm
       = map layer_name
           (seq 1 (solid_count (before_plasma radial_build)
                   + not_gap_count (after_plasma radial_build)))
         ++ ["plasma"]
    /\ NoDup (part_names asm).
Proof.
  intros Hr Hnz Hv Hup Hlow.
  destruct (spherical_construct_ok radial_build vertical_build triangularity'
              rotation_angle Hr Hnz Hv Hup Hlow st)
    as (t & tv & _ & _ & Hc).
  cbv zeta in Hc.
  unfold SphericalTokamak.spherical_tokamak. unfold bind at 1. rewrite Hc.
  cbv beta iota.
  match goal with
  | |- context [bind (SphericalTokamak.trim K colors _ _ ?plasma ?inner ?blanket)
                  _ ?s1] =>
      destruct (spherical_trim_spec K colors [] [] plasma inner blanket s1
                  eq_refl) as [log E];
        [intros Hints; now elim Hints|];
        assert (Hlen : length (inner ++ blanket)
                       = (solid_count (before_plasma radial_build)
                          + not_gap_count (after_plasma radial_build))%nat)
  end.
  { rewrite length_app, length_map. unfold enumerate.
    rewrite length_enumerate_from, length_solid_shells.
    rewrite length_blanket_shells;
      [reflexivity | exact Hup | now rewrite length_rev]. }
  cbv zeta in E.
  unfold bind at 1. rewrite E.
  unfold bind, registered_parts, ret.
  eexists _, _. split; [reflexivity|].
  assert (Hnames :
    forall asm_parts plasma layers,
      asm_parts
      = extra_cut_parts colors 0 (as_solids [])
        ++ extra_intersect_parts colors 0 [] (reactor_compound_of layers)
        ++ flat_map (parts_of_layer K colors
                       (as_solids [] ++ intersections [] (reactor_compound_of layers)))
             (enumerate layers)
        ++ [part_of colors "plasma" plasma] ->
      map part_name asm_parts
      = map layer_name (seq 1 (length layers)) ++ ["plasma"]).
  { intros asm_parts plasma layers ->. simpl app.
    unfold extra_intersect_parts, extra_cut_parts. simpl app.
    rewrite map_app. unfold enumerate. rewrite plain_layer_names. reflexivity. }
  unfold part_names. cbn [parts registered].
  rewrite (Hnames _ _ _ eq_refl), Hlen.
  split; [reflexivity|].
  apply NoDup_app.
  - apply layer_names_distinct.
  - repeat constructor. intros [].
  - intros name Hin [Hp|[]]. subst name.
    apply in_map_iff in Hin as [i [Hi _]]. discriminate Hi.
Qed.

Lemma spherical_tokamak_plain_part_names_witness :
  exists asm st',
    SphericalTokamak.spherical_tokamak one_piece example_radial_build
      example_vertical_build (11 # 20) 180 [] [] no_colors empty_state
    = (Ok asm, st')
    /\ part_names asm
       = map layer_name (seq 1 (2 + 3)) ++ ["plasma"]
    /\ NoDup (part_names asm).
Proof.
  apply (spherical_tokamak_plain_part_names one_piece example_radial_build
           example_vertical_build (11 # 20) 180 no_colors empty_state).
  - reflexivity.
  - vm_compute. discriminate.
  - reflexivity.
  - vm_compute. lia.
  - vm_compute. lia.
Defined.

(** X10: on every radial build with exactly one PLASMA entry and a minor
    radius that is not zero as the code computes it, with extra-cut shapes
    that are all Workplanes and, if extra-intersect shapes are given, at
    least one SOLID entry in front of the plasma,
    [spherical_tokamak_from_plasma] returns an assembly: the vertical build
    it synthesizes always has enough entries.  The assembly has the
    triangularity asked for and its last part is the plasma. *)
Theorem spherical_tokamak_from_plasma_returns
    (K : Kernel) (radial_build : Build) (e triangularity' rotation_angle : Q)
    (extra_cut_shapes : list pyobj) (extra_intersect_shapes : list Solid)
    (colors : ColorTable) (st : state) :
  exactly_one_plasma radial_build ->
  ~ minor_radius_of radial_build == 0 ->
  first_invalid extra_cut_shapes = None ->
  (extra_intersect_shapes <> [] ->
   solid_count (before_plasma radial_build) <> 0%nat) ->
  exists asm st',
    SphericalTokamak.spherical_tokamak_from_plasma K radial_build e
      triangularity' rotation_angle extra_cut_shapes extra_intersect_shapes
      colors st = (Ok asm, st')
    /\ triangularity asm = triangularity'
    /\ last (part_names asm) "" = "plasma".
Proof.
  intros Hone Hnz Hcuts Hseed.
  destruct (one_plasma_shape _ Hone) as [t [Hf Hout]].
  set (h := 2 * minor_radius_of radial_build * e).
  set (vb := rev (after_plasma radial_build)
               ++ [(PLASMA, h)] ++ after_plasma radial_build).
  assert (Hrev : Forall (fun x => is_plasma x = false)
                   (rev (after_plasma radial_build)))
    by now apply Forall_rev.
  assert (Hvone : exactly_one_plasma vb) by now apply plasma_count_app.
  assert (Hvbefore : before_plasma vb = rev (after_plasma radial_build))
    by now apply before_plasma_app.
  assert (Hvafter : after_plasma vb = after_plasma radial_build)
    by (unfold after_plasma at 1, vb; simpl app; now rewrite from_plasma_app).
  assert (Hup : (length (after_plasma radial_build)
                 <= length (after_plasma vb))%nat)
    by (rewrite Hvafter; lia).
  assert (Hlow : (length (after_plasma radial_build)
                  <= length (before_plasma vb))%nat)
    by (rewrite Hvbefore, length_rev; lia).
  destruct (spherical_construct_ok radial_build vb triangularity'
              rotation_angle Hone Hnz Hvone Hup Hlow st)
    as (t' & tv & Ht' & Htv & Hc).
  cbv zeta in Hc.
  assert (tv = h) as ->.
  { assert (Hval : Utils.get_plasma_value vb = Ok h)
      by (apply value_around_plasma; assumption).
    rewrite Hval in Htv. now injection Htv. }
  assert (t' = t) as ->.
  { rewrite (get_plasma_value_ok _ _ _ Hone Hf) in Ht'. now injection Ht'. }
  unfold SphericalTokamak.spherical_tokamak_from_plasma.
  unfold bind at 1. unfold lift at 1.
  rewrite (spherical_synthesis radial_build t Hone Hf e). fold h. fold vb.
  unfold SphericalTokamak.spherical_tokamak. unfold bind at 1. rewrite Hc.
  cbv beta iota.
  match goal with
  | |- context [bind (SphericalTokamak.trim K colors _ _ ?plasma ?inner ?blanket)
                  _ ?s1] =>
      destruct (spherical_trim_spec K colors extra_cut_shapes
                  extra_intersect_shapes plasma inner blanket s1 Hcuts)
        as [log E]
  end.
  { intros Hints Hnil. apply (Hseed Hints).
    rewrite <- (length_solid_shells radial_build []).
    apply (f_equal (@length Solid)) in Hnil.
    rewrite length_map in Hnil. unfold enumerate in Hnil.
    rewrite length_enumerate_from in Hnil. exact Hnil. }
  cbv zeta in E.
  unfold bind at 1. rewrite E.
  unfold bind, registered_parts, ret.
  eexists _, _. split; [reflexivity|].
  cbn [elongation triangularity parts registered].
  split; [reflexivity|].
  unfold part_names. cbn [parts].
  rewrite !app_assoc, map_app. apply last_last.
Qed.

Lemma spherical_tokamak_from_plasma_returns_witness :
  exists asm st',
    SphericalTokamak.spherical_tokamak_from_plasma two_pieces
      example_radial_build 2 (11 # 20) 180 [Workplane (handle 7)] [handle 0]
      no_colors empty_state = (Ok asm, st')
    /\ triangularity asm = (11 # 20)
    /\ last (part_names asm) "" = "plasma".
Proof.
  apply spherical_tokamak_from_plasma_returns.
  - reflexivity.
  - vm_compute. discriminate.
  - reflexivity.
  - intros _. vm_compute. lia.
Defined.

(* ------------------------------------------------------------------ *)
(** ** Invariants of the assembly and of the kernel log *)

Section Keeps.

Variable P : Part -> Prop.
Variable C : kernel_call -> Prop.

Lemma keeps_ret {A} (a : A) : keeps P C (ret a).
Proof. intros st r st' H E. injection E as _ <-. exact H. Qed.

Lemma keeps_raise {A} (e : exn) : keeps P C (@raise A e).
Proof. intros st r st' H E. injection E as _ <-. exact H. Qed.

Lemma keeps_lift {A} (x : result A) : keeps P C (lift x).
Proof. intros st r st' H E. injection E as _ <-. exact H. Qed.

Lemma keeps_bind {A B} (m : M A) (k : A -> M B) :
  keeps P C m -> (forall a, keeps P C (k a)) -> keeps P C (bind m k).
Proof.
  intros Hm Hk st r st' H E. unfold bind in E.
  destruct (m st) as [[a|e] s1] eqn:Em.
  - eapply Hk; [eapply Hm; eauto | eauto].
  - injection E as _ <-. eapply Hm; eauto.
Qed.

Lemma keeps_log (c : kernel_call) : C c -> keeps P C (log c).
Proof.
  intros Hc st r st' [Hp Hl] E. injection E as _ <-.
  split; [exact Hp|]. simpl. apply Forall_app. split; [exact Hl|].
  constructor; [exact Hc | constructor].
Qed.

Lemma keeps_do_union (a b : Solid) : C (KUnion a b) -> keeps P C (do_union a b).
Proof.
  intros H. apply keeps_bind; [now apply keeps_log | intros; apply keeps_ret].
Qed.

Lemma keeps_do_cut (a b : Solid) : C (KCut a b) -> keeps P C (do_cut a b).
Proof.
  intros H. apply keeps_bind; [now apply keeps_log | intros; apply keeps_ret].
Qed.

Lemma keeps_do_intersect (a b : Solid) :
  C (KIntersect a b) -> keeps P C (do_intersect a b).
Proof.
  intros H. apply keeps_bind; [now apply keeps_log | intros; apply keeps_ret].
Qed.

Lemma keeps_do_solids (K : Kernel) (a : Solid) :
  C (KSolids a) -> keeps P C (do_solids K a).
Proof.
  intros H. apply keeps_bind; [now apply keeps_log | intros; apply keeps_ret].
Qed.

Lemma keeps_add (colors : ColorTable) (solid : Solid) (name : string) :
  P (part_of colors name solid) -> keeps P C (add colors solid name).
Proof.
  intros Hn st r st' [Hp Hl] E. unfold add in E.
  destruct (name_taken name st); injection E as _ <-; [now split|].
  split; [|exact Hl]. simpl. apply Forall_app. split; [exact Hp|].
  constructor; [exact Hn | constructor].
Qed.

Lemma keeps_new_assembly : keeps P C new_assembly.
Proof.
  intros st r st' [Hp Hl] E. injection E as _ <-.
  split; [constructor | exact Hl].
Qed.

(** A loop keeps what every turn keeps; the turn may rely on its element
    being one of the list and on a property of the loop-carried value that
    every turn re-establishes. *)
Lemma keeps_for_each {A S} (body : S -> A -> M S) (J : S -> Prop) (l : list A) :
  (forall acc x, In x l -> J acc -> keeps P C (body acc x)) ->
  (forall acc x st acc' st',
      In x l -> J acc -> body acc x st = (Ok acc', st') -> J acc') ->
  forall acc, J acc -> keeps P C (for_each body l acc).
Proof.
  induction l as [|x r IH]; intros Hb HJ acc Hacc.
  - apply keeps_ret.
  - simpl. intros st res st' Hst E. unfold bind in E.
    destruct (body acc x st) as [[acc'|e] s1] eqn:Eb.
    + assert (Hs1 : state_ok P C s1)
        by (eapply (Hb acc x); [now left | exact Hacc | exact Hst | exact Eb]).
      assert (Hacc' : J acc')
        by (eapply (HJ acc x); [now left | exact Hacc | exact Eb]).
      eapply (IH (fun a y Hy => Hb a y (or_intror Hy))
                 (fun a y s a' s' Hy => HJ a y s a' s' (or_intror Hy))
                 acc' Hacc'); eauto.
    + injection E as _ <-.
      eapply (Hb acc x); [now left | exact Hacc | exact Hst | exact Eb].
Qed.

Lemma keeps_for_each_plain {A S} (body : S -> A -> M S) (l : list A) :
  (forall acc x, keeps P C (body acc x)) ->
  forall acc, keeps P C (for_each body l acc).
Proof.
  intros Hb acc.
  apply (keeps_for_each body (fun _ => True)); auto.
Qed.

End Keeps.

(* ------------------------------------------------------------------ *)
(** ** The plasma is never cut *)

Section Yields.

Lemma yields_ret {A} (a : A) (R : A -> Prop) : R a -> yields (ret a) R.
Proof. intros H st a' st' E. injection E as <- _. exact H. Qed.

Lemma yields_lift {A} (x : result A) (R : A -> Prop) :
  (forall a, x = Ok a -> R a) -> yields (lift x) R.
Proof. intros H st a st' E. injection E as E _. auto. Qed.

Lemma yields_bind {A B} (m : M A) (k : A -> M B) (R : A -> Prop) (R' : B -> Prop) :
  yields m R -> (forall a, R a -> yields (k a) R') -> yields (bind m k) R'.
Proof.
  intros Hm Hk st b st' E.
  apply bind_ok in E as (a & s1 & Em & Ek).
  exact (Hk a (Hm _ _ _ Em) _ _ _ Ek).
Qed.

Lemma yields_do_intersect (a b : Solid) : yields (do_intersect a b) not_plasma.
Proof. intros st x st' E. injection E as <- _. reflexivity. Qed.

Lemma yields_any {A} (m : M A) : yields m (fun _ => True).
Proof. intros st a st' _. exact I. Qed.

Lemma yields_for_each {A S} (body : S -> A -> M S) (J : S -> Prop) (l : list A) :
  (forall acc x, In x l -> J acc -> yields (body acc x) J) ->
  forall acc, J acc -> yields (for_each body l acc) J.
Proof.
  induction l as [|x r IH]; intros Hb acc Hacc.
  - now apply yields_ret.
  - simpl. apply (yields_bind _ _ J).
    + apply Hb; [now left | exact Hacc].
    + intros acc' Hacc'. apply IH; [|exact Hacc'].
      intros a y Hy. apply Hb. now right.
Qed.

Lemma keeps_bind_yields {A B} P C (m : M A) (k : A -> M B) (R : A -> Prop) :
  keeps P C m -> yields m R -> (forall a, R a -> keeps P C (k a)) ->
  keeps P C (bind m k).
Proof.
  intros Hm Hy Hk st r st' H E. unfold bind in E.
  destruct (m st) as [[a|e] s1] eqn:Em.
  - eapply (Hk a); [eapply Hy; eauto | eapply Hm; eauto | eauto].
  - injection E as _ <-. eapply Hm; eauto.
Qed.

Lemma keeps_registered_parts P C : keeps P C registered_parts.
Proof. intros st r st' H E. injection E as _ <-. exact H. Qed.

Lemma in_enumerate_from {A} (l : list A) :
  forall k i x, In (i, x) (enumerate_from k l) -> In x l.
Proof.
  induction l as [|a r IH]; intros k i x H; simpl in H; [contradiction|].
  destruct H as [H|H]; [injection H as _ <-; now left | right; eauto].
Qed.

End Yields.

Section PlasmaSpared.

Let P := fun _ : Part => True.
Let C := spares_plasma.

Lemma spared_cut_with_all (entry : Solid) (cutters : list Solid) :
  not_plasma entry -> Forall not_plasma cutters ->
  keeps P C (cut_with_all entry cutters).
Proof.
  intros He Hc. rewrite Forall_forall in Hc.
  apply (keeps_for_each P C do_cut not_plasma).
  - intros acc x Hx Hacc. apply keeps_do_cut. split; [exact Hacc | auto].
  - intros acc x st acc' st' _ _ E. injection E as <- _. reflexivity.
  - exact He.
Qed.

Lemma spared_register_extra_cut_shapes colors l :
  keeps P C (register_extra_cut_shapes colors l).
Proof.
  apply keeps_for_each_plain. intros [] [i [w| | | |]]; simpl;
    solve [apply keeps_add; exact I | apply keeps_raise].
Qed.

Lemma spared_register_layer K colors i entry :
  keeps P C (register_layer K colors i entry).
Proof.
  unfold register_layer. destruct (has_solids K entry).
  - apply keeps_bind; [apply keeps_do_solids; exact I|]. intros solids_list.
    destruct (1 <? length solids_list)%nat.
    + apply keeps_for_each_plain. intros [] [j s]. apply keeps_add. exact I.
    + apply keeps_add. exact I.
  - apply keeps_add. exact I.
Qed.

Lemma spared_union_loop layers seed : keeps P C (for_each do_union layers seed).
Proof.
  apply keeps_for_each_plain. intros. apply keeps_do_union. exact I.
Qed.

(** Cutting every layer with the cutters and registering its parts. *)
Lemma spared_cut_and_register K colors (cutters layers : list Solid) :
  Forall not_plasma cutters -> Forall not_plasma layers ->
  keeps P C
    (for_each (fun (_ : unit) (ie : nat * Solid) =>
                 let (i, entry) := ie in
                 entry <- cut_with_all entry cutters ;;
                 register_layer K colors i entry)
              (enumerate layers) tt).
Proof.
  intros Hc Hl. rewrite Forall_forall in Hl.
  apply (keeps_for_each P C _ (fun _ => True)); auto.
  intros [] [i entry] Hin _.
  apply keeps_bind.
  - apply spared_cut_with_all; [|exact Hc].
    apply Hl. eapply in_enumerate_from. exact Hin.
  - intros. apply spared_register_layer.
Qed.

Lemma spared_plain_layers colors (layers : list Solid) :
  keeps P C
    (for_each (fun (_ : unit) (ie : nat * Solid) =>
                 let (i, entry) := ie in
                 add colors entry (layer_name (i + 1)))
              (enumerate layers) tt).
Proof.
  apply keeps_for_each_plain. intros [] [i entry]. apply keeps_add. exact I.
Qed.

Lemma spared_spherical_trim K colors cuts ints plasma inner blanket :
  Forall not_plasma (as_solids cuts) ->
  Forall not_plasma (inner ++ blanket) ->
  keeps P C (SphericalTokamak.trim K colors cuts ints plasma inner blanket).
Proof.
  intros Hcuts Hlayers.
  unfold SphericalTokamak.trim.
  apply keeps_bind; [apply keeps_new_assembly|]. intros _.
  apply keeps_bind; [apply spared_register_extra_cut_shapes|]. intros _.
  apply (keeps_bind_yields P C _ _ (Forall not_plasma)).
  - destruct ints as [|x ints']; [apply keeps_ret|].
    apply keeps_bind; [apply keeps_lift|]. intros seed.
    apply keeps_bind; [apply spared_union_loop|]. intros compound.
    apply keeps_for_each_plain. intros to_cut [i entry].
    apply keeps_bind; [apply keeps_do_intersect; exact I|]. intros inter.
    apply keeps_bind; [apply keeps_add; exact I|].
    intros; apply keeps_ret.
  - destruct ints as [|x ints']; [apply yields_ret; constructor|].
    apply (yields_bind _ _ (fun _ => True)); [apply yields_any|]. intros seed _.
    apply (yields_bind _ _ (fun _ => True)); [apply yields_any|].
    intros compound _.
    apply (yields_for_each _ (Forall not_plasma)); [|constructor].
    intros to_cut [i entry] _ Hacc. cbv beta iota.
    apply (yields_bind _ _ not_plasma); [apply yields_do_intersect|].
    intros inter Hinter.
    apply (yields_bind _ _ (fun _ => True)); [apply yields_any|]. intros _ _.
    apply yields_ret. apply Forall_app. split; [exact Hacc|].
    constructor; [exact Hinter | constructor].
  - intros to_cut Hto_cut.
    apply keeps_bind; [|intros; apply keeps_add; exact I].
    assert (Hcutters : Forall not_plasma (as_solids cuts ++ to_cut))
      by (apply Forall_app; split; assumption).
    pose proof (spared_cut_and_register K colors _ _ Hcutters Hlayers) as Hcut.
    pose proof (spared_plain_layers colors (inner ++ blanket)) as Hplain.
    destruct cuts as [|o cuts']; [destruct to_cut as [|c to_cut']|];
      assumption.
Qed.

Lemma spared_tokamak_trim K colors cuts ints inner blanket :
  Forall not_plasma (as_solids cuts) ->
  Forall not_plasma (inner ++ blanket) ->
  keeps P C (Tokamak.trim K colors cuts ints inner blanket).
Proof.
  intros Hcuts Hlayers.
  unfold Tokamak.trim.
  apply keeps_bind; [apply keeps_new_assembly|]. intros _.
  apply keeps_bind; [apply spared_register_extra_cut_shapes|]. intros _.
  destruct ints as [|x ints']; [apply keeps_ret|].
  apply keeps_bind; [apply keeps_lift|]. intros seed.
  apply keeps_bind; [apply spared_union_loop|]. intros compound.
  apply keeps_bind; [|intros; apply keeps_ret].
  assert (Hstep : forall to_cut i entry inter,
            Forall not_plasma (to_cut ++ [inter]) ->
            keeps P C
              (last <- Tokamak.cut_layers (as_solids cuts) (to_cut ++ [inter])
                         (inner ++ blanket) i entry ;;
               register_layer K colors (fst last) (snd last) ;;;
               ret (to_cut ++ [inter]))).
  { intros to_cut i entry inter Hto_cut.
    apply keeps_bind.
    - rewrite Forall_forall in Hlayers.
      apply (keeps_for_each P C _ (fun _ => True)); auto.
      intros acc [i' e'] Hin _.
      destruct (as_solids cuts ++ to_cut ++ [inter]) as [|c cs] eqn:Ec;
        [apply keeps_ret|].
      apply keeps_bind; [|intros; apply keeps_ret].
      apply spared_cut_with_all.
      + apply Hlayers. eapply in_enumerate_from. exact Hin.
      + rewrite <- Ec. apply Forall_app. split; assumption.
    - intros last.
      apply keeps_bind; [apply spared_register_layer | intros; apply keeps_ret]. }
  apply (keeps_for_each P C _ (Forall not_plasma)); [| |constructor].
  - intros to_cut [i entry] _ Hto_cut.
    apply (keeps_bind_yields P C _ _ not_plasma);
      [apply keeps_do_intersect; exact I | apply yields_do_intersect|].
    intros inter Hinter.
    apply keeps_bind; [apply keeps_add; exact I|]. intros _.
    assert (Hnext : Forall not_plasma (to_cut ++ [inter])).
    { apply Forall_app. split; [exact Hto_cut|].
      constructor; [exact Hinter | constructor]. }
    pose proof (Hstep to_cut i entry inter Hnext) as Hlast.
    destruct cuts as [|o cuts']; [destruct (to_cut ++ [inter])|];
      [apply keeps_ret | exact Hlast | exact Hlast].
  - intros to_cut [i entry] st acc' st' _ Hto_cut. revert st acc' st'.
    change (yields
              (reactor_entry_intersection <- do_intersect entry compound ;;
               add colors reactor_entry_intersection
                 (extra_intersect_name (i + 1)) ;;;
               match cuts, to_cut ++ [reactor_entry_intersection] with
               | [], [] => ret (to_cut ++ [reactor_entry_intersection])
               | _, _ =>
                   last <- Tokamak.cut_layers (as_solids cuts)
                             (to_cut ++ [reactor_entry_intersection])
                             (inner ++ blanket) i entry ;;
                   register_layer K colors (fst last) (snd last) ;;;
                   ret (to_cut ++ [reactor_entry_intersection])
               end)
              (Forall not_plasma)).
    apply (yields_bind _ _ not_plasma); [apply yields_do_intersect|].
    intros inter Hinter.
    apply (yields_bind _ _ (fun _ => True)); [apply yields_any|]. intros _ _.
    assert (Hnext : Forall not_plasma (to_cut ++ [inter])).
    { apply Forall_app. split; [exact Hto_cut|].
      constructor; [exact Hinter | constructor]. }
    assert (Hlast : yields
              (last <- Tokamak.cut_layers (as_solids cuts) (to_cut ++ [inter])
                         (inner ++ blanket) i entry ;;
               register_layer K colors (fst last) (snd last) ;;;
               ret (to_cut ++ [inter]))
              (Forall not_plasma)).
    { apply (yields_bind _ _ (fun _ => True)); [apply yields_any|].
      intros last _.
      apply (yields_bind _ _ (fun _ => True)); [apply yields_any|]. intros _ _.
      now apply yields_ret. }
    destruct cuts as [|o cuts']; [destruct (to_cut ++ [inter])|];
      [now apply yields_ret | exact Hlast | exact Hlast].
Qed.

End PlasmaSpared.

Section PlasmaSparedConstruction.

Let P := fun _ : Part => True.
Let C := spares_plasma.

Lemma yields_do_cut (a b : Solid) : yields (do_cut a b) not_plasma.
Proof. intros st x st' E. injection E as <- _. reflexivity. Qed.

Lemma yields_do_union (a b : Solid) : yields (do_union a b) not_plasma.
Proof. intros st x st' E. injection E as <- _. reflexivity. Qed.

Lemma spherical_cylinders_not_plasma radial_build rotation_angle height before
    (rest : list (nat * BuildEntry)) :
  forall cylinders total_sum layer_count result,
    Forall not_plasma cylinders ->
    SphericalTokamak.cylinders_loop radial_build rotation_angle height before
      rest cylinders total_sum layer_count = Ok result ->
    Forall not_plasma result.
Proof.
  induction rest as [|[index [[| |] t]] rest' IH];
    intros cylinders total_sum layer_count result Hc E.
  - injection E as <-. exact Hc.
  - rewrite spherical_loop_gap in E. unfold rbind in E.
    destruct (Py.index radial_build _) as [next|e]; [|discriminate E].
    destruct (is_plasma next).
    + injection E as <-. exact Hc.
    + exact (IH _ _ _ _ Hc E).
  - rewrite spherical_loop_solid in E.
    refine (IH _ _ _ _ _ E).
    apply Forall_app. split; [exact Hc|].
    constructor; [reflexivity | constructor].
  - injection E as <-. exact Hc.
Qed.

Lemma tokamak_cylinders_not_plasma radial_build rotation_angle height :
  Forall not_plasma
    (Tokamak.create_center_column_shield_cylinders radial_build rotation_angle
       height).
Proof.
  rewrite cylinders_are_first_shells.
  apply Forall_forall. intros x Hx.
  apply in_map_iff in Hx as [[k [a b]] [<- _]]. reflexivity.
Qed.

Lemma spared_spherical_blanket radial_build vertical_build mn mj tri el rot cc :
  not_plasma cc ->
  keeps P C
    (SphericalTokamak.create_blanket_layers_after_plasma radial_build
       vertical_build mn mj tri el rot cc)
  /\ yields
       (SphericalTokamak.create_blanket_layers_after_plasma radial_build
          vertical_build mn mj tri el rot cc)
       (Forall not_plasma).
Proof.
  intros Hcc. unfold SphericalTokamak.create_blanket_layers_after_plasma.
  split.
  - apply keeps_bind; [apply keeps_lift|]. intros pir.
    apply keeps_bind; [apply keeps_lift|]. intros piv.
    apply keeps_bind; [|intros; apply keeps_ret].
    apply keeps_for_each_plain. intros [[[ly ro] uo] lo] [i item].
    cbv beta iota.
    apply keeps_bind; [apply keeps_lift|]. intros upper.
    apply keeps_bind; [apply keeps_lift|]. intros lower.
    destruct (is_gap item); [apply keeps_ret|].
    apply keeps_bind; [|intros; apply keeps_ret].
    apply keeps_do_cut. split; [reflexivity | exact Hcc].
  - apply (yields_bind _ _ (fun _ => True)); [apply yields_any|]. intros pir _.
    apply (yields_bind _ _ (fun _ => True)); [apply yields_any|]. intros piv _.
    apply (yields_bind _ _
             (fun acc : list Solid * Q * Q * Q =>
                Forall not_plasma (fst (fst (fst acc))))).
    + apply yields_for_each; [|constructor].
      intros [[[ly ro] uo] lo] [i item] _ Hacc.
      cbv beta iota. simpl in Hacc.
      apply (yields_bind _ _ (fun _ => True)); [apply yields_any|].
      intros upper _.
      apply (yields_bind _ _ (fun _ => True)); [apply yields_any|].
      intros lower _.
      destruct (is_gap item); [now apply yields_ret|].
      apply (yields_bind _ _ not_plasma); [apply yields_do_cut|].
      intros layer Hlayer. apply yields_ret. simpl.
      apply Forall_app. split; [exact Hacc|].
      constructor; [exact Hlayer | constructor].
    + intros acc Hacc. now apply yields_ret.
Qed.

Lemma spared_tokamak_layers radial_build vertical_build mn mj tri el rot cc :
  keeps P C
    (Tokamak.create_layers_from_plasma radial_build vertical_build
       mn mj tri el rot cc)
  /\ yields
       (Tokamak.create_layers_from_plasma radial_build vertical_build
          mn mj tri el rot cc)
       (Forall not_plasma).
Proof.
  unfold Tokamak.create_layers_from_plasma. split.
  - apply keeps_bind; [apply keeps_lift|]. intros pir.
    apply keeps_bind; [apply keeps_lift|]. intros piv.
    apply keeps_bind; [|intros; apply keeps_ret].
    apply keeps_for_each_plain. intros [ly [[[o1 o2] o3] o4]] d.
    cbv beta iota.
    apply keeps_bind; [apply keeps_lift|]. intros outer.
    destruct (is_plasma outer); [apply keeps_ret|].
    apply keeps_bind; [apply keeps_lift|]. intros inner.
    apply keeps_bind; [apply keeps_lift|]. intros upper.
    apply keeps_bind; [apply keeps_lift|]. intros lower.
    destruct (is_gap outer); [apply keeps_ret|].
    destruct (is_solid outer); [|apply keeps_ret].
    apply keeps_bind; [|intros; apply keeps_ret].
    apply keeps_do_union. exact I.
  - apply (yields_bind _ _ (fun _ => True)); [apply yields_any|]. intros pir _.
    apply (yields_bind _ _ (fun _ => True)); [apply yields_any|]. intros piv _.
    apply (yields_bind _ _
             (fun acc : list Solid * (Q * Q * Q * Q) =>
                Forall not_plasma (fst acc))).
    + apply yields_for_each; [|constructor].
      intros [ly [[[o1 o2] o3] o4]] d _ Hacc.
      cbv beta iota. simpl in Hacc.
      apply (yields_bind _ _ (fun _ => True)); [apply yields_any|].
      intros outer _.
      destruct (is_plasma outer); [now apply yields_ret|].
      apply (yields_bind _ _ (fun _ => True)); [apply yields_any|].
      intros inner _.
      apply (yields_bind _ _ (fun _ => True)); [apply yields_any|].
      intros upper _.
      apply (yields_bind _ _ (fun _ => True)); [apply yields_any|].
      intros lower _.
      destruct (is_gap outer); [now apply yields_ret|].
      destruct (is_solid outer); [|now apply yields_ret].
      apply (yields_bind _ _ not_plasma); [apply yields_do_union|].
      intros layer Hlayer. apply yields_ret. simpl.
      apply Forall_app. split; [exact Hacc|].
      constructor; [exact Hlayer | constructor].
    + intros acc Hacc. now apply yields_ret.
Qed.

(** The layers a construction hands to the trim stage. *)
Let layers_of (built : Solid * list Solid * list Solid * (Q * Q * Q)) : list Solid :=
  snd (fst (fst built)) ++ snd (fst built).

Lemma spared_spherical_construct radial_build vertical_build tri rot :
  keeps P C (SphericalTokamak.construct radial_build vertical_build tri rot)
  /\ yields (SphericalTokamak.construct radial_build vertical_build tri rot)
       (fun built => Forall not_plasma (layers_of built)).
Proof.
  unfold SphericalTokamak.construct. split.
  - apply keeps_bind; [apply keeps_lift|]. intros [[[a b] mj] mn].
    cbv beta iota.
    apply keeps_bind; [apply keeps_lift|]. intros pvt.
    apply keeps_bind; [apply keeps_lift|]. intros el.
    apply keeps_bind; [apply keeps_lift|]. intros inner.
    apply keeps_bind; [apply keeps_lift|]. intros ct.
    apply keeps_bind; [|intros; apply keeps_ret].
    apply spared_spherical_blanket. reflexivity.
  - apply (yields_bind _ _ (fun _ => True)); [apply yields_any|].
    intros [[[a b] mj] mn] _. cbv beta iota.
    apply (yields_bind _ _ (fun _ => True)); [apply yields_any|]. intros pvt _.
    apply (yields_bind _ _ (fun _ => True)); [apply yields_any|]. intros el _.
    apply (yields_bind _ _ (Forall not_plasma)).
    + apply yields_lift. intros inner E.
      unfold SphericalTokamak.create_center_column_shield_cylinders in E.
      eapply spherical_cylinders_not_plasma; [constructor | exact E].
    + intros inner Hinner.
      apply (yields_bind _ _ (fun _ => True)); [apply yields_any|].
      intros ct _.
      apply (yields_bind _ _ (Forall not_plasma)).
      * apply spared_spherical_blanket. reflexivity.
      * intros blanket Hblanket. apply yields_ret.
        unfold layers_of. simpl. apply Forall_app. split; assumption.
Qed.

Lemma spared_tokamak_construct radial_build vertical_build tri rot :
  keeps P C (Tokamak.construct radial_build vertical_build tri rot)
  /\ yields (Tokamak.construct radial_build vertical_build tri rot)
       (fun built => Forall not_plasma (layers_of built)).
Proof.
  unfold Tokamak.construct. split.
  - apply keeps_bind; [apply keeps_lift|]. intros [[[a b] mj] mn].
    cbv beta iota.
    apply keeps_bind; [apply keeps_lift|]. intros pvt.
    apply keeps_bind; [apply keeps_lift|]. intros el.
    cbv zeta.
    apply keeps_bind; [apply keeps_lift|]. intros cc.
    apply keeps_bind; [|intros; apply keeps_ret].
    apply spared_tokamak_layers.
  - apply (yields_bind _ _ (fun _ => True)); [apply yields_any|].
    intros [[[a b] mj] mn] _. cbv beta iota.
    apply (yields_bind _ _ (fun _ => True)); [apply yields_any|]. intros pvt _.
    apply (yields_bind _ _ (fun _ => True)); [apply yields_any|]. intros el _.
    cbv zeta.
    apply (yields_bind _ _ (fun _ => True)); [apply yields_any|]. intros cc _.
    apply (yields_bind _ _ (Forall not_plasma)).
    + apply spared_tokamak_layers.
    + intros blanket Hblanket. apply yields_ret.
      unfold layers_of. simpl. apply Forall_app.
      split; [apply tokamak_cylinders_not_plasma | exact Hblanket].
Qed.

Lemma spared_spherical_tokamak K radial_build vertical_build tri rot cuts ints
    colors :
  Forall not_plasma (as_solids cuts) ->
  keeps P C
    (SphericalTokamak.spherical_tokamak K radial_build vertical_build tri rot
       cuts ints colors).
Proof.
  intros Hcuts. unfold SphericalTokamak.spherical_tokamak.
  destruct (spared_spherical_construct radial_build vertical_build tri rot)
    as [Hk Hy].
  apply (keeps_bind_yields P C _ _ _ Hk Hy).
  intros [[[plasma inner] blanket] [[el mj] mn]] Hlayers.
  cbv beta iota.
  apply keeps_bind; [now apply spared_spherical_trim|]. intros _.
  apply keeps_bind; [apply keeps_registered_parts | intros; apply keeps_ret].
Qed.

Lemma spared_tokamak K radial_build vertical_build tri rot cuts ints colors :
  Forall not_plasma (as_solids cuts) ->
  keeps P C
    (Tokamak.tokamak K radial_build vertical_build tri rot cuts ints colors).
Proof.
  intros Hcuts. unfold Tokamak.tokamak.
  destruct (spared_tokamak_construct radial_build vertical_build tri rot)
    as [Hk Hy].
  apply (keeps_bind_yields P C _ _ _ Hk Hy).
  intros [[[plasma inner] blanket] [[el mj] mn]] Hlayers.
  cbv beta iota.
  apply keeps_bind; [now apply spared_tokamak_trim|]. intros _.
  apply keeps_bind; [apply keeps_registered_parts | intros; apply keeps_ret].
Qed.

End PlasmaSparedConstruction.

(** X12: neither assembly function ever cuts a plasma solid or cuts with one:
    whatever the builds and whether the run returns or raises, every cut
    asked of the kernel has operands that are not plasma solids, provided no
    extra-cut shape handed in by the caller is one. *)
Theorem plasma_never_cut
    (K : Kernel) (radial_build vertical_build : Build)
    (triangularity' rotation_angle : Q)
    (extra_cut_shapes : list pyobj) (extra_intersect_shapes : list Solid)
    (colors : ColorTable) (st st' : state) (outcome : result Assembly) :
  Forall not_plasma (as_solids extra_cut_shapes) ->
  Forall spares_plasma (calls st) ->
  SphericalTokamak.spherical_tokamak K radial_build vertical_build
    triangularity' rotation_angle extra_cut_shapes extra_intersect_shapes
    colors st = (outcome, st')
  \/ Tokamak.tokamak K radial_build vertical_build
       triangularity' rotation_angle extra_cut_shapes extra_intersect_shapes
       colors st = (outcome, st') ->
  Forall spares_plasma (calls st')
  /\ existsb is_plasma_solid (cut_operands (calls st')) = false.
Proof.
  intros Hcuts Hlog Hrun.
  assert (Hst : state_ok (fun _ => True) spares_plasma st)
    by (split; [apply Forall_forall; trivial | exact Hlog]).
  assert (H : Forall spares_plasma (calls st')).
  { destruct Hrun as [Hrun|Hrun].
    - exact (proj2 (spared_spherical_tokamak K _ _ _ _ _ _ _ Hcuts _ _ _ Hst Hrun)).
    - exact (proj2 (spared_tokamak K _ _ _ _ _ _ _ Hcuts _ _ _ Hst Hrun)). }
  split; [exact H|].
  induction H as [|c log Hc _ IH]; [reflexivity|].
  unfold cut_operands in *. simpl. rewrite existsb_app, IH, orb_false_r.
  destruct c as [a b|a b|a b|a]; try reflexivity.
  destruct Hc as [Ha Hb]. simpl. unfold not_plasma in Ha, Hb.
  now rewrite Ha, Hb.
Qed.

Lemma plasma_never_cut_witness :
  exists outcome st',
    SphericalTokamak.spherical_tokamak two_pieces example_radial_build
      example_vertical_build (11 # 20) 180 [Workplane (handle 7)] [handle 0]
      no_colors empty_state = (outcome, st')
    /\ Forall spares_plasma (calls st')
    /\ existsb is_plasma_solid (cut_operands (calls st')) = false.
Proof.
  eexists _, _. split; [vm_compute; reflexivity|].
  eapply (plasma_never_cut two_pieces example_radial_build
            example_vertical_build (11 # 20) 180 [Workplane (handle 7)]
            [handle 0] no_colors empty_state).
  - repeat constructor.
  - constructor.
  - left. vm_compute. reflexivity.
Defined.

(* ------------------------------------------------------------------ *)
(** ** The lofted layers of the conventional tokamak *)

Section TokamakLayers.



End TokamakLayers.

Lemma tokamak_layers_run
    (radial_build vertical_build : Build)
    (minor_radius' major_radius' triangularity' elongation' rotation_angle : Q)
    (center_column : Solid) (st : state) :
  exactly_one_plasma radial_build ->
  exactly_one_plasma vertical_build ->
  (length (after_plasma radial_build) <= length (before_plasma radial_build))%nat ->
  (length (after_plasma radial_build) <= length (before_plasma vertical_build))%nat ->
  (length (after_plasma radial_build) <= length (after_plasma vertical_build))%nat ->
  let layers :=
    tokamak_shells minor_radius' major_radius' triangularity' elongation'
      rotation_angle 1
      (after_plasma radial_build) (rev (before_plasma radial_build))
      (rev (before_plasma vertical_build)) (after_plasma vertical_build)
      (0, 0, 0, 0) in
  Tokamak.create_layers_from_plasma radial_build vertical_build minor_radius'
    major_radius' triangularity' elongation' rotation_angle center_column st
  = (Ok layers,
     {| registered := registered st; calls := calls st ++ union_calls layers |}).
Proof.
  intros Hr Hv Hin Hup Hlow layers.
  destruct (one_plasma_shape _ Hr) as [t [Hf _]].
  unfold Tokamak.create_layers_from_plasma.
  unfold bind at 1. unfold lift at 1. rewrite (get_plasma_index_ok _ Hr).
  unfold bind at 1. unfold lift at 1. rewrite (get_plasma_index_ok _ Hv).
  replace (length radial_build - length (before_plasma radial_build))%nat
    with (S (length (after_plasma radial_build)))
    by (rewrite (length_build radial_build), Hf; simpl; lia).
  change (seq 0 (S (length (after_plasma radial_build))))
    with (0%nat :: seq 1 (length (after_plasma radial_build))).
  match goal with
  | |- context [for_each ?f _ _] => set (body := f)
  end.
  assert (Hfirst : forall acc s, body acc 0%nat s = (Ok acc, s)).
  { intros [ly [[[o1 o2] o3] o4]] s. unfold body. cbv beta iota.
    unfold bind at 1. unfold lift at 1.
    replace (Z.of_nat (length (before_plasma radial_build)) + Z.of_nat 0)%Z
      with (Z.of_nat (length (before_plasma radial_build))) by lia.
    rewrite index_nonneg.
    rewrite (split_at_plasma radial_build) at 1.
    rewrite nth_error_app2, Nat.sub_diag, Hf by lia. reflexivity. }
  assert (Hloop :
    forall outer k inner upper lower acc_layers o1 o2 o3 o4 s,
      skipn k (after_plasma radial_build) = outer ->
      skipn k (rev (before_plasma radial_build)) = inner ->
      skipn k (rev (before_plasma vertical_build)) = upper ->
      skipn k (after_plasma vertical_build) = lower ->
      (length outer <= length inner)%nat ->
      (length outer <= length upper)%nat ->
      (length outer <= length lower)%nat ->
      exists offsets',
        for_each body (seq (S k) (length outer))
          (acc_layers, (o1, o2, o3, o4)) s
        = (Ok (acc_layers ++
               tokamak_shells minor_radius' major_radius' triangularity'
                 elongation' rotation_angle (S k)
                 outer inner upper lower (o1, o2, o3, o4),
               offsets'),
           {| registered := registered s;
              calls := calls s ++
                union_calls
                  (tokamak_shells minor_radius' major_radius' triangularity'
                     elongation' rotation_angle (S k)
                     outer inner upper lower (o1, o2, o3, o4)) |})).
  { induction outer as [|o outer' IH];
      intros k inner upper lower acc_layers o1 o2 o3 o4 s
             Ho Hi Hu Hl Hli Hlu Hll.
    - exists (o1, o2, o3, o4). simpl. unfold ret.
      rewrite !app_nil_r. now destruct s.
    - destruct inner as [|i inner']; [simpl in Hli; lia|].
      destruct upper as [|u upper']; [simpl in Hlu; lia|].
      destruct lower as [|l lower']; [simpl in Hll; lia|].
      apply skipn_cons_nth in Ho as [Ho Ho'].
      apply skipn_cons_nth in Hi as [Hi Hi'].
      apply skipn_cons_nth in Hu as [Hu Hu'].
      apply skipn_cons_nth in Hl as [Hl Hl'].
      simpl in Hli, Hlu, Hll.
      apply le_S_n in Hli. apply le_S_n in Hlu. apply le_S_n in Hll.
      change (seq (S k) (length (o :: outer')))
        with (S k :: seq (S (S k)) (length outer')).
      cbn [for_each]. unfold bind at 1.
      unfold body at 1. cbv beta iota zeta.
      unfold bind at 1. unfold lift at 1.
      replace (Z.of_nat (length (before_plasma radial_build)) + Z.of_nat (S k))%Z
        with (Z.of_nat (length (before_plasma radial_build)) + 1 + Z.of_nat k)%Z
        by lia.
      rewrite (index_above radial_build Hr k), Ho.
      cbn [tokamak_shells].
      destruct (is_plasma o) eqn:Ep.
      + unfold ret at 1.
        exact (IH (S k) inner' upper' lower' acc_layers o1 o2 o3 o4 s
                 Ho' Hi' Hu' Hl' Hli Hlu Hll).
      + unfold bind at 1. unfold lift at 1.
        replace (Z.of_nat (length (before_plasma radial_build)) - Z.of_nat (S k))%Z
          with (Z.of_nat (length (before_plasma radial_build)) - 1 - Z.of_nat k)%Z
          by lia.
        rewrite (index_below radial_build k i Hi).
        unfold bind at 1. unfold lift at 1.
        replace (Z.of_nat (length (before_plasma vertical_build)) - Z.of_nat (S k))%Z
          with (Z.of_nat (length (before_plasma vertical_build)) - 1 - Z.of_nat k)%Z
          by lia.
        rewrite (index_below vertical_build k u Hu).
        unfold bind at 1. unfold lift at 1.
        replace (Z.of_nat (length (before_plasma vertical_build)) + Z.of_nat (S k))%Z
          with (Z.of_nat (length (before_plasma vertical_build)) + 1 + Z.of_nat k)%Z
          by lia.
        rewrite (index_above vertical_build Hv k), Hl.
        destruct (is_gap o).
        * unfold ret at 1.
          exact (IH (S k) inner' upper' lower' acc_layers _ _ _ _ s
                   Ho' Hi' Hu' Hl' Hli Hlu Hll).
        * destruct (is_solid o).
          -- unfold bind at 1. unfold do_union at 1. unfold bind at 1.
             unfold log at 1. unfold ret at 1. unfold ret at 1.
             match goal with
             | |- context [for_each body _ (?ly, _) ?s1] =>
                 destruct (IH (S k) inner' upper' lower' ly
                             (o1 + snd o) (o2 + snd i) (o3 + snd u)
                             (o4 + snd l) s1
                             Ho' Hi' Hu' Hl' Hli Hlu Hll)
                   as (offsets' & E)
             end.
             exists offsets'. rewrite E.
             cbn [registered calls union_calls flat_map].
             rewrite <- !app_assoc. reflexivity.
          -- unfold ret at 1.
             exact (IH (S k) inner' upper' lower' acc_layers _ _ _ _ s
                      Ho' Hi' Hu' Hl' Hli Hlu Hll). }
  cbn [for_each]. unfold bind at 1. unfold bind at 1. rewrite Hfirst.
  cbv beta iota.
  destruct (Hloop (after_plasma radial_build) 0%nat
              (rev (before_plasma radial_build))
              (rev (before_plasma vertical_build))
              (after_plasma vertical_build)
              [] 0 0 0 0 st eq_refl eq_refl eq_refl eq_refl
              ltac:(rewrite length_rev; exact Hin)
              ltac:(rewrite length_rev; exact Hup) Hlow)
    as (offsets' & E).
  rewrite E. reflexivity.
Qed.



(* ------------------------------------------------------------------ *)
(** ** What the trim stage of [tokamak] registers *)

Section TokamakTrim.

Lemma appends_then_ret {A B} (m : M A) (a : A) (b : B) (X : list Part) :
  appends m a X -> appends (m ;;; ret b) b X.
Proof.
  intros Hm. replace X with (X ++ []) by apply app_nil_r.
  exact (appends_bind m (fun _ => ret b) a b X [] Hm (appends_ret b)).
Qed.

(** The branch taken as soon as there is something to cut with. *)
Lemma general_branch {A} (cuts : list pyobj) (l : list Solid) (x y : A) :
  l <> [] ->
  match cuts, l with
  | [], [] => x
  | _, _ => y
  end = y.
Proof. intros H. destruct cuts, l; congruence. Qed.

Lemma firstn_app_snoc {A} (pre : list A) (x : A) (r : list A) :
  firstn (S (length pre)) (pre ++ x :: r) = pre ++ [x].
Proof.
  induction pre as [|a pre' IH]; [reflexivity|].
  cbn [length app]. rewrite firstn_cons, IH. reflexivity.
Qed.

Lemma intersections_snoc (pre : list Solid) (x compound : Solid) :
  intersections (pre ++ [x]) compound
  = intersections pre compound ++ [intersect x compound].
Proof. unfold intersections. now rewrite map_app. Qed.

(** The loop over the layers leaves the last layer in [i] and [entry]. *)
Lemma fold_last_layer (combined : list Solid) (last_layer : Solid) :
  forall (front : list Solid) (k : nat) (acc : nat * Solid),
    fold_left (fun (_ : nat * Solid) (ie : nat * Solid) =>
                 (fst ie, cut_all (snd ie) combined))
              (enumerate_from k (front ++ [last_layer])) acc
    = ((k + length front)%nat, cut_all last_layer combined).
Proof.
  induction front as [|x r IH]; intros k acc; simpl.
  - now rewrite Nat.add_0_r.
  - rewrite IH. f_equal. lia.
Qed.

Lemma appends_cut_layers (cuts to_cut front : list Solid)
    (last_layer : Solid) (i : nat) (entry : Solid) :
  cuts ++ to_cut <> [] ->
  appends (Tokamak.cut_layers cuts to_cut (front ++ [last_layer]) i entry)
    (length front, cut_all last_layer (cuts ++ to_cut)) [].
Proof.
  intros Hne. unfold Tokamak.cut_layers. cbv zeta.
  destruct (cuts ++ to_cut) as [|c cs]; [congruence|].
  pose proof (fold_last_layer (c :: cs) last_layer front 0 (i, entry)) as Hf.
  cbn [Nat.add] in Hf.
  assert (Hloop :
    appends
      (for_each (fun (_ : nat * Solid) (ie : nat * Solid) =>
                   let (i, entry) := ie in
                   entry <- cut_with_all entry (c :: cs) ;;
                   ret (i, entry))
                (enumerate_from 0 (front ++ [last_layer])) (i, entry))
      (fold_left (fun (_ : nat * Solid) (ie : nat * Solid) =>
                    (fst ie, cut_all (snd ie) (c :: cs)))
                 (enumerate_from 0 (front ++ [last_layer])) (i, entry))
      (flat_map (fun _ : nat * Solid => [])
         (enumerate_from 0 (front ++ [last_layer])))).
  { apply appends_for_each. intros acc [i' e'].
    exact (appends_bind _ (fun entry => ret (i', entry)) _ _ [] []
             (appends_cut_with_all e' (c :: cs)) (appends_ret _)). }
  rewrite Hf, flat_map_nil in Hloop. exact Hloop.
Qed.

Variable K : Kernel.
Variable colors : ColorTable.

(** The loop over [extra_intersect_shapes]: [pre] holds the shapes already
    handled, [suf] the ones to come. *)
Lemma appends_tokamak_intersect_loop (cuts : list pyobj) (compound : Solid)
    (layers front : list Solid) (last_layer : Solid) :
  layers = front ++ [last_layer] ->
  forall (suf pre : list Solid),
    appends
      (for_each (fun (intersect_shapes_to_cut : list Solid) (ie : nat * Solid) =>
                   let (i, entry) := ie in
                   reactor_entry_intersection <- do_intersect entry compound ;;
                   add colors reactor_entry_intersection
                     (extra_intersect_name (i + 1)) ;;;
                   match cuts, intersect_shapes_to_cut ++ [reactor_entry_intersection] with
                   | [], [] =>
                       ret (intersect_shapes_to_cut ++ [reactor_entry_intersection])
                   | _, _ =>
                       last <- Tokamak.cut_layers (as_solids cuts)
                                 (intersect_shapes_to_cut
                                    ++ [reactor_entry_intersection])
                                 layers i entry ;;
                       register_layer K colors (fst last) (snd last) ;;;
                       ret (intersect_shapes_to_cut ++ [reactor_entry_intersection])
                   end)
                (enumerate_from (length pre) suf)
                (intersections pre compound))
      (intersections (pre ++ suf) compound)
      (tokamak_intersect_parts K colors (as_solids cuts) compound
         (length front) last_layer (pre ++ suf)
         (enumerate_from (length pre) suf)).
Proof.
  intros ->.
  induction suf as [|x r IH]; intros pre.
  - simpl. rewrite app_nil_r. apply appends_ret.
  - cbn [enumerate_from for_each].
    unfold tokamak_intersect_parts. cbn [flat_map fst snd].
    fold (tokamak_intersect_parts K colors (as_solids cuts) compound
            (length front) last_layer (pre ++ x :: r)
            (enumerate_from (S (length pre)) r)).
    rewrite firstn_app_snoc.
    apply (appends_bind _ _ (intersections (pre ++ [x]) compound)).
    + rewrite !intersections_snoc.
      cbv beta iota.
      apply (appends_bind _ _ (intersect x compound) _ []);
        [apply appends_do_intersect|].
      cbv beta.
      apply (appends_bind _ _ tt _
               [part_of colors (extra_intersect_name (length pre + 1))
                  (intersect x compound)]);
        [apply appends_add|].
      cbv beta.
      rewrite general_branch
        by (intros H; apply app_eq_nil in H as [_ H]; discriminate).
      apply (appends_bind _ _
               (length front,
                cut_all last_layer
                  (as_solids cuts
                   ++ intersections pre compound ++ [intersect x compound]))
               _ []).
      * apply appends_cut_layers.
        intros H. apply app_eq_nil in H as [_ H].
        apply app_eq_nil in H as [_ H]. discriminate.
      * cbv beta. cbn [fst snd].
        apply (appends_then_ret _ tt). apply appends_register_layer.
    + specialize (IH (pre ++ [x])).
      rewrite length_app, <- app_assoc in IH. cbn [length app] in IH.
      rewrite Nat.add_1_r in IH. exact IH.
Qed.

(** The whole trim stage of [tokamak], when every [extra_cut_shapes] entry
    is a Workplane and there is a first cylinder: it registers the parts
    below if their names are distinct and otherwise raises the ValueError of
    [add] with a part of them registered. *)
Lemma tokamak_trim_spec (cuts : list pyobj) (ints : list Solid)
    (inner blanket front : list Solid) (last_layer : Solid) (st : state) :
  first_invalid cuts = None ->
  inner <> [] ->
  inner ++ blanket = front ++ [last_layer] ->
  let expected :=
    extra_cut_parts colors 0 (as_solids cuts)
    ++ tokamak_intersect_parts K colors (as_solids cuts)
         (reactor_compound_of (inner ++ blanket))
         (length front) last_layer ints (enumerate ints) in
  (NoDup (map part_name expected) ->
   exists log,
     Tokamak.trim K colors cuts ints inner blanket st
     = (Ok tt, {| registered := expected; calls := log |}))
  /\ (~ NoDup (map part_name expected) ->
      exists X' rest log,
        expected = X' ++ rest
        /\ Tokamak.trim K colors cuts ints inner blanket st
           = (name_clash, {| registered := X'; calls := log |})).
Proof.
  intros Hvalid Hseed Hlast expected.
  remember (Tokamak.trim K colors cuts ints inner blanket st) as outcome eqn:Eo.
  unfold Tokamak.trim in Eo. unfold bind at 1 in Eo.
  unfold new_assembly at 1 in Eo. unfold bind at 1 in Eo.
  rewrite register_extra_cut_shapes_spec in Eo by reflexivity.
  unfold validation_outcome in Eo. rewrite Hvalid in Eo.
  destruct (all_valid _ Hvalid) as [Hprefix _].
  rewrite Hprefix in Eo. simpl registered in Eo.
  match type of Eo with
  | _ = ?m ?s =>
      assert (Hall : appends m tt
                       (tokamak_intersect_parts K colors (as_solids cuts)
                          (reactor_compound_of (inner ++ blanket))
                          (length front) last_layer ints (enumerate ints)));
      [|destruct (Hall s) as [Hok Hclash]]
  end.
  { clear Eo.
    destruct ints as [|x ints']; [apply appends_ret|].
    destruct inner as [|seed others]; [congruence|].
    change (lift (Py.index (seed :: others) 0)) with (@ret Solid seed).
    apply (appends_bind _ _ seed _ []); [apply appends_ret|].
    apply (appends_bind _ _ (reactor_compound_of ((seed :: others) ++ blanket)) _ []);
      [apply appends_union_loop|].
    apply (appends_then_ret _ (intersections (x :: ints')
                                 (reactor_compound_of ((seed :: others) ++ blanket)))).
    exact (appends_tokamak_intersect_loop cuts _ _ front last_layer Hlast
             (x :: ints') []). }
  split.
  - intros Hnd. destruct (Hok Hnd) as [log E]. exists log. now rewrite Eo, E.
  - intros Hdup.
    destruct (Hclash (extra_cut_distinct colors 0 (as_solids cuts)) Hdup)
      as (X' & rest & log & HX & E).
    exists (extra_cut_parts colors 0 (as_solids cuts) ++ X'), rest, log.
    split; [unfold expected; rewrite HX; now rewrite app_assoc|].
    now rewrite Eo, E.
Qed.

(** With at most one extra-intersect shape no name is used twice. *)
Lemma tokamak_names_distinct (cuts cutters : list Solid) (compound : Solid)
    (i : nat) (last_layer : Solid) (ints : list Solid) :
  (length ints <= 1)%nat ->
  NoDup (map part_name
           (extra_cut_parts colors 0 cuts
            ++ tokamak_intersect_parts K colors cutters compound i last_layer
                 ints (enumerate ints))).
Proof.
  intros Hlen. destruct ints as [|x [|y r]]; [| |simpl in Hlen; lia].
  - simpl. rewrite app_nil_r. apply extra_cut_distinct.
  - unfold tokamak_intersect_parts, enumerate.
    cbn [enumerate_from flat_map fst snd]. rewrite app_nil_r, map_app.
    apply NoDup_app; [apply extra_cut_distinct| |].
    + cbn [map]. constructor; [|apply decomposed_distinct].
      intros Hin. apply decomposed_names in Hin.
      exact (extra_intersect_not_layer _ _ _ Hin eq_refl).
    + intros n Hn Hr. rewrite extra_cut_names in Hn.
      apply indexed_names in Hn as (k & _ & ->).
      destruct Hr as [Hr|Hr]; [discriminate Hr|].
      apply decomposed_names in Hr.
      exact (extra_cut_not_layer _ _ _ Hr eq_refl).
Qed.

(** The first name a cut layer is registered under. *)
Lemma decomposed_first_name (i : nat) (entry : Solid) :
  exists p ps,
    decomposed K colors i entry = p :: ps
    /\ part_name p = if in_pieces K entry then layer_part_name (i + 1) 1
                     else layer_name (i + 1).
Proof.
  unfold decomposed, in_pieces.
  destruct (has_solids K entry); simpl; [|eexists _, _; split; reflexivity].
  destruct (solids K entry) as [|s [|s' l']]; simpl;
    eexists _, _; split; reflexivity.
Qed.

(** With two extra-intersect shapes or more, the last layer is registered a
    second time; if it is in pieces both times, or in one piece both times,
    its first name is taken. *)
Lemma tokamak_names_clash (cuts cutters : list Solid) (compound : Solid)
    (i : nat) (last_layer : Solid) (x1 x2 : Solid) (rest : list Solid) :
  in_pieces K (cut_all last_layer (cutters ++ intersections [x1] compound))
  = in_pieces K (cut_all last_layer (cutters ++ intersections [x1; x2] compound)) ->
  ~ NoDup (map part_name
             (extra_cut_parts colors 0 cuts
              ++ tokamak_intersect_parts K colors cutters compound i last_layer
                   (x1 :: x2 :: rest) (enumerate (x1 :: x2 :: rest)))).
Proof.
  intros Hkind Hnd. rewrite map_app in Hnd. apply NoDup_app_remove_l in Hnd.
  unfold tokamak_intersect_parts, enumerate in Hnd.
  cbn [enumerate_from flat_map fst snd firstn] in Hnd.
  destruct (decomposed_first_name i
              (cut_all last_layer (cutters ++ intersections [x1] compound)))
    as (p1 & ps1 & E1 & Hn1).
  destruct (decomposed_first_name i
              (cut_all last_layer (cutters ++ intersections [x1; x2] compound)))
    as (p2 & ps2 & E2 & Hn2).
  rewrite E1, E2 in Hnd. rewrite Hkind in Hn1.
  cbn [map app] in Hnd.
  apply NoDup_cons_iff in Hnd as [_ Hnd].
  apply NoDup_cons_iff in Hnd as [Hnot _].
  apply Hnot. rewrite map_app, in_app_iff. right.
  cbn [map]. right. left. now rewrite Hn1, Hn2.
Qed.

End TokamakTrim.

(* ------------------------------------------------------------------ *)
(** ** Runs of [tokamak] on well-formed input *)

Section TokamakTotal.

Lemma first_cylinder (radial_build : Build) (rotation_angle height : Q) :
  (0 < Tokamak.count_cylinder_layers radial_build)%Z ->
  exists c others,
    Tokamak.create_center_column_shield_cylinders radial_build rotation_angle
      height = c :: others.
Proof.
  intros Hpos. rewrite cylinders_are_first_shells.
  pose proof (count_cylinder_layers_spec radial_build) as Hcount.
  pose proof (length_solid_shells radial_build []) as Hlen.
  destruct (Z.to_nat (Tokamak.count_cylinder_layers radial_build))
    as [|N] eqn:EN; [lia|].
  destruct (solid_shells [] radial_build) as [|s shells];
    [simpl in Hlen; lia|].
  simpl. eexists _, _. reflexivity.
Qed.

Lemma removelast_length {A} (l : list A) (d : A) :
  l <> [] ->
  l = removelast l ++ [last l d]
  /\ length (removelast l) = (length l - 1)%nat.
Proof.
  intros Hne. pose proof (app_removelast_last d Hne) as E.
  split; [exact E|].
  apply (f_equal (@length A)) in E. rewrite length_app in E.
  simpl in E. lia.
Qed.

(** The scalars of the construction, written out. *)
Lemma construction_scalars (radial_build vertical_build : Build)
    (t tv : Q) (post postv : Build) :
  exactly_one_plasma radial_build ->
  from_plasma radial_build = (PLASMA, t) :: post ->
  exactly_one_plasma vertical_build ->
  from_plasma vertical_build = (PLASMA, tv) :: postv ->
  let inner := Py.sum (thicknesses (before_plasma radial_build)) in
  major_radius_of radial_build = (inner + t + inner) / 2
  /\ minor_radius_of radial_build = (inner + t + inner) / 2 - inner
  /\ elongation_of radial_build vertical_build
     = tv / 2 / ((inner + t + inner) / 2 - inner).
Proof.
  intros Hone Hf Hvone Hfv inner.
  unfold elongation_of, major_radius_of, minor_radius_of.
  rewrite (equatorial_geometry_ok _ _ _ Hone Hf).
  rewrite (get_plasma_value_ok _ _ _ Hvone Hfv). auto.
Qed.

Variables radial_build vertical_build : Build.
Variables triangularity' rotation_angle : Q.

Hypothesis radial_one_plasma : exactly_one_plasma radial_build.
Hypothesis minor_radius_not_zero : ~ minor_radius_of radial_build == 0.
Hypothesis vertical_one_plasma : exactly_one_plasma vertical_build.
Hypothesis enough_inboard :
  (length (after_plasma radial_build) <= length (before_plasma radial_build))%nat.
Hypothesis enough_above :
  (length (after_plasma radial_build) <= length (before_plasma vertical_build))%nat.
Hypothesis enough_below :
  (length (after_plasma radial_build) <= length (after_plasma vertical_build))%nat.
Hypothesis some_cylinder :
  (0 < Tokamak.count_cylinder_layers radial_build)%Z.

(** The construction succeeds and its log holds the unions of the lofted
    layers. *)
Lemma tokamak_construct_ok (st : state) :
  let minor := minor_radius_of radial_build in
  let major := major_radius_of radial_build in
  let elong := elongation_of radial_build vertical_build in
  let cylinders :=
    Tokamak.create_center_column_shield_cylinders radial_build
      rotation_angle (Py.sum (thicknesses vertical_build)) in
  let blanket :=
    tokamak_shells minor major triangularity' elong rotation_angle 1
      (after_plasma radial_build) (rev (before_plasma radial_build))
      (rev (before_plasma vertical_build)) (after_plasma vertical_build)
      (0, 0, 0, 0) in
  Tokamak.construct radial_build vertical_build triangularity'
    rotation_angle st
  = (Ok (plasma_simplified major minor elong triangularity' rotation_angle,
         cylinders, blanket, (elong, major, minor)),
     {| registered := registered st;
        calls := calls st ++ union_calls blanket |}).
Proof.
  pose proof radial_one_plasma as Hone.
  destruct (one_plasma_shape _ Hone) as [t [Hf _]].
  destruct (one_plasma_shape _ vertical_one_plasma) as [tv [Hfv _]].
  pose proof minor_radius_not_zero as Hnz.
  destruct (construction_scalars _ _ _ _ _ _ Hone Hf vertical_one_plasma Hfv)
    as (Emajor & Eminor & Eelong).
  rewrite Eminor in Hnz.
  cbv zeta. rewrite Eelong, Emajor, Eminor.
  set (inner := Py.sum (thicknesses (before_plasma radial_build))).
  set (major := (inner + t + inner) / 2).
  set (minor := major - inner).
  set (elong := tv / 2 / minor).
  set (cylinders :=
         Tokamak.create_center_column_shield_cylinders radial_build
           rotation_angle (Py.sum (thicknesses vertical_build))).
  unfold Tokamak.construct.
  unfold bind at 1. unfold lift at 1.
  rewrite (equatorial_geometry_ok _ _ _ Hone Hf).
  unfold bind at 1. unfold lift at 1.
  rewrite (get_plasma_value_ok _ _ _ vertical_one_plasma Hfv).
  unfold bind at 1. unfold lift at 1.
  rewrite div_nonzero by exact Hnz.
  cbv zeta.
  destruct (first_cylinder radial_build rotation_angle
              (Py.sum (thicknesses vertical_build)) some_cylinder)
    as (c & others & Ec).
  unfold bind at 1. unfold lift at 1.
  fold cylinders. unfold cylinders at 1. rewrite Ec.
  change (Py.index (c :: others) 0) with (Ok c).
  unfold bind at 1.
  pose proof (tokamak_layers_run radial_build vertical_build
                minor major triangularity' elong rotation_angle c st
                Hone vertical_one_plasma enough_inboard enough_above
                enough_below) as E.
  cbv zeta in E. fold inner major minor elong. rewrite E. reflexivity.
Qed.

(** The whole run: the assembly with the parts below if their names are
    distinct, the ValueError of [add] otherwise. *)
Lemma tokamak_run (K : Kernel) (colors : ColorTable)
    (extra_cut_shapes : list pyobj) (extra_intersect_shapes : list Solid)
    (st : state) :
  first_invalid extra_cut_shapes = None ->
  let expected :=
    tokamak_parts K colors radial_build vertical_build triangularity'
      rotation_angle (as_solids extra_cut_shapes) extra_intersect_shapes in
  (NoDup (map part_name expected) ->
   exists st',
     Tokamak.tokamak K radial_build vertical_build triangularity'
       rotation_angle extra_cut_shapes extra_intersect_shapes colors st
     = (Ok {| parts := expected;
              elongation := elongation_of radial_build vertical_build;
              triangularity := triangularity';
              major_radius := major_radius_of radial_build;
              minor_radius := minor_radius_of radial_build |}, st'))
  /\ (~ NoDup (map part_name expected) ->
      exists st' rest,
        Tokamak.tokamak K radial_build vertical_build triangularity'
          rotation_angle extra_cut_shapes extra_intersect_shapes colors st
        = (name_clash, st')
        /\ expected = registered st' ++ rest).
Proof.
  intros Hcuts expected.
  pose proof (tokamak_construct_ok st) as Hc. cbv zeta in Hc.
  destruct (first_cylinder radial_build rotation_angle
              (Py.sum (thicknesses vertical_build)) some_cylinder)
    as (c & others & Ec).
  remember (Tokamak.tokamak K radial_build vertical_build triangularity'
              rotation_angle extra_cut_shapes extra_intersect_shapes colors st)
    as outcome eqn:Eo.
  unfold Tokamak.tokamak in Eo. unfold bind at 1 in Eo. rewrite Hc in Eo.
  cbv beta iota in Eo.
  match type of Eo with
  | context [bind (Tokamak.trim K colors _ _ ?inner ?blanket) _ ?s1] =>
      assert (Hne : inner ++ blanket <> [])
        by (rewrite Ec; discriminate);
      destruct (removelast_length (inner ++ blanket) (handle 0) Hne)
        as [Hsplit Hlen];
      destruct (tokamak_trim_spec K colors extra_cut_shapes
                  extra_intersect_shapes inner blanket
                  (removelast (inner ++ blanket))
                  (last (inner ++ blanket) (handle 0)) s1 Hcuts)
        as [Hok Hclash];
      [rewrite Ec; discriminate | exact Hsplit |]
  end.
  assert (Hexp : expected
                 = extra_cut_parts colors 0 (as_solids extra_cut_shapes)
                   ++ tokamak_intersect_parts K colors
                        (as_solids extra_cut_shapes)
                        (reactor_compound_of
                           (Tokamak.create_center_column_shield_cylinders
                              radial_build rotation_angle
                              (Py.sum (thicknesses vertical_build))
                            ++ tokamak_shells (minor_radius_of radial_build)
                                 (major_radius_of radial_build) triangularity'
                                 (elongation_of radial_build vertical_build)
                                 rotation_angle 1
                                 (after_plasma radial_build)
                                 (rev (before_plasma radial_build))
                                 (rev (before_plasma vertical_build))
                                 (after_plasma vertical_build) (0, 0, 0, 0)))
                        (length
                           (removelast
                              (Tokamak.create_center_column_shield_cylinders
                                 radial_build rotation_angle
                                 (Py.sum (thicknesses vertical_build))
                               ++ tokamak_shells (minor_radius_of radial_build)
                                    (major_radius_of radial_build) triangularity'
                                    (elongation_of radial_build vertical_build)
                                    rotation_angle 1
                                    (after_plasma radial_build)
                                    (rev (before_plasma radial_build))
                                    (rev (before_plasma vertical_build))
                                    (after_plasma vertical_build) (0, 0, 0, 0))))
                        (last
                           (Tokamak.create_center_column_shield_cylinders
                              radial_build rotation_angle
                              (Py.sum (thicknesses vertical_build))
                            ++ tokamak_shells (minor_radius_of radial_build)
                                 (major_radius_of radial_build) triangularity'
                                 (elongation_of radial_build vertical_build)
                                 rotation_angle 1
                                 (after_plasma radial_build)
                                 (rev (before_plasma radial_build))
                                 (rev (before_plasma vertical_build))
                                 (after_plasma vertical_build) (0, 0, 0, 0))
                           (handle 0))
                        extra_intersect_shapes
                        (enumerate extra_intersect_shapes)).
  { unfold expected, tokamak_parts, tokamak_layers. cbv zeta.
    rewrite <- cylinders_are_first_shells. rewrite Hlen. reflexivity. }
  cbv zeta in Hok, Hclash. rewrite <- Hexp in Hok, Hclash.
  split.
  - intros Hnd. destruct (Hok Hnd) as [log E].
    unfold bind at 1 in Eo. rewrite E in Eo.
    unfold bind, registered_parts, ret in Eo. cbn [registered] in Eo.
    eexists. rewrite Eo. reflexivity.
  - intros Hdup. destruct (Hclash Hdup) as (X' & rest & log & HX & E).
    unfold bind at 1 in Eo. rewrite E in Eo.
    eexists _, rest. rewrite Eo. split; [reflexivity | exact HX].
Qed.

End TokamakTotal.

(** X14: on a radial build with exactly one PLASMA entry, a minor radius
    that is not zero as the code computes it, at least one cylinder layer
    and at least as many entries in front of its plasma as after it, a
    vertical build with exactly one PLASMA entry and as many entries on both
    sides of it, extra-cut shapes that are all Workplanes and at most one
    extra-intersect shape, [tokamak] returns an assembly.  Its parts are the
    extra-cut shapes and then, if there is an extra-intersect shape, its
    intersection with the union of all layers followed by the parts of the
    last layer alone, cut by the extra-cut shapes and by that intersection:
    no other layer and no plasma is registered. *)
Theorem tokamak_returns_parts
    (K : Kernel) (radial_build vertical_build : Build)
    (triangularity' rotation_angle : Q)
    (extra_cut_shapes : list pyobj) (extra_intersect_shapes : list Solid)
    (colors : ColorTable) (st : state) :
  exactly_one_plasma radial_build ->
  ~ minor_radius_of radial_build == 0 ->
  exactly_one_plasma vertical_build ->
  (length (after_plasma radial_build) <= length (before_plasma radial_build))%nat ->
  (length (after_plasma radial_build) <= length (before_plasma vertical_build))%nat ->
  (length (after_plasma radial_build) <= length (after_plasma vertical_build))%nat ->
  (0 < Tokamak.count_cylinder_layers radial_build)%Z ->
  first_invalid extra_cut_shapes = None ->
  (length extra_intersect_shapes <= 1)%nat ->
  exists asm st',
    Tokamak.tokamak K radial_build vertical_build triangularity'
      rotation_angle extra_cut_shapes extra_intersect_shapes colors st
    = (Ok asm, st')
    /\ triangularity asm = triangularity'
    /\ let layers :=
         tokamak_layers radial_build vertical_build (minor_radius asm)
           (major_radius asm) triangularity' (elongation asm) rotation_angle in
       parts asm
       = extra_cut_parts colors 0 (as_solids extra_cut_shapes)
         ++ tokamak_intersect_parts K colors (as_solids extra_cut_shapes)
              (reactor_compound_of layers) (length layers - 1)
              (last layers (handle 0)) extra_intersect_shapes
              (enumerate extra_intersect_shapes).
Proof.
  intros Hr Hnz Hv Hin Hup Hlow Hcount Hcuts Hone.
  destruct (tokamak_run radial_build vertical_build triangularity'
              rotation_angle Hr Hnz Hv Hin Hup Hlow Hcount K colors
              extra_cut_shapes extra_intersect_shapes st Hcuts)
    as [Hok _].
  destruct Hok as [st' E].
  { apply tokamak_names_distinct. exact Hone. }
  eexists _, st'. split; [exact E|].
  split; reflexivity.
Qed.

Lemma tokamak_returns_parts_witness :
  exists asm st',
    Tokamak.tokamak two_pieces tokamak_radial_build tokamak_vertical_build
      (11 # 20) 180 [Workplane (handle 7)] [handle 0] no_colors
      empty_state = (Ok asm, st')
    /\ part_names asm
       = ["add_extra_cut_shape_1";
          "extra_intersect_shapes_1"; "layer_5_part_1"; "layer_5_part_2"].
Proof.
  destruct (tokamak_returns_parts two_pieces tokamak_radial_build
              tokamak_vertical_build (11 # 20) 180 [Workplane (handle 7)]
              [handle 0] no_colors empty_state)
    as (asm & st' & E & _ & Hparts).
  - reflexivity.
  - vm_compute. discriminate.
  - reflexivity.
  - vm_compute. lia.
  - vm_compute. lia.
  - vm_compute. lia.
  - reflexivity.
  - reflexivity.
  - simpl. lia.
  - exists asm, st'. split; [exact E|].
    unfold part_names. rewrite Hparts.
    vm_compute in E. injection E as <- _. vm_compute. reflexivity.
Defined.

(** X15: on every radial build with exactly one PLASMA entry, a minor radius
    that is not zero as the code computes it, at least one cylinder layer
    and at least as many entries in front of its plasma as after it, with
    extra-cut shapes that are all Workplanes and at most one extra-intersect
    shape, [tokamak_from_plasma] returns an assembly: the vertical build it
    synthesizes always has enough entries on both sides.  The assembly has
    the triangularity asked for, starts with the extra-cut shapes and holds
    no part named plasma. *)
Theorem tokamak_from_plasma_returns
    (K : Kernel) (radial_build : Build) (e triangularity' rotation_angle : Q)
    (extra_cut_shapes : list pyobj) (extra_intersect_shapes : list Solid)
    (colors : ColorTable) (st : state) :
  exactly_one_plasma radial_build ->
  ~ minor_radius_of radial_build == 0 ->
  (length (after_plasma radial_build) <= length (before_plasma radial_build))%nat ->
  (0 < Tokamak.count_cylinder_layers radial_build)%Z ->
  first_invalid extra_cut_shapes = None ->
  (length extra_intersect_shapes <= 1)%nat ->
  exists asm st',
    Tokamak.tokamak_from_plasma K radial_build e triangularity'
      rotation_angle extra_cut_shapes extra_intersect_shapes colors st
    = (Ok asm, st')
    /\ triangularity asm = triangularity'
    /\ firstn (length extra_cut_shapes) (parts asm)
       = extra_cut_parts colors 0 (as_solids extra_cut_shapes)
    /\ ~ In "plasma" (part_names asm).
Proof.
  intros Hone Hnz Hin Hcount Hcuts Hints.
  destruct (one_plasma_shape _ Hone) as [t [Hf Hout]].
  set (h := 2 * minor_radius_of radial_build * e).
  set (upper := Tokamak.upper_vertical_build radial_build
                  (length (before_plasma radial_build))).
  set (vb := rev upper ++ [(PLASMA, h)] ++ upper).
  pose proof (upper_vertical_build_no_plasma radial_build) as Hupper.
  fold upper in Hupper.
  assert (Hrev : Forall (fun x => is_plasma x = false) (rev upper))
    by now apply Forall_rev.
  assert (Hlen : length upper = length (after_plasma radial_build)).
  { unfold upper. rewrite (upper_vertical_build_enough radial_build Hone Hin).
    rewrite length_rev, length_skipn. unfold Build, BuildEntry in *. lia. }
  assert (Hvone : exactly_one_plasma vb) by now apply plasma_count_app.
  assert (Hvbefore : before_plasma vb = rev upper)
    by now apply before_plasma_app.
  assert (Hvafter : after_plasma vb = upper)
    by (unfold after_plasma at 1, vb; simpl app; now rewrite from_plasma_app).
  assert (Hup : (length (after_plasma radial_build)
                 <= length (before_plasma vb))%nat)
    by (rewrite Hvbefore, length_rev, Hlen; lia).
  assert (Hlow : (length (after_plasma radial_build)
                  <= length (after_plasma vb))%nat)
    by (rewrite Hvafter, Hlen; lia).
  destruct (tokamak_run radial_build vb triangularity' rotation_angle
              Hone Hnz Hvone Hin Hup Hlow Hcount K colors
              extra_cut_shapes extra_intersect_shapes st Hcuts)
    as [Hok _].
  destruct Hok as [st' Erun].
  { apply tokamak_names_distinct. exact Hints. }
  eexists _, st'.
  split.
  - unfold Tokamak.tokamak_from_plasma.
    unfold bind at 1. unfold lift at 1.
    rewrite (tokamak_synthesis radial_build t Hone Hf e).
    cbv zeta. fold upper. fold h. fold vb. exact Erun.
  - cbn [triangularity parts].
    split; [reflexivity|]. split.
    + unfold tokamak_parts. cbv zeta.
      assert (Hn : length extra_cut_shapes
                   = length (extra_cut_parts colors 0
                               (as_solids extra_cut_shapes))).
      { unfold extra_cut_parts. rewrite length_map, length_enumerate_from.
        clear - Hcuts. induction extra_cut_shapes as [|o r IH]; [reflexivity|].
        destruct o; try discriminate. simpl. f_equal. exact (IH Hcuts). }
      rewrite Hn, firstn_app, Nat.sub_diag, firstn_all. simpl.
      now rewrite app_nil_r.
    + exact (tokamak_never_registers_plasma K radial_build vb triangularity'
               rotation_angle extra_cut_shapes extra_intersect_shapes colors
               st st' _ Erun).
Qed.

Lemma tokamak_from_plasma_returns_witness :
  exists asm st',
    Tokamak.tokamak_from_plasma two_pieces tokamak_radial_build 2 (11 # 20)
      180 [Workplane (handle 7)] [handle 0] no_colors empty_state
    = (Ok asm, st')
    /\ triangularity asm = (11 # 20)
    /\ firstn 1 (parts asm)
       = extra_cut_parts no_colors 0 [handle 7]
    /\ ~ In "plasma" (part_names asm).
Proof.
  apply (tokamak_from_plasma_returns two_pieces tokamak_radial_build 2
           (11 # 20) 180 [Workplane (handle 7)] [handle 0] no_colors
           empty_state).
  - reflexivity.
  - vm_compute. discriminate.
  - vm_compute. lia.
  - reflexivity.
  - reflexivity.
  - simpl. lia.
Defined.

(** X16: on builds as in X14, with two extra-intersect shapes or more,
    [tokamak] registers the last layer a second time; when the kernel gives
    it in several pieces both after the first and after the second round of
    cuts, or in one piece both times, the name it is registered under first
    is already taken and [tokamak] raises ValueError (unique name is
    required), with the parts registered up to there in the assembly it does
    not return. *)
Theorem tokamak_second_intersect_shape_clashes
    (K : Kernel) (radial_build vertical_build : Build)
    (triangularity' rotation_angle : Q)
    (extra_cut_shapes : list pyobj) (x1 x2 : Solid) (others : list Solid)
    (colors : ColorTable) (st : state) :
  exactly_one_plasma radial_build ->
  ~ minor_radius_of radial_build == 0 ->
  exactly_one_plasma vertical_build ->
  (length (after_plasma radial_build) <= length (before_plasma radial_build))%nat ->
  (length (after_plasma radial_build) <= length (before_plasma vertical_build))%nat ->
  (length (after_plasma radial_build) <= length (after_plasma vertical_build))%nat ->
  (0 < Tokamak.count_cylinder_layers radial_build)%Z ->
  first_invalid extra_cut_shapes = None ->
  let layers :=
    tokamak_layers radial_build vertical_build (minor_radius_of radial_build)
      (major_radius_of radial_build) triangularity'
      (elongation_of radial_build vertical_build) rotation_angle in
  let compound := reactor_compound_of layers in
  let last_layer_after (shapes : list Solid) :=
    cut_all (last layers (handle 0))
      (as_solids extra_cut_shapes ++ intersections shapes compound) in
  in_pieces K (last_layer_after [x1]) = in_pieces K (last_layer_after [x1; x2]) ->
  exists st' rest,
    Tokamak.tokamak K radial_build vertical_build triangularity'
      rotation_angle extra_cut_shapes (x1 :: x2 :: others) colors st
    = (Raise (ValueError "Unique name is required"), st')
    /\ tokamak_parts K colors radial_build vertical_build triangularity'
         rotation_angle (as_solids extra_cut_shapes) (x1 :: x2 :: others)
       = registered st' ++ rest.
Proof.
  intros Hr Hnz Hv Hin Hup Hlow Hcount Hcuts layers compound last_layer_after
         Hkind.
  destruct (tokamak_run radial_build vertical_build triangularity'
              rotation_angle Hr Hnz Hv Hin Hup Hlow Hcount K colors
              extra_cut_shapes (x1 :: x2 :: others) st Hcuts)
    as [_ Hclash].
  apply Hclash.
  apply tokamak_names_clash. exact Hkind.
Qed.

Lemma tokamak_second_intersect_shape_clashes_witness :
  exists st' rest,
    Tokamak.tokamak two_pieces tokamak_radial_build tokamak_vertical_build
      (11 # 20) 180 [Workplane (handle 7)] [handle 0; handle 1] no_colors
      empty_state
    = (Raise (ValueError "Unique name is required"), st')
    /\ tokamak_parts two_pieces no_colors tokamak_radial_build
         tokamak_vertical_build (11 # 20) 180 [handle 7] [handle 0; handle 1]
       = registered st' ++ rest.
Proof.
  apply (tokamak_second_intersect_shape_clashes two_pieces
           tokamak_radial_build tokamak_vertical_build (11 # 20) 180
           [Workplane (handle 7)] (handle 0) (handle 1) [] no_colors
           empty_state).
  - reflexivity.
  - vm_compute. discriminate.
  - reflexivity.
  - vm_compute. lia.
  - vm_compute. lia.
  - vm_compute. lia.
  - reflexivity.
  - reflexivity.
  - reflexivity.
Defined.

(** The run of [tokamak] on the example builds with two extra-intersect
    shapes: the second registration of layer_5_part_1 is refused. *)
Example tokamak_two_intersect_shapes_example :
  let outcome :=
    Tokamak.tokamak two_pieces tokamak_radial_build tokamak_vertical_build
      (11 # 20) 180 [Workplane (handle 7)] [handle 0; handle 1] no_colors
      empty_state in
  fst outcome = Raise (ValueError "Unique name is required")
  /\ map part_name (registered (snd outcome))
     = ["add_extra_cut_shape_1"; "extra_intersect_shapes_1";
        "layer_5_part_1"; "layer_5_part_2"; "extra_intersect_shapes_2"].
Proof. split; vm_compute; reflexivity. Qed.
